(** * WeedAI ingestion: label discovery and acquisition

    A shallow embedding of the two label scrapers of the ingestion package,

      - [ingestion/scraper.py]      (portal scrape: session token, paginated
                                     search, detail pages, PDF download), and
      - [ingestion/csv_scraper.py]  (CSV-driven download list),

    and of the conversion stage [ingestion/parser.py], together with the
    properties their specification states about them and further
    properties that the code shows.

    The programs talk to a web server and write into a download directory.
    Both are made explicit: a [world] holds the directory contents and the
    trace of every HTTP exchange so far, the server is an arbitrary function
    of that trace, and the Python code becomes a state-and-exception monad
    over worlds.  Markup inspection through BeautifulSoup is represented by
    the answers the program asks of a parsed page. *)

From Stdlib Require Import ZArith Lia Ascii String List.
From Stdlib Require Strings.Byte.
From stdpp Require Import base option list gmap sets strings.

Local Open Scope string_scope.
Local Open Scope list_scope.
#[local] Set Warnings "-clear-no-such-hyp".

(* ===================================================================== *)
(** * Python strings *)
(* ===================================================================== *)

Module PyStr.

(** [s.startswith(p)] *)
Fixpoint startswith (p s : string) : bool :=
  match p, s with
  | EmptyString, _ => true
  | String a p', String b s' => Ascii.eqb a b && startswith p' s'
  | String _ _, EmptyString => false
  end.

(** [c in s] for a one-character [c] *)
Fixpoint contains (c : ascii) (s : string) : bool :=
  match s with
  | EmptyString => false
  | String a s' => Ascii.eqb a c || contains c s'
  end.

(** [s.find(c)], with [None] for Python's [-1] *)
Fixpoint find (c : ascii) (s : string) : option nat :=
  match s with
  | EmptyString => None
  | String a s' => if Ascii.eqb a c then Some 0 else S <$> find c s'
  end.

(** [s.rfind(c)], with [None] for Python's [-1] *)
Fixpoint rfind (c : ascii) (s : string) : option nat :=
  match s with
  | EmptyString => None
  | String a s' =>
      match rfind c s' with
      | Some i => Some (S i)
      | None => if Ascii.eqb a c then Some 0 else None
      end
  end.

(** [s[:n]] and [s[n:]] *)
Fixpoint take (n : nat) (s : string) : string :=
  match n, s with
  | S n', String a s' => String a (take n' s')
  | _, _ => EmptyString
  end.

Fixpoint drop (n : nat) (s : string) : string :=
  match n, s with
  | S n', String _ s' => drop n' s'
  | _, _ => s
  end.

(** [s.split(c)]: never empty, one more piece than occurrences of [c] *)
Fixpoint split (c : ascii) (s : string) : list string :=
  match s with
  | EmptyString => [EmptyString]
  | String a s' =>
      if Ascii.eqb a c then EmptyString :: split c s'
      else match split c s' with
           | h :: t => String a h :: t
           | [] => [String a EmptyString]
           end
  end.

(** [s.split(c, 1)]: the part before the first [c] and, when [c] occurs,
    the part after it *)
Definition split1 (c : ascii) (s : string) : string * option string :=
  match find c s with
  | Some i => (take i s, Some (drop (S i) s))
  | None => (s, None)
  end.

(** [sep.join(parts)] *)
Fixpoint join (sep : string) (parts : list string) : string :=
  match parts with
  | [] => EmptyString
  | [p] => p
  | p :: rest => p +:+ sep +:+ join sep rest
  end.

(** A [string] stands for a Python [str] by its UTF-8 encoding, which is
    how the CSV file is read and how a file name reaches the file system.
    The operations above look for ASCII characters, whose bytes occur in no
    longer sequence, so they act on the encoding as they do on the text.

    White space, as [str.strip] and [str.lstrip] understand it, is more
    than ASCII.  On the ASCII range it is TAB, LF, VT, FF, CR, FS, GS, RS,
    US and the space. *)
Definition isspace (a : ascii) : bool :=
  let n := nat_of_ascii a in
  (Nat.leb 9 n && Nat.leb n 13) || (Nat.leb 28 n && Nat.leb n 32).

(** U+0085 and U+00A0, which take two bytes: [C2 85] and [C2 A0] *)
Definition isspace2 (a b : ascii) : bool :=
  Nat.eqb (nat_of_ascii a) 194
  && (Nat.eqb (nat_of_ascii b) 133 || Nat.eqb (nat_of_ascii b) 160).

(** U+1680 ([E1 9A 80]), U+2000 to U+200A, U+2028, U+2029, U+202F
    ([E2 80 80] to [E2 80 8A], [E2 80 A8], [E2 80 A9], [E2 80 AF]), U+205F
    ([E2 81 9F]) and U+3000 ([E3 80 80]), which take three *)
Definition isspace3 (a b c : ascii) : bool :=
  let '(x, y, z) := (nat_of_ascii a, nat_of_ascii b, nat_of_ascii c) in
  (Nat.eqb x 225 && Nat.eqb y 154 && Nat.eqb z 128)
  || (Nat.eqb x 226 && Nat.eqb y 128
      && ((Nat.leb 128 z && Nat.leb z 138) || Nat.eqb z 168 || Nat.eqb z 169
          || Nat.eqb z 175))
  || (Nat.eqb x 226 && Nat.eqb y 129 && Nat.eqb z 159)
  || (Nat.eqb x 227 && Nat.eqb y 128 && Nat.eqb z 128).

(** [s.lstrip()] *)
Fixpoint lstrip (s : string) : string :=
  match s with
  | EmptyString => EmptyString
  | String a s1 =>
      if isspace a then lstrip s1
      else
        match s1 with
        | EmptyString => s
        | String b s2 =>
            if isspace2 a b then lstrip s2
            else
              match s2 with
              | EmptyString => s
              | String c s3 => if isspace3 a b c then lstrip s3 else s
              end
        end
  end.

(** [s.rstrip()]: what is left of [s] when the white space at its end is
    gone.  Nothing is left of a string that is white space throughout;
    any other string keeps its first byte. *)
Fixpoint rstrip (s : string) : string :=
  match s with
  | EmptyString => EmptyString
  | String a s' =>
      match lstrip s with
      | EmptyString => EmptyString
      | _ => String a (rstrip s')
      end
  end.

(** [s.strip()] *)
Definition strip (s : string) : string := rstrip (lstrip s).

Definition lower_ascii (a : ascii) : ascii :=
  let n := nat_of_ascii a in
  if Nat.leb 65 n && Nat.leb n 90 then ascii_of_nat (n + 32) else a.

(** [s.lower()] on the ASCII range *)
Fixpoint lower (s : string) : string :=
  match s with
  | EmptyString => EmptyString
  | String a s' => String (lower_ascii a) (lower s')
  end.

Definition isalpha (a : ascii) : bool :=
  let n := nat_of_ascii a in
  (Nat.leb 65 n && Nat.leb n 90) || (Nat.leb 97 n && Nat.leb n 122).

Definition isdigit (a : ascii) : bool :=
  let n := nat_of_ascii a in Nat.leb 48 n && Nat.leb n 57.

Fixpoint all (p : ascii -> bool) (s : string) : bool :=
  match s with
  | EmptyString => true
  | String a s' => p a && all p s'
  end.

(** truthiness of a string: [bool(s)] *)
Definition truthy (s : string) : bool :=
  match s with EmptyString => false | _ => true end.

Definition mem (s : string) (l : list string) : bool :=
  existsb (String.eqb s) l.

End PyStr.

(* ===================================================================== *)
(** * [os.path] and [urllib.parse] *)
(* ===================================================================== *)

(** The scraper relies on [os.path.basename], [urlparse] and [urljoin].
    They are library code; the definitions below follow CPython 3.12's
    [posixpath] and [urllib.parse].  [urlsplit] raises [ValueError] on an
    authority with an unmatched or ill-formed bracket ([//[host/...]); the
    definitions do not follow it there. *)

Module Url.
Import PyStr.

(** [posixpath.basename]: [i = p.rfind('/') + 1; return p[i:]] *)
Definition basename (p : string) : string :=
  match rfind "/" p with
  | Some i => drop (S i) p
  | None => p
  end.

Definition uses_relative : list string :=
  [""; "ftp"; "http"; "gopher"; "nntp"; "imap"; "wais"; "file"; "https";
   "shttp"; "mms"; "prospero"; "rtsp"; "rtsps"; "rtspu"; "sftp"; "svn";
   "svn+ssh"; "ws"; "wss"].

Definition uses_netloc : list string :=
  [""; "ftp"; "http"; "gopher"; "nntp"; "telnet"; "imap"; "wais"; "file";
   "mms"; "https"; "shttp"; "snews"; "prospero"; "rtsp"; "rtsps"; "rtspu";
   "rsync"; "svn"; "svn+ssh"; "sftp"; "nfs"; "git"; "git+ssh"; "ws"; "wss";
   "itms-services"].

Definition uses_params : list string :=
  [""; "ftp"; "hdl"; "prospero"; "http"; "imap"; "https"; "shttp"; "rtsp";
   "rtsps"; "rtspu"; "sip"; "sips"; "mms"; "sftp"; "tel"].

Definition scheme_char (a : ascii) : bool :=
  isalpha a || isdigit a || Ascii.eqb a "+" || Ascii.eqb a "-"
  || Ascii.eqb a ".".

Record ParseResult := {
  scheme : string;
  netloc : string;
  path : string;
  params : string;
  query : string;
  fragment : string
}.

(** [_splitnetloc(url, 2)] on a [url] that starts with two slashes: the
    authority runs to the first of [/], [?], [#] *)
Fixpoint until_delim (s : string) : string * string :=
  match s with
  | EmptyString => (EmptyString, EmptyString)
  | String a s' =>
      if Ascii.eqb a "/" || Ascii.eqb a "?" || Ascii.eqb a "#"
      then (EmptyString, s)
      else let '(n, r) := until_delim s' in (String a n, r)
  end.

Definition or_empty (o : option string) : string := default EmptyString o.

(** [_WHATWG_C0_CONTROL_OR_SPACE]: the characters up to the space *)
Definition c0_control_or_space (a : ascii) : bool :=
  Nat.leb (nat_of_ascii a) 32.

(** [url.lstrip(_WHATWG_C0_CONTROL_OR_SPACE)] *)
Fixpoint lstrip_c0 (s : string) : string :=
  match s with
  | String a s' => if c0_control_or_space a then lstrip_c0 s' else s
  | EmptyString => EmptyString
  end.

(** [scheme.strip(_WHATWG_C0_CONTROL_OR_SPACE)] *)
Fixpoint rstrip_c0 (s : string) : string :=
  match s with
  | EmptyString => EmptyString
  | String a s' =>
      match lstrip_c0 s with
      | EmptyString => EmptyString
      | _ => String a (rstrip_c0 s')
      end
  end.

Definition strip_c0 (s : string) : string := rstrip_c0 (lstrip_c0 s).

(** [_UNSAFE_URL_BYTES_TO_REMOVE]: TAB, LF and CR *)
Definition unsafe_url_byte (a : ascii) : bool :=
  let n := nat_of_ascii a in
  Nat.eqb n 9 || Nat.eqb n 10 || Nat.eqb n 13.

(** [for b in _UNSAFE_URL_BYTES_TO_REMOVE: url = url.replace(b, "")] *)
Fixpoint remove_unsafe (s : string) : string :=
  match s with
  | EmptyString => EmptyString
  | String a s' =>
      if unsafe_url_byte a then remove_unsafe s'
      else String a (remove_unsafe s')
  end.

(** [urlsplit(url, scheme)] followed by the parameter split of
    [urlparse(url, scheme)].  Before it looks at them, [urlsplit] removes
    the leading C0 controls and spaces of the URL, those at either end of
    the default scheme, and every TAB, LF and CR of both. *)
Definition urlparse (url : string) (default_scheme : string) : ParseResult :=
  let url := remove_unsafe (lstrip_c0 url) in
  let default_scheme := remove_unsafe (strip_c0 default_scheme) in
  let '(sch, url) :=
    match find ":" url, url with
    | Some (S i), String a _ =>
        if isalpha a && all scheme_char (take (S i) url)
        then (lower (take (S i) url), drop (S (S i)) url)
        else (default_scheme, url)
    | _, _ => (default_scheme, url)
    end in
  let '(nl, url) :=
    if startswith "//" url then until_delim (drop 2 url)
    else (EmptyString, url) in
  let '(url, frag) := split1 "#" url in
  let '(url, qry) := split1 "?" url in
  let '(url, prm) :=
    if mem sch uses_params && contains ";" url then
      (* _splitparams *)
      match rfind "/" url with
      | Some j =>
          match find ";" (drop j url) with
          | Some k => (take (j + k) url, drop (S (j + k)) url)
          | None => (url, EmptyString)
          end
      | None =>
          match find ";" url with
          | Some k => (take k url, drop (S k) url)
          | None => (url, EmptyString)
          end
      end
    else (url, EmptyString) in
  {| scheme := sch; netloc := nl; path := url; params := prm;
     query := or_empty qry; fragment := or_empty frag |}.

(** [urlunparse] *)
Definition urlunparse (r : ParseResult) : string :=
  let url := if truthy (params r) then path r +:+ ";" +:+ params r else path r in
  let url :=
    if truthy (netloc r)
       || (truthy (scheme r) && mem (scheme r) uses_netloc
           && negb (startswith "//" url))
    then "//" +:+ netloc r
         +:+ (if truthy url && negb (startswith "/" url) then "/" +:+ url else url)
    else url in
  let url := if truthy (scheme r) then scheme r +:+ ":" +:+ url else url in
  let url := if truthy (query r) then url +:+ "?" +:+ query r else url in
  if truthy (fragment r) then url +:+ "#" +:+ fragment r else url.

(** the loop of [urljoin] that resolves [.] and [..] *)
Fixpoint resolve_dots (segments resolved : list string) : list string :=
  match segments with
  | [] => resolved
  | seg :: rest =>
      if String.eqb seg ".." then resolve_dots rest (removelast resolved)
      else if String.eqb seg "." then resolve_dots rest resolved
      else resolve_dots rest (resolved ++ [seg])
  end.

(** [segments[1:-1] = filter(None, segments[1:-1])] *)
Definition drop_inner_empty (segments : list string) : list string :=
  match segments with
  | [] => []
  | [s] => [s]
  | s :: rest =>
      s :: List.filter truthy (removelast rest) ++ [List.last rest EmptyString]
  end.

(** [urljoin(base, url)] *)
Definition urljoin (base url : string) : string :=
  if negb (truthy base) then url
  else if negb (truthy url) then base
  else
    let b := urlparse base EmptyString in
    let u := urlparse url (scheme b) in
    if negb (String.eqb (scheme u) (scheme b))
       || negb (mem (scheme u) uses_relative)
    then url
    else if mem (scheme u) uses_netloc && truthy (netloc u)
    then urlunparse u
    else
      let nl := if mem (scheme u) uses_netloc then netloc b else netloc u in
      if negb (truthy (path u)) && negb (truthy (params u))
      then urlunparse
             {| scheme := scheme u; netloc := nl; path := path b;
                params := params b;
                query := if truthy (query u) then query u else query b;
                fragment := fragment u |}
      else
        let base_parts := split "/" (path b) in
        let base_parts :=
          if truthy (List.last base_parts EmptyString)
          then removelast base_parts else base_parts in
        let segments :=
          if startswith "/" (path u) then split "/" (path u)
          else drop_inner_empty (base_parts ++ split "/" (path u)) in
        let resolved := resolve_dots segments [] in
        let last_seg := List.last segments EmptyString in
        let resolved :=
          if String.eqb last_seg "." || String.eqb last_seg ".."
          then resolved ++ [EmptyString] else resolved in
        let joined := join "/" resolved in
        urlunparse
          {| scheme := scheme u; netloc := nl;
             path := if truthy joined then joined else "/";
             params := params u; query := query u;
             fragment := fragment u |}.

End Url.

(* ===================================================================== *)
(** * Exceptions, markup, HTTP and the world *)
(* ===================================================================== *)

(** The exception classes the two programs can meet.  Every error of the
    [requests] package (connection faults, [HTTPError] from
    [raise_for_status], a body stream that breaks off, a URL that it turns
    down) derives from [RequestException].  [AttributeError] is what
    [None.strip()] raises. *)
Inductive exn :=
| RequestException | ValueError | KeyError | OSError | AttributeError.

Inductive result (A : Type) :=
| Ok (a : A)
| Raise (e : exn).
Arguments Ok {A} a.
Arguments Raise {A} e.

(** A BeautifulSoup [Tag], as far as the scrapers look at it: its attribute
    dictionary. *)
Abbreviation tag := (gmap string string).

(** A table cell with [cell.a], its first anchor if any. *)
Inductive cell := Cell (a : option tag).

(** A table row with [row.find('td')], its first cell if any. *)
Inductive row := Row (td : option cell).

(** A parsed page, [BeautifulSoup(response.text, 'lxml')], through the three
    queries made of it:
    - [soup.find('input', {'name': 'p_auth'})],
    - [soup.find('table', class_='search-results-table')] together with the
      [find_all('tr')] of that table,
    - [soup.find('a', text='e-label')]. *)
Record soup := {
  find_p_auth : option tag;
  find_results_table : option (list row);
  find_elabel : option tag
}.

Abbreviation bytes := (list Byte.byte).

(** An HTTP response.  The [content-length] header is absent ([None]),
    present but no integer literal ([Some None]: [int] raises [ValueError])
    or an integer.  [iter_content] lists the chunks the body stream yields;
    when [stream_fault] is set the stream raises after the last of them. *)
Record response := {
  status_code : Z;
  content_length : option (option Z);
  text : soup;
  iter_content : list bytes;
  stream_fault : bool
}.

(** What a request comes back with: an exception of the [requests] package
    before any response, or a response. *)
Inductive reply :=
| ConnectionError
| Response (r : response).

(** The search form: everything but [p_auth] and the page number is a
    constant of the program. *)
Record form_data := {
  p_auth : string;
  cur : nat;
  delta : nat;
  productType : string
}.

Inductive request :=
| GET (url : string)
| POST (url : string) (data : form_data).

Abbreviation event := (request * reply)%type.

(** The download directory, keyed by file name, and the HTTP exchanges so
    far, oldest first. *)
Record world := {
  store : gmap string bytes;
  trace : list event
}.

(** The remote side: any function from the exchanges so far and the request
    at hand to a reply. *)
Abbreviation server_t := (list event -> request -> reply).

(** Computations that read and change the world and may raise. *)
Definition M (A : Type) : Type := world -> result A * world.

Definition ret {A} (a : A) : M A := fun w => (Ok a, w).

Definition raise {A} (e : exn) : M A := fun w => (Raise e, w).

Definition bind {A B} (m : M A) (k : A -> M B) : M B :=
  fun w =>
    match m w with
    | (Ok a, w') => k a w'
    | (Raise e, w') => (Raise e, w')
    end.

(** [try: m  except E: h] for the exception class [E] *)
Definition try_except {A} (m : M A) (E : exn -> bool) (h : M A) : M A :=
  fun w =>
    match m w with
    | (Raise e, w') => if E e then h w' else (Raise e, w')
    | r => r
    end.

Declare Scope py_scope.
Delimit Scope py_scope with py.
Notation "x <- m ;; k" := (bind m (fun x => k))
  (at level 100, m at next level, right associativity) : py_scope.
Notation "m ;; k" := (bind m (fun _ => k))
  (at level 100, right associativity) : py_scope.
Local Open Scope py_scope.

Definition is_RequestException (e : exn) : bool :=
  match e with RequestException => true | _ => false end.

(** [except Exception] *)
Definition is_Exception (e : exn) : bool := true.

(** [for x in xs: body x], stopped by the first exception that escapes the
    body *)
Fixpoint for_each {A} (xs : list A) (body : A -> M unit) : M unit :=
  match xs with
  | [] => ret tt
  | x :: xs' => body x ;; for_each xs' body
  end.

Module Http.

Definition url_of (req : request) : string :=
  match req with GET url => url | POST url _ => url end.

(** What follows [http://] or [https://], in either case of the letters,
    in a URL.  [requests] removes the white space in front of a URL before
    anything else ([url.lstrip()] in [prepare_url]). *)
Definition after_scheme (url : string) : option string :=
  let url := PyStr.lstrip url in
  if PyStr.startswith "http://" (PyStr.lower url)
  then Some (PyStr.drop 7 url)
  else if PyStr.startswith "https://" (PyStr.lower url)
  then Some (PyStr.drop 8 url)
  else None.

Definition backslash : ascii := ascii_of_nat 92.

(** The authority ends at the first slash, question mark, hash or
    backslash. *)
Fixpoint authority_of (s : string) : string :=
  match s with
  | EmptyString => EmptyString
  | String a s' =>
      if Ascii.eqb a "/" || Ascii.eqb a "?" || Ascii.eqb a "#"
         || Ascii.eqb a backslash
      then EmptyString
      else String a (authority_of s')
  end.

(** The host of [user:password@host:port]: what follows the last [@], up
    to the colon. *)
Definition host_of (authority : string) : string :=
  let host_port :=
    match PyStr.rfind "@" authority with
    | Some i => PyStr.drop (S i) authority
    | None => authority
    end in
  match PyStr.find ":" host_port with
  | Some i => PyStr.take i host_port
  | None => host_port
  end.

(** [requests] hands a URL to one of its two transports only when it
    names one of them and a host.  Without a scheme it raises
    [MissingSchema], with another scheme [InvalidSchema], without a host
    [InvalidURL], in each case before anything is sent.  The checks that
    it makes of a host and a port beyond that (a port that is no number, a
    bracketed address, a name that IDNA refuses) are not told apart from a
    connection that fails: such a URL counts as handed over and the
    exception as the [ConnectionError] of the exchange. *)
Definition has_transport (url : string) : bool :=
  match after_scheme url with
  | Some rest => PyStr.truthy (host_of (authority_of rest))
  | None => false
  end.

(** [requests.get], [session.get], [session.post]: the exchange is
    recorded, and a fault on the way surfaces as [RequestException]. *)
Definition send (server : server_t) (req : request) : M response :=
  fun w =>
    if negb (has_transport (url_of req)) then (Raise RequestException, w)
    else
      let r := server (trace w) req in
      let w' := {| store := store w; trace := trace w ++ [(req, r)] |} in
      match r with
      | ConnectionError => (Raise RequestException, w')
      | Response resp => (Ok resp, w')
      end.

Definition is_error_status (code : Z) : bool :=
  ((400 <=? code) && (code <? 600))%Z.

(** [response.raise_for_status()]: [HTTPError] for 4xx and 5xx *)
Definition raise_for_status (resp : response) : M unit :=
  if is_error_status (status_code resp)
  then raise RequestException
  else ret tt.

(** [int(response.headers.get('content-length', 0))] *)
Definition total_size (resp : response) : M Z :=
  match content_length resp with
  | None => ret 0%Z
  | Some None => raise ValueError
  | Some (Some n) => ret n
  end.

End Http.

Module Fs.

(** The directory is one of regular files.  [path_exists] and [open_wb]
    below are [os.path.exists] and [open] for a [name] that is one path
    component, [plain_name], or one of the three that denote a directory;
    a name that leads elsewhere (one with a slash in it) is beyond them,
    as are faults of the file system itself. *)

(** A name of one component: no slash, no NUL, at most 255 bytes. *)
Definition plain_name (name : string) : bool :=
  negb (PyStr.contains "/" name)
  && negb (PyStr.contains (ascii_of_nat 0) name)
  && Nat.leb (String.length name) 255.

(** Names that denote a directory when joined to the download
    directory. *)
Definition names_directory (name : string) : bool :=
  String.eqb name "" || String.eqb name "." || String.eqb name "..".

(** [os.path.exists(os.path.join(DOWNLOAD_DIR, name))] *)
Definition path_exists (name : string) : M bool :=
  fun w =>
    (Ok (names_directory name || bool_decide (is_Some (store w !! name))), w).

(** [open(os.path.join(DOWNLOAD_DIR, name), 'wb')]: the file is created
    empty or truncated *)
Definition open_wb (name : string) : M unit :=
  fun w =>
    if names_directory name then (Raise OSError, w)
    else (Ok tt, {| store := <[name := []]> (store w); trace := trace w |}).

(** [f.write(data)] on the file opened under [name] *)
Definition write (name : string) (data : bytes) : M unit :=
  fun w =>
    (Ok tt,
     {| store := <[name := default [] (store w !! name) ++ data]> (store w);
        trace := trace w |}).

(** [for data in response.iter_content(chunk_size=1024): f.write(data)] *)
Fixpoint write_chunks (name : string) (chunks : list bytes) (fault : bool)
  : M unit :=
  match chunks with
  | [] => if fault then raise RequestException else ret tt
  | data :: rest => write name data ;; write_chunks name rest fault
  end.

(** The [with open(...) as f:] block of both [download_pdf]s.  The
    progress bar takes no part in the outcome. *)
Definition save_body (name : string) (resp : response) : M unit :=
  open_wb name ;;
  write_chunks name (iter_content resp) (stream_fault resp).

End Fs.

(** [tag[key]] *)
Definition getitem (t : tag) (key : string) : M string :=
  match t !! key with
  | Some v => ret v
  | None => raise KeyError
  end.

(* ===================================================================== *)
(** * [scraper.py] *)
(* ===================================================================== *)

Module Scraper.
Import PyStr.

Definition BASE_URL : string := "https://portal.apvma.gov.au/".
Definition SEARCH_URL : string := "https://portal.apvma.gov.au/pubcris".
(** "Limit for demonstration purposes, set to None to scrape all" *)
Definition MAX_PAGES : option nat := Some 2.
Definition PRODUCT_TYPE_FILTER : string := "HERBICIDE".

(** What an iteration of [while True:] ends in. *)
Inductive loop_ctl :=
| Continue (found : gset string)
| Break (found : gset string).

(** Lines 157-165 of the product loop: the document URL made of the
    e-label [href], and the file name made of that URL. *)
Definition resolve_pdf_url (base href : string) : string :=
  if negb (startswith "http" href) then Url.urljoin base href else href.

Definition pdf_filename_of (pdf_url : string) : string :=
  Url.basename (Url.path (Url.urlparse pdf_url "")).

(** The scan of the data rows of one results page (lines 125-132):
    [found] is [product_links_found], [new] is [new_links_on_page]. *)
Fixpoint scan_rows (rows : list row) (found : gset string) (new : nat)
  : M (gset string * nat) :=
  match rows with
  | [] => ret (found, new)
  | Row td :: rest =>
      match td with
      | Some (Cell (Some a)) =>
          link <- getitem a "href" ;;
          if bool_decide (link ∈ found)
          then scan_rows rest found new
          else scan_rows rest ({[link]} ∪ found) (S new)
      | _ => scan_rows rest found new
      end
  end.

(** [MAX_PAGES and current_page >= MAX_PAGES] *)
Definition page_cap_reached (max_pages : option nat) (current_page : nat)
  : bool :=
  match max_pages with
  | Some m => Nat.ltb 0 m && Nat.leb m current_page
  | None => false
  end.

Section WithServer.
Variable server : server_t.

Definition get_session_params (url : string) : M (option string) :=
  try_except
    (response <- Http.send server (GET url) ;;
     Http.raise_for_status response ;;
     match find_p_auth (text response) with
     | None => raise ValueError
     | Some p_auth_input =>
         v <- getitem p_auth_input "value" ;;
         ret (Some v)
     end)
    is_RequestException
    (ret None).

(** The download directory is taken to exist, which is what
    [ensure_dir] establishes before anything else runs. *)
Definition ensure_dir : M unit := ret tt.

Definition download_pdf (pdf_url filename : string) : M bool :=
  try_except
    (pdf_response <- Http.send server (GET pdf_url) ;;
     Http.raise_for_status pdf_response ;;
     Http.total_size pdf_response ;;
     Fs.save_body filename pdf_response ;;
     ret true)
    is_RequestException
    (ret false).

(** One iteration of the search loop (lines 86-144). *)
Definition search_page (max_pages : option nat) (token : string)
    (current_page : nat) (found : gset string) : M loop_ctl :=
  let form :=
    {| p_auth := token; cur := current_page; delta := 75;
       productType := PRODUCT_TYPE_FILTER |} in
  posted <-
    try_except
      (response <- Http.send server (POST SEARCH_URL form) ;;
       Http.raise_for_status response ;;
       ret (Some response))
      is_RequestException
      (ret None) ;;
  match posted with
  | None => ret (Break found)
  | Some response =>
      match find_results_table (text response) with
      | None => ret (Break found)
      | Some rows =>
          if Nat.leb (length rows) 1 then ret (Break found)
          else
            scanned <- scan_rows (List.tl rows) found 0 ;;
            let '(found', new_links_on_page) := scanned in
            if Nat.eqb new_links_on_page 0 && Nat.ltb 1 current_page
            then ret (Break found')
            else if page_cap_reached max_pages current_page
            then ret (Break found')
            else ret (Continue found')
      end
  end.

(** [while True:] with its iterations bounded by [fuel]; [None] when
    the bound is hit before the loop is left. *)
Fixpoint search_loop (fuel : nat) (max_pages : option nat)
    (token : string) (current_page : nat) (found : gset string)
  : M (option (gset string)) :=
  match fuel with
  | 0 => ret None
  | S fuel' =>
      ctl <- search_page max_pages token current_page found ;;
      match ctl with
      | Break found' => ret (Some found')
      | Continue found' =>
          search_loop fuel' max_pages token (S current_page) found'
      end
  end.

(** The body of the product loop (lines 149-176). *)
Definition process_product (product_url : string) : M unit :=
  try_except
    (product_page <- Http.send server (GET product_url) ;;
     Http.raise_for_status product_page ;;
     match find_elabel (text product_page) with
     | None => ret tt
     | Some elabel_link_tag =>
         href <- getitem elabel_link_tag "href" ;;
         if truthy href then
           let pdf_url := resolve_pdf_url BASE_URL href in
           let pdf_filename := pdf_filename_of pdf_url in
           present <- Fs.path_exists pdf_filename ;;
           if negb present
           then download_pdf pdf_url pdf_filename ;; ret tt
           else ret tt
         else ret tt
     end)
    is_RequestException
    (ret tt).

(** [scrape_labels], with the page cap as a parameter.  The program
    returns nothing; the model returns what its closing report states,
    the number of product links found, [Some None] after the early
    [return] and [None] when [fuel] does not cover the search. *)
Definition scrape_labels_with (max_pages : option nat) (fuel : nat)
  : M (option (option nat)) :=
  ensure_dir ;;
  token <- get_session_params SEARCH_URL ;;
  match token with
  | None => ret (Some None)
  | Some token =>
      if negb (truthy token) then ret (Some None)
      else
        walked <- search_loop fuel max_pages token 1 ∅ ;;
        match walked with
        | None => ret None
        | Some product_links_found =>
            for_each (elements product_links_found) process_product ;;
            ret (Some (Some (size product_links_found)))
        end
  end.

Definition scrape_labels (fuel : nat) : M (option (option nat)) :=
  scrape_labels_with MAX_PAGES fuel.

End WithServer.

End Scraper.

(* ===================================================================== *)
(** * [csv_scraper.py] *)
(* ===================================================================== *)

Module CsvScraper.
Import PyStr.

Definition BASE_URL : string := "https://elabels.apvma.gov.au/".

(** A field of a record: a string, or [None]. *)
Abbreviation field := (option string).

(** An entry of [products_to_download]. *)
Record product := {
  no : string;
  actives : string;
  name : field
}.

(** A record of the CSV file as [csv.DictReader] hands it over: column
    name to field.  A record with fewer fields than the header has columns
    carries [None] under the columns it has nothing for. *)
Abbreviation csv_row := (gmap string field).

(** [row.get(key, fallback)] *)
Definition get (r : csv_row) (key : string) (fallback : field) : field :=
  default fallback (r !! key).

(** [value.strip()], which [None] has not *)
Definition strip_field (value : field) : result string :=
  match value with
  | Some s => Ok (strip s)
  | None => Raise AttributeError
  end.

(** The body of [for row in reader:] (lines 58-72) on the loop state
    [(unique_actives, products_to_download)]. *)
Definition select_row (st : gset string * list product) (r : csv_row)
  : result (gset string * list product) :=
  let '(unique_actives, products_to_download) := st in
  match strip_field (get r "Actives" (Some "")) with
  | Raise e => Raise e
  | Ok actives =>
      match strip_field (get r "No" (Some "")) with
      | Raise e => Raise e
      | Ok product_no =>
          if negb (truthy actives) || negb (truthy product_no) then Ok st
          else if bool_decide (actives ∈ unique_actives) then Ok st
          else Ok ({[actives]} ∪ unique_actives,
                   products_to_download
                     ++ [{| no := product_no; actives := actives;
                            name := get r "Name" (Some "Unknown") |}])
      end
  end.

(** [for row in reader:] (lines 57-72), left at the first record that
    raises *)
Fixpoint select_rows (rows : list csv_row) (st : gset string * list product)
  : result (gset string * list product) :=
  match rows with
  | [] => Ok st
  | r :: rest =>
      match select_row st r with
      | Ok st' => select_rows rest st'
      | Raise e => Raise e
      end
  end.

(** [products_to_download] as the download loop finds it; there is none
    to find when the selection has raised. *)
Definition select_products (rows : list csv_row) : list product :=
  match select_rows rows (∅, []) with
  | Ok st => st.2
  | Raise _ => []
  end.

Definition filename_of (p : product) : string := no p +:+ "ELBL.pdf".
Definition url_of (p : product) : string := BASE_URL +:+ filename_of p.

Section WithServer.
Variable server : server_t.

(** As in [scraper.py], the directory is taken to exist. *)
Definition ensure_dir : M unit := ret tt.

Definition download_pdf (pdf_url filename : string) : M bool :=
  try_except
    (present <- Fs.path_exists filename ;;
     if present then ret true
     else
       response <- Http.send server (GET pdf_url) ;;
       if Z.eqb (status_code response) 404 then ret false
       else
         Http.raise_for_status response ;;
         Http.total_size response ;;
         Fs.save_body filename response ;;
         ret true)
    is_Exception
    (ret false).

(** The download loop (lines 76-87) on the two counters
    [(success_count, fail_count)]. *)
Fixpoint download_all (products : list product) (counts : nat * nat)
  : M (nat * nat) :=
  match products with
  | [] => ret counts
  | p :: rest =>
      ok <- download_pdf (url_of p) (filename_of p) ;;
      let '(success_count, fail_count) := counts in
      if ok then download_all rest (S success_count, fail_count)
      else download_all rest (success_count, S fail_count)
  end.

(** [process_csv] on the records of the CSV file.  The program returns
    nothing; the model returns the two counts of its closing report,
    "Successfully downloaded" and "Failed/Not Found". *)
Definition process_csv (rows : list csv_row) : M (nat * nat) :=
  ensure_dir ;;
  match select_rows rows (∅, []) with
  | Raise e => raise e
  | Ok (_, products_to_download) => download_all products_to_download (0, 0)
  end.

End WithServer.

End CsvScraper.

(* ===================================================================== *)
(** * [parser.py] *)
(* ===================================================================== *)

Module Parser.
Import PyStr.

(** [s.endswith(suffix)] *)
Fixpoint endswith (suffix s : string) : bool :=
  String.eqb s suffix
  || match s with
     | EmptyString => false
     | String _ s' => endswith suffix s'
     end.

(** [genericpath._splitext(p, '/', None, '.')], the [os.path.splitext] of
    POSIX paths: the extension starts at the last dot of the last
    component, unless that component has nothing but dots before it. *)
Definition splitext (p : string) : string * string :=
  let filenameIndex :=
    match rfind "/" p with Some sepIndex => S sepIndex | None => 0 end in
  match rfind "." p with
  | Some dotIndex =>
      if Nat.leb filenameIndex dotIndex
         && negb (all (Ascii.eqb ".")
                    (take (dotIndex - filenameIndex) (drop filenameIndex p)))
      then (take dotIndex p, drop dotIndex p)
      else (p, EmptyString)
  | None => (p, EmptyString)
  end.

(** The name of the Markdown file for a PDF (lines 69-71). *)
Definition output_filename_of (pdf_name : string) : string :=
  (splitext (Url.basename pdf_name)).1 +:+ ".md".

(** A directory entry that [glob] gives for the pattern [*.pdf]: it ends
    in [.pdf] and is not hidden. *)
Definition matches_pdf (name : string) : bool :=
  endswith ".pdf" name && negb (startswith "." name).

(** The labels directory, the directory of parsed files, and the files
    handed to the parsing service so far, oldest first. *)
Record state := {
  labels : gmap string bytes;
  parsed : gmap string string;
  calls : list string
}.

(** The parsing service behind [parser.aload_data]: from the calls so
    far, the file name and what the file holds, the texts of the documents
    it returns, or [None] when the call raises. *)
Abbreviation service_t :=
  (list string -> string -> option bytes -> option (list string)).

(** [glob.glob(os.path.join(LABELS_DIR, "*.pdf"))], as names within the
    directory, in the order the directory lists them. *)
Definition glob_pdf (dir : gmap string bytes) : list string :=
  List.filter matches_pdf (map_to_list dir).*1.

Definition newline : string := String (ascii_of_nat 10) EmptyString.

Section WithService.
Variable service : service_t.

(** [parse_pdf], with the two paths given by their names within the labels
    and the parsed directory.  Every exception is caught. *)
Definition parse_pdf (pdf_name output_name : string) (st : state)
  : bool * state :=
  if bool_decide (is_Some (parsed st !! output_name)) then (true, st)
  else
    match service (calls st) pdf_name (labels st !! pdf_name) with
    | None =>
        (false,
         {| labels := labels st; parsed := parsed st;
            calls := calls st ++ [pdf_name] |})
    | Some documents =>
        let full_text := join (newline +:+ newline) documents in
        (true,
         {| labels := labels st;
            parsed := <[output_name := full_text]> (parsed st);
            calls := calls st ++ [pdf_name] |})
    end.

(** The loop of [main] (lines 68-77) on the two counters
    [(success_count, fail_count)]. *)
Fixpoint parse_all (pdf_files : list string) (counts : nat * nat)
    (st : state) : (nat * nat) * state :=
  match pdf_files with
  | [] => (counts, st)
  | pdf_name :: rest =>
      let '(ok, st') := parse_pdf pdf_name (output_filename_of pdf_name) st in
      let '(success_count, fail_count) := counts in
      if ok then parse_all rest (S success_count, fail_count) st'
      else parse_all rest (success_count, S fail_count) st'
  end.

(** [main], given what [os.getenv("LLAMA_CLOUD_API_KEY")] returns.  The
    program returns nothing; the model returns the two counts of its
    closing report, and [None] after the early [return]. *)
Definition main (api_key : option string) (st : state)
  : option (nat * nat) * state :=
  match api_key with
  | None => (None, st)
  | Some key =>
      if negb (truthy key) then (None, st)
      else
        let '(counts, st') := parse_all (glob_pdf (labels st)) (0, 0) st in
        (Some counts, st')
  end.

End WithService.

End Parser.

(* ===================================================================== *)
(** * Vocabulary of the specification *)
(* ===================================================================== *)

Module Walk.

(** The link a data row offers: none when the row has no first cell or
    the cell no anchor, [Some None] when the anchor carries no [href]. *)
Definition row_link (r : row) : option (option string) :=
  match r with
  | Row (Some (Cell (Some a))) => Some (a !! "href")
  | _ => None
  end.

(** The links on the data rows of a results page. *)
Definition links_of (rows : list row) : list string :=
  omap (fun r => row_link r ≫= id) rows.

(** The data rows a reply to a search request shows: those of its results
    table below the header row, when the reply is a page and not an
    error. *)
Definition page_rows (rep : reply) : list row :=
  match rep with
  | ConnectionError => []
  | Response resp =>
      if Http.is_error_status (status_code resp) then []
      else match find_results_table (text resp) with
           | Some rows => List.tl rows
           | None => []
           end
  end.

(** [l] is a product link on one of the pages received in [evs]. *)
Definition link_on_pages (evs : list event) (l : string) : Prop :=
  exists req rep, (req, rep) ∈ evs /\ l ∈ links_of (page_rows rep).

Definition search_request (token : string) (page : nat) : request :=
  POST Scraper.SEARCH_URL
    {| p_auth := token; cur := page; delta := 75;
       productType := Scraper.PRODUCT_TYPE_FILTER |}.

(** The walk that starts at page 1 in world [w0] comes to request page
    [N] with [found] accumulated, in world [w]. *)
Inductive arrives (server : server_t) (max_pages : option nat)
    (token : string) (w0 : world) : nat -> gset string -> world -> Prop :=
| arrives_first : arrives server max_pages token w0 1 ∅ w0
| arrives_next N found w found' w' :
    arrives server max_pages token w0 N found w ->
    Scraper.search_page server max_pages token N found w
      = (Ok (Scraper.Continue found'), w') ->
    arrives server max_pages token w0 (S N) found' w'.

(** What the product loop asks of [requests] for one product link, when
    the calls so far are [tr]: nothing, for a link that [requests] turns
    down; the detail page at the link as it was found; or the detail page
    and then the document at the URL made of the [href] of its e-label
    anchor. *)
Definition product_exchanges (server : server_t) (tr : list event)
    (link : string) (evs : list event) : Prop :=
  let rep := server tr (GET link) in
  (Http.has_transport link = false /\ evs = [])
  \/ (Http.has_transport link = true /\ evs = [(GET link, rep)])
  \/ (exists page elabel href,
        let pdf_url := Scraper.resolve_pdf_url Scraper.BASE_URL href in
        Http.has_transport link = true
        /\ rep = Response page
        /\ find_elabel (text page) = Some elabel
        /\ elabel !! "href" = Some href
        /\ Http.has_transport pdf_url = true
        /\ evs = [(GET link, rep);
                  (GET pdf_url, server (tr ++ [(GET link, rep)]) (GET pdf_url))]).

(** The same for the links of a list, one after the other. *)
Fixpoint product_loop_exchanges (server : server_t) (tr : list event)
    (links : list string) (evss : list (list event)) : Prop :=
  match links, evss with
  | [], [] => True
  | link :: links', evs :: evss' =>
      product_exchanges server tr link evs
      /\ product_loop_exchanges server (tr ++ evs) links' evss'
  | _, _ => False
  end.

End Walk.

Module Selection.
Import PyStr.

(** A record is complete when neither of the two fields that the
    selection looks at is [None]: it is as long as the header up to the
    [Actives] and [No] columns, or the header lacks the column. *)
Definition complete (r : CsvScraper.csv_row) : bool :=
  match CsvScraper.get r "Actives" (Some ""), CsvScraper.get r "No" (Some "")
  with
  | Some _, Some _ => true
  | _, _ => false
  end.

(** The two fields of a complete record, as the program reads them. *)
Definition key (r : CsvScraper.csv_row) : string :=
  strip (default "" (CsvScraper.get r "Actives" (Some ""))).

Definition number (r : CsvScraper.csv_row) : string :=
  strip (default "" (CsvScraper.get r "No" (Some ""))).

(** Both fields are non-empty once stripped. *)
Definition qualifies (r : CsvScraper.csv_row) : bool :=
  truthy (key r) && truthy (number r).

(** The download-list entry made of a record. *)
Definition entry (r : CsvScraper.csv_row) : CsvScraper.product :=
  {| CsvScraper.no := number r;
     CsvScraper.actives := key r;
     CsvScraper.name := CsvScraper.get r "Name" (Some "Unknown") |}.

(** What the loop body makes of the loop state on a complete record. *)
Definition step (st : gset string * list CsvScraper.product)
    (r : CsvScraper.csv_row) : gset string * list CsvScraper.product :=
  if qualifies r then
    if bool_decide (key r ∈ st.1) then st
    else ({[key r]} ∪ st.1, st.2 ++ [entry r])
  else st.

(** Record [i] of [rows] is the first qualifying record with its
    actives. *)
Definition first_of_its_actives (rows : list CsvScraper.csv_row) (i : nat)
    (r : CsvScraper.csv_row) : Prop :=
  rows !! i = Some r
  /\ qualifies r = true
  /\ forall j r', j < i -> rows !! j = Some r' -> qualifies r' = true ->
                  key r' <> key r.

(** What holds of the loop state [(unique_actives, products_to_download)]
    after the records [rows]. *)
Definition invariant (rows : list CsvScraper.csv_row)
    (st : gset string * list CsvScraper.product) : Prop :=
  (forall a, a ∈ st.1 <-> a ∈ CsvScraper.actives <$> st.2)
  /\ NoDup (CsvScraper.actives <$> st.2)
  /\ (forall p, p ∈ st.2 ->
        exists i r, first_of_its_actives rows i r /\ p = entry r)
  /\ (forall i r, rows !! i = Some r -> qualifies r = true ->
        exists p, p ∈ st.2 /\ CsvScraper.actives p = key r).

End Selection.

(* ===================================================================== *)
(** * Sample pages, servers and inputs *)
(* ===================================================================== *)

Module Samples.

Definition blank : soup :=
  {| find_p_auth := None; find_results_table := None; find_elabel := None |}.

Definition pdf_magic : bytes := [Byte.x25; Byte.x50; Byte.x44; Byte.x46].
Definition pdf_tail : bytes := [Byte.x25; Byte.x45; Byte.x4f; Byte.x46].

Definition status (code : Z) : response :=
  {| status_code := code; content_length := None; text := blank;
     iter_content := []; stream_fault := false |}.

Definition page (s : soup) : response :=
  {| status_code := 200; content_length := None; text := s;
     iter_content := []; stream_fault := false |}.

Definition document (chunks : list bytes) (fault : bool) : response :=
  {| status_code := 200; content_length := Some (Some 8%Z); text := blank;
     iter_content := chunks; stream_fault := fault |}.

Definition empty_world : world := {| store := ∅; trace := [] |}.

(** A server without the label: every request is answered 404. *)
Definition server_404 : server_t := fun _ _ => Response (status 404).

(** A server in trouble: every request is answered 500. *)
Definition server_500 : server_t := fun _ _ => Response (status 500).

(** A server whose document body breaks off after the first chunk. *)
Definition server_cut : server_t :=
  fun _ _ => Response (document [pdf_magic] true).

Definition csv (actives_field no_field : string)
  : CsvScraper.csv_row :=
  {[ "Actives" := Some actives_field; "No" := Some no_field;
     "Name" := Some "Product" ]}.

(** Two records with different actives and the same product number. *)
Definition same_number : list CsvScraper.csv_row :=
  [csv "glyphosate" "31394"; csv "2,4-D" "31394"].

Definition two_products : list CsvScraper.csv_row :=
  [csv "glyphosate" "31394"; csv "2,4-D" "45678"].

Definition anchor (href : string) : tag := {[ "href" := href ]}.
Definition link_row (href : string) : row :=
  Row (Some (Cell (Some (anchor href)))).
Definition header_row : row := Row None.

Definition landing : soup :=
  {| find_p_auth := Some {[ "name" := "p_auth"; "value" := "Zx81" ]};
     find_results_table := None; find_elabel := None |}.

Definition results (rows : list row) : soup :=
  {| find_p_auth := None; find_results_table := Some (header_row :: rows);
     find_elabel := None |}.

Definition detail (elabel : option tag) : soup :=
  {| find_p_auth := None; find_results_table := None;
     find_elabel := elabel |}.

Definition product_a : string := "https://portal.apvma.gov.au/products/a".
Definition product_b : string := "https://portal.apvma.gov.au/products/b".
Definition product_c : string := "https://portal.apvma.gov.au/products/c".

(** The portal: a landing page with the token, three product links over
    two results pages and the second page again from then on, a detail page
    per product, and the documents. *)
Definition portal : server_t :=
  fun _ req =>
    match req with
    | POST _ form =>
        match cur form with
        | 1 => Response (page (results [link_row product_a;
                                        link_row product_b;
                                        link_row product_a]))
        | _ => Response (page (results [link_row product_b;
                                        link_row product_c]))
        end
    | GET url =>
        if String.eqb url Scraper.SEARCH_URL then Response (page landing)
        else if String.eqb url product_a
        then Response (page (detail (Some (anchor "/files/A1.pdf"))))
        else if String.eqb url product_b
        then Response (page (detail (Some (anchor "/files/B2.pdf"))))
        else if String.eqb url product_c
        then Response (page (detail (Some (anchor "/files/C3.pdf"))))
        else Response (document [pdf_magic; pdf_tail] false)
    end.


(** A portal whose landing page has lost the token field, and a network
    that is down. *)
Definition portal_without_token : server_t := fun _ _ => Response (page blank).
Definition network_down : server_t := fun _ _ => ConnectionError.

(** The portal with one detail page whose e-label anchor carries no
    [href]: that of product c, the first product the loop comes to. *)
Definition portal_with_bare_anchor : server_t :=
  fun tr req =>
    match req with
    | GET url =>
        if String.eqb url product_c
        then Response (page (detail (Some {[ "class" := "label" ]})))
        else portal tr req
    | _ => portal tr req
    end.

(** Records with padded, repeated and missing fields. *)
Definition untidy : list CsvScraper.csv_row :=
  [csv "  glyphosate " "31394"; csv "glyphosate" "99999"; csv "" "11111";
   csv "2,4-D" "   "; csv "2,4-D" " 45678"].

(** A labels directory with two labels, a hidden file and a text file,
    and a parsing service that fails on the second label. *)
Definition labels_dir : gmap string bytes :=
  {[ "31394ELBL.pdf" := pdf_magic; "45678ELBL.pdf" := pdf_magic;
     ".cache.pdf" := pdf_magic; "notes.txt" := pdf_tail ]}.

Definition parsing_service : Parser.service_t :=
  fun _ name _ =>
    if String.eqb name "45678ELBL.pdf" then None
    else Some ["DIRECTIONS FOR USE"; "SAFETY DIRECTIONS"].

Definition unparsed : Parser.state :=
  {| Parser.labels := labels_dir; Parser.parsed := ∅; Parser.calls := [] |}.

(** A server whose document comes with a [content-length] that is no
    number. *)
Definition server_bad_length : server_t :=
  fun _ _ =>
    Response {| status_code := 200; content_length := Some None;
                text := blank; iter_content := [pdf_magic];
                stream_fault := false |}.

(** A portal whose results page has a data row with an anchor that has no
    [href], after a row that is in order. *)
Definition bare_row_page : response :=
  page (results [link_row product_a; Row (Some (Cell (Some ∅)));
                 link_row product_b]).

Definition portal_with_bare_row : server_t :=
  fun tr req =>
    match req with
    | POST _ _ => Response bare_row_page
    | _ => portal tr req
    end.

(** A portal whose token field is there but has no [value]. *)
Definition portal_with_bare_token : server_t :=
  fun _ _ =>
    Response (page {| find_p_auth := Some {[ "name" := "p_auth" ]};
                      find_results_table := None; find_elabel := None |}).

(** The portal with nothing behind its first results page: the second
    search request is answered 500. *)
Definition portal_with_one_page : server_t :=
  fun tr req =>
    match req with
    | POST _ form =>
        match cur form with
        | 1 => portal tr req
        | _ => Response (status 500)
        end
    | _ => portal tr req
    end.

(** A record that breaks off after its first field, under the header
    [Actives,No,Name]; and records whose fields differ by white space
    only, or are white space only. *)
Definition short_record : CsvScraper.csv_row :=
  {[ "Actives" := Some "glyphosate"; "No" := None; "Name" := None ]}.

Definition padded : list CsvScraper.csv_row :=
  [csv "glyphosate" "31394"; csv " glyphosate" "45678"; csv "2,4-D" " "].

(** A portal whose token field is there but empty. *)
Definition empty_token_page : response :=
  page {| find_p_auth := Some {[ "name" := "p_auth"; "value" := "" ]};
          find_results_table := None; find_elabel := None |}.

Definition portal_with_empty_token : server_t :=
  fun _ _ => Response empty_token_page.

(** A directory that holds the labels of [two_products]. *)
Definition both_labels : world :=
  {| store := {[ "31394ELBL.pdf" := pdf_magic; "45678ELBL.pdf" := pdf_magic ]};
     trace := [] |}.

(** A parsing service that always delivers, and a state in which both
    labels are parsed. *)
Definition willing_service : Parser.service_t :=
  fun _ _ _ => Some ["DIRECTIONS FOR USE"].

Definition all_parsed : Parser.state :=
  {| Parser.labels := labels_dir;
     Parser.parsed := {[ "31394ELBL.md" := "text"; "45678ELBL.md" := "text" ]};
     Parser.calls := [] |}.

End Samples.

(* ===================================================================== *)
(** * Properties *)
(* ===================================================================== *)

(** ** The monad and the file system *)

Lemma send_spec server req w :
  Http.has_transport (Http.url_of req) = true ->
  Http.send server req w
  = (match server (trace w) req with
     | ConnectionError => Raise RequestException
     | Response resp => Ok resp
     end,
     {| store := store w; trace := trace w ++ [(req, server (trace w) req)] |}).
Proof.
  intros Htr. unfold Http.send. rewrite Htr. simpl.
  by destruct (server (trace w) req).
Qed.

Lemma path_exists_present name w :
  is_Some (store w !! name) -> Fs.path_exists name w = (Ok true, w).
Proof.
  intros Hin. unfold Fs.path_exists.
  rewrite (bool_decide_eq_true_2 _ Hin). by rewrite orb_true_r.
Qed.

Lemma path_exists_absent name w :
  Fs.names_directory name = false -> store w !! name = None ->
  Fs.path_exists name w = (Ok false, w).
Proof.
  intros Hdir Hout. unfold Fs.path_exists. rewrite Hdir, Hout.
  rewrite bool_decide_eq_false_2; [done | by apply is_Some_None].
Qed.

(** Writing the chunks of a body leaves the file holding what it held
    followed by the chunks, whether or not the stream breaks off. *)
Lemma write_chunks_spec name chunks fault w old :
  store w !! name = Some old ->
  Fs.write_chunks name chunks fault w =
    (if fault then Raise RequestException else Ok tt,
     {| store := <[name := old ++ concat chunks]> (store w);
        trace := trace w |}).
Proof.
  revert w old. induction chunks as [|data rest IH]; intros [st tr] old Hold;
    simpl in *.
  - rewrite app_nil_r, (insert_id _ _ _ Hold). by destruct fault.
  - unfold bind, Fs.write at 1. simpl. rewrite Hold. simpl.
    rewrite (IH _ (old ++ data)); simpl.
    + by rewrite insert_insert_eq, app_assoc.
    + by rewrite lookup_insert_eq.
Qed.

Lemma save_body_spec name resp w :
  Fs.names_directory name = false ->
  Fs.save_body name resp w =
    (if stream_fault resp then Raise RequestException else Ok tt,
     {| store := <[name := concat (iter_content resp)]> (store w);
        trace := trace w |}).
Proof.
  intros Hdir. unfold Fs.save_body, bind, Fs.open_wb. rewrite Hdir.
  rewrite (write_chunks_spec _ _ _ _ []); simpl.
  - by rewrite insert_insert_eq.
  - by rewrite lookup_insert_eq.
Qed.

Lemma save_body_trace name resp w :
  trace (Fs.save_body name resp w).2 = trace w.
Proof.
  destruct (Fs.names_directory name) eqn:Hdir.
  - unfold Fs.save_body, bind, Fs.open_wb. by rewrite Hdir.
  - by rewrite save_body_spec.
Qed.

(** ** The download manager of the CSV-driven run *)

Section CsvDownload.
Variable server : server_t.

Lemma csv_download_present url filename w :
  is_Some (store w !! filename) ->
  CsvScraper.download_pdf server url filename w = (Ok true, w).
Proof.
  intros Hin. unfold CsvScraper.download_pdf, try_except, bind.
  by rewrite (path_exists_present _ _ Hin).
Qed.

(** A call never raises, keeps the earlier exchanges and adds at most one,
    a GET of the URL it was given. *)
Lemma csv_download_exchanges url filename w :
  exists ok evs,
    CsvScraper.download_pdf server url filename w
      = (Ok ok, {| store := store (CsvScraper.download_pdf server url filename w).2;
                   trace := trace w ++ evs |})
    /\ (evs = [] \/ exists rep, evs = [(GET url, rep)]).
Proof.
  unfold CsvScraper.download_pdf, try_except, bind, Fs.path_exists, Http.send,
    Http.raise_for_status, Http.total_size, ret, raise, is_Exception.
  destruct w as [st tr]; simpl.
  destruct (Fs.names_directory filename || bool_decide (is_Some (st !! filename))).
  { exists true, []. rewrite app_nil_r. auto. }
  destruct (Http.has_transport url); simpl.
  2:{ exists false, []. rewrite app_nil_r. auto. }
  destruct (server tr (GET url)) as [|resp] eqn:Hrep; simpl.
  { exists false, [(GET url, ConnectionError)]. eauto. }
  destruct (status_code resp =? 404)%Z.
  { exists false, [(GET url, Response resp)]. eauto. }
  destruct (Http.is_error_status (status_code resp)).
  { exists false, [(GET url, Response resp)]. eauto. }
  destruct (content_length resp) as [[n|]|].
  2:{ exists false, [(GET url, Response resp)]. eauto. }
  all: match goal with
       | |- context [Fs.save_body ?n ?r ?w] =>
           pose proof (save_body_trace n r w) as Htr;
           destruct (Fs.save_body n r w) as [[[]|e] [st' tr']] eqn:Hsave
       end; simpl in *; subst tr'.
  all: first [ exists true, [(GET url, Response resp)]; by eauto
             | exists false, [(GET url, Response resp)]; by eauto ].
Qed.

(** The download loop never raises, counts every product once, and its
    requests are, in order, among the GETs of the products' URLs. *)
Lemma download_all_exchanges products counts w :
  exists c evs,
    (CsvScraper.download_all server products counts w).1 = Ok c
    /\ trace (CsvScraper.download_all server products counts w).2
         = trace w ++ evs
    /\ sublist evs.*1 (map (fun p => GET (CsvScraper.url_of p)) products)
    /\ c.1 + c.2 = counts.1 + counts.2 + length products.
Proof.
  revert counts w.
  induction products as [|p rest IH]; intros [sc fc] w; simpl.
  - exists (sc, fc), []. rewrite app_nil_r. simpl. repeat split; [constructor | lia].
  - unfold bind.
    destruct (csv_download_exchanges (CsvScraper.url_of p)
                (CsvScraper.filename_of p) w) as (ok & evs & -> & Hevs).
    set (w1 := {| store := _; trace := trace w ++ evs |}).
    destruct ok.
    + destruct (IH (S sc, fc) w1) as (c & evs' & Hc & Htr & Hsub & Hsum).
      exists c, (evs ++ evs'). rewrite Hc, Htr. subst w1; simpl in *.
      rewrite app_assoc, fmap_app. repeat split; [|lia].
      destruct Hevs as [->|[rep ->]]; simpl.
      * by apply sublist_cons.
      * by apply sublist_skip.
    + destruct (IH (sc, S fc) w1) as (c & evs' & Hc & Htr & Hsub & Hsum).
      exists c, (evs ++ evs'). rewrite Hc, Htr. subst w1; simpl in *.
      rewrite app_assoc, fmap_app. repeat split; [|lia].
      destruct Hevs as [->|[rep ->]]; simpl.
      * by apply sublist_cons.
      * by apply sublist_skip.
Qed.

End CsvDownload.

Lemma append_length (s t : string) :
  String.length (s +:+ t) = String.length s + String.length t.
Proof.
  induction s as [|a s IH]; [done|].
  change (S (String.length (s +:+ t)) = S (String.length s) + String.length t).
  by rewrite IH.
Qed.

Lemma append_inj_r (t s1 s2 : string) : s1 +:+ t = s2 +:+ t -> s1 = s2.
Proof.
  revert s2. induction s1 as [|a s1 IH]; intros [|b s2] Heq.
  - done.
  - apply (f_equal String.length) in Heq.
    rewrite (append_length (String b s2) t) in Heq.
    change ("" +:+ t) with t in Heq. simpl in Heq. lia.
  - apply (f_equal String.length) in Heq.
    rewrite (append_length (String a s1) t) in Heq.
    change ("" +:+ t) with t in Heq. simpl in Heq. lia.
  - change (String a (s1 +:+ t) = String b (s2 +:+ t)) in Heq.
    injection Heq as -> Heq. f_equal. by apply IH.
Qed.

Lemma append_inj_l (s t1 t2 : string) : s +:+ t1 = s +:+ t2 -> t1 = t2.
Proof.
  induction s as [|a s IH]; [done|].
  change (String a (s +:+ t1) = String a (s +:+ t2) -> t1 = t2).
  intros [= ?]; auto.
Qed.

(** The file name of a download-list entry never names a directory. *)
Lemma filename_not_directory (p : CsvScraper.product) :
  Fs.names_directory (CsvScraper.filename_of p) = false.
Proof.
  unfold Fs.names_directory, CsvScraper.filename_of.
  assert (Hlen : 8 <= String.length (CsvScraper.no p +:+ "ELBL.pdf")).
  { rewrite append_length. simpl. lia. }
  repeat (apply orb_false_intro); apply String.eqb_neq; intros Heq;
    rewrite Heq in Hlen; simpl in Hlen; lia.
Qed.

(** Distinct product numbers give distinct download URLs. *)
Lemma csv_urls_distinct (products : list CsvScraper.product) :
  NoDup (CsvScraper.no <$> products) ->
  NoDup (map (fun p => GET (CsvScraper.url_of p)) products).
Proof.
  intros Hnd.
  replace (map (fun p => GET (CsvScraper.url_of p)) products)
    with ((fun n => GET (CsvScraper.BASE_URL +:+ (n +:+ "ELBL.pdf")))
            <$> (CsvScraper.no <$> products)).
  - apply NoDup_fmap_2; [|done].
    intros n1 n2 [= Heq]. apply append_inj_l in Heq.
    by apply append_inj_r in Heq.
  - rewrite <- list_fmap_compose. done.
Qed.

(** ** The guarded fetch of the portal scrape *)

Section ScraperFetch.
Variable server : server_t.

(** A product whose e-label file is already in the directory costs the
    request for its detail page and nothing else. *)
Lemma process_product_present product_url page elabel href w :
  Http.has_transport product_url = true ->
  server (trace w) (GET product_url) = Response page ->
  Http.is_error_status (status_code page) = false ->
  find_elabel (text page) = Some elabel ->
  elabel !! "href" = Some href ->
  PyStr.truthy href = true ->
  is_Some (store w !! Scraper.pdf_filename_of
                        (Scraper.resolve_pdf_url Scraper.BASE_URL href)) ->
  Scraper.process_product server product_url w
    = (Ok tt, {| store := store w;
                 trace := trace w ++ [(GET product_url, Response page)] |}).
Proof.
  intros Htr Hrep Hstatus Hel Hhref Htruthy Hin.
  unfold Scraper.process_product, try_except, bind, Http.send,
    Http.raise_for_status, getitem.
  simpl. rewrite Htr, Hrep. simpl. rewrite Hstatus, Hel, Hhref. simpl.
  rewrite Htruthy. unfold Fs.path_exists. simpl.
  rewrite (bool_decide_eq_true_2 _ Hin). by rewrite orb_true_r.
Qed.

End ScraperFetch.

(** ** The selection of the CSV-driven run, record by record *)

(** On a complete record the loop body does not raise. *)
Lemma select_row_complete st r :
  Selection.complete r = true ->
  CsvScraper.select_row st r = Ok (Selection.step st r).
Proof.
  destruct st as [ua ps].
  unfold Selection.complete, CsvScraper.select_row, Selection.step,
    Selection.qualifies, Selection.entry, Selection.key, Selection.number,
    CsvScraper.strip_field.
  destruct (CsvScraper.get r "Actives" (Some "")) as [a|]; [|done].
  destruct (CsvScraper.get r "No" (Some "")) as [n|]; [|done].
  intros _. cbn [default from_option id fst snd].
  destruct (PyStr.truthy (PyStr.strip a)), (PyStr.truthy (PyStr.strip n));
    cbn [negb orb andb]; try done.
  by case_bool_decide.
Qed.

(** On a record that lacks one of the two fields it raises, [None] having
    no [strip]. *)
Lemma select_row_incomplete st r :
  Selection.complete r = false ->
  CsvScraper.select_row st r = Raise AttributeError.
Proof.
  destruct st as [ua ps].
  unfold Selection.complete, CsvScraper.select_row, CsvScraper.strip_field.
  destruct (CsvScraper.get r "Actives" (Some "")) as [a|]; [|done].
  by destruct (CsvScraper.get r "No" (Some "")) as [n|].
Qed.

Lemma select_rows_complete rows st :
  Forall (fun r => Selection.complete r = true) rows ->
  CsvScraper.select_rows rows st = Ok (fold_left Selection.step rows st).
Proof.
  intros Hall. revert st.
  induction Hall as [|r rows Hr _ IH]; intros st; cbn [CsvScraper.select_rows fold_left];
    [done|].
  by rewrite select_row_complete.
Qed.

(** The selection raises nothing but [AttributeError], and raises it when a
    record is incomplete. *)
Lemma select_rows_outcome rows st :
  if bool_decide (Forall (fun r => Selection.complete r = true) rows)
  then CsvScraper.select_rows rows st = Ok (fold_left Selection.step rows st)
  else CsvScraper.select_rows rows st = Raise AttributeError.
Proof.
  case_bool_decide as Hall; [by apply select_rows_complete|].
  revert st. induction rows as [|r rows IH]; intros st.
  { exfalso. apply Hall. constructor. }
  cbn [CsvScraper.select_rows].
  destruct (Selection.complete r) eqn:Hr.
  - rewrite select_row_complete by done. apply IH.
    intros Hrest. apply Hall. by constructor.
  - by rewrite select_row_incomplete.
Qed.

Lemma select_products_complete rows :
  Forall (fun r => Selection.complete r = true) rows ->
  CsvScraper.select_products rows = (fold_left Selection.step rows (∅, [])).2.
Proof.
  intros Hall. unfold CsvScraper.select_products.
  by rewrite select_rows_complete.
Qed.

Lemma select_products_incomplete rows :
  ~ Forall (fun r => Selection.complete r = true) rows ->
  CsvScraper.select_products rows = [].
Proof.
  intros Hnot. pose proof (select_rows_outcome rows (∅, [])) as Hsel.
  rewrite bool_decide_eq_false_2 in Hsel by done.
  unfold CsvScraper.select_products. by rewrite Hsel.
Qed.

(** A run either comes to its download loop, with the selected products,
    or ends in the selection, with the world as it was. *)
Lemma process_csv_cases server rows w :
  (Forall (fun r => Selection.complete r = true) rows
   /\ CsvScraper.process_csv server rows w
      = CsvScraper.download_all server (CsvScraper.select_products rows)
          (0, 0) w)
  \/ (~ Forall (fun r => Selection.complete r = true) rows
      /\ CsvScraper.select_products rows = []
      /\ CsvScraper.process_csv server rows w = (Raise AttributeError, w)).
Proof.
  pose proof (select_rows_outcome rows (∅, [])) as Hsel.
  unfold CsvScraper.process_csv, CsvScraper.select_products,
    CsvScraper.ensure_dir, bind, ret.
  case_bool_decide as Hall; rewrite Hsel.
  - left. split; [done|].
    by destruct (fold_left Selection.step rows (∅, [])).
  - right. done.
Qed.

(** C1, as the code has it.  A target whose file is already in the download
    directory is not fetched: [download_pdf] of the CSV-driven run answers
    [True] with no request and the directory untouched, and the product loop
    of the portal scrape spends the request for the detail page and nothing
    else.  In a CSV-driven run whose selected records carry pairwise
    distinct product numbers, no URL is requested twice. *)
Theorem C1_present_file_is_skipped (server : server_t) (w : world) :
  (forall url filename,
      is_Some (store w !! filename) ->
      CsvScraper.download_pdf server url filename w = (Ok true, w))
  /\ (forall product_url page elabel href,
        Http.has_transport product_url = true ->
        server (trace w) (GET product_url) = Response page ->
        Http.is_error_status (status_code page) = false ->
        find_elabel (text page) = Some elabel ->
        elabel !! "href" = Some href ->
        PyStr.truthy href = true ->
        is_Some (store w !! Scraper.pdf_filename_of
                              (Scraper.resolve_pdf_url Scraper.BASE_URL href)) ->
        Scraper.process_product server product_url w
          = (Ok tt, {| store := store w;
                       trace := trace w ++ [(GET product_url, Response page)] |}))
  /\ (forall rows,
        NoDup (CsvScraper.no <$> CsvScraper.select_products rows) ->
        exists evs,
          trace (CsvScraper.process_csv server rows w).2 = trace w ++ evs
          /\ NoDup evs.*1).
Proof.
  split; [|split].
  - intros url filename Hin. by apply csv_download_present.
  - intros product_url page elabel href. by apply process_product_present.
  - intros rows Hnd.
    destruct (process_csv_cases server rows w) as [[_ ->]|(_ & _ & ->)].
    + destruct (download_all_exchanges server (CsvScraper.select_products rows)
                  (0, 0) w) as (c & evs & _ & Htr & Hsub & _).
      exists evs. split; [done|].
      eapply sublist_NoDup; [|exact Hsub]. by apply csv_urls_distinct.
    + exists []. simpl. rewrite app_nil_r. split; [done | constructor].
Qed.

Lemma C1_witness :
  let w := {| store := {[ "31394ELBL.pdf" := Samples.pdf_magic;
                          "A1.pdf" := Samples.pdf_magic ]};
              trace := [] |} in
  CsvScraper.download_pdf Samples.server_404
    "https://elabels.apvma.gov.au/31394ELBL.pdf" "31394ELBL.pdf" w
  = (Ok true, w)
  /\ Scraper.process_product Samples.portal Samples.product_a w
     = (Ok tt,
        {| store := store w;
           trace := [(GET Samples.product_a,
                      Response (Samples.page
                                  (Samples.detail
                                     (Some (Samples.anchor "/files/A1.pdf")))))] |})
  /\ (exists evs,
        trace (CsvScraper.process_csv Samples.server_404 Samples.two_products w).2
          = trace w ++ evs
        /\ NoDup evs.*1).
Proof.
  intros w. split; [|split].
  - apply (proj1 (C1_present_file_is_skipped Samples.server_404 w)).
    exists Samples.pdf_magic. vm_compute. reflexivity.
  - apply (proj1 (proj2 (C1_present_file_is_skipped Samples.portal w))
             Samples.product_a _ (Samples.anchor "/files/A1.pdf")
             "/files/A1.pdf").
    + vm_compute. reflexivity.
    + vm_compute. reflexivity.
    + vm_compute. reflexivity.
    + vm_compute. reflexivity.
    + vm_compute. reflexivity.
    + vm_compute. reflexivity.
    + exists Samples.pdf_magic. vm_compute. reflexivity.
  - apply (proj2 (proj2 (C1_present_file_is_skipped Samples.server_404 w))).
    apply (bool_decide_unpack _). vm_compute. exact I.
Defined.

(** With two selected records of one product number and a server that has
    no label, the same URL is requested twice in one run. *)
Lemma C1_counterexample :
  (CsvScraper.no <$> CsvScraper.select_products Samples.same_number)
    = ["31394"; "31394"]
  /\ (trace (CsvScraper.process_csv Samples.server_404 Samples.same_number
               Samples.empty_world).2).*1
     = [GET "https://elabels.apvma.gov.au/31394ELBL.pdf";
        GET "https://elabels.apvma.gov.au/31394ELBL.pdf"].
Proof. split; vm_compute; reflexivity. Qed.

(** ** Outcomes of a fetch *)

Section Fetch.
Variable server : server_t.

(** Both [download_pdf]s answer [False] to a 404 and leave the directory
    as it was. *)
Lemma download_404 url filename resp w :
  Http.has_transport url = true ->
  server (trace w) (GET url) = Response resp ->
  status_code resp = 404%Z ->
  let w' := {| store := store w;
               trace := trace w ++ [(GET url, Response resp)] |} in
  Scraper.download_pdf server url filename w = (Ok false, w')
  /\ (Fs.path_exists filename w = (Ok false, w) ->
      CsvScraper.download_pdf server url filename w = (Ok false, w')).
Proof.
  intros Htr Hrep Hst w'. split.
  - unfold Scraper.download_pdf, try_except, bind, Http.send,
      Http.raise_for_status. simpl.
    rewrite Htr, Hrep. simpl. by rewrite Hst.
  - intros Habs.
    unfold CsvScraper.download_pdf, try_except, bind. rewrite Habs.
    unfold Http.send. simpl. rewrite Htr, Hrep. simpl. by rewrite Hst.
Qed.

(** A body that breaks off leaves, under the final name, the chunks that
    came before the fault. *)
Lemma download_cut url filename resp w :
  Http.has_transport url = true ->
  server (trace w) (GET url) = Response resp ->
  Http.is_error_status (status_code resp) = false ->
  content_length resp <> Some None ->
  Fs.names_directory filename = false ->
  stream_fault resp = true ->
  let w' := {| store := <[filename := concat (iter_content resp)]> (store w);
               trace := trace w ++ [(GET url, Response resp)] |} in
  Scraper.download_pdf server url filename w = (Ok false, w')
  /\ (store w !! filename = None ->
      CsvScraper.download_pdf server url filename w = (Ok false, w')).
Proof.
  intros Htr Hrep Hst Hlen Hdir Hfault w'.
  assert (H404 : (status_code resp =? 404)%Z = false).
  { apply Z.eqb_neq. intros Heq. rewrite Heq in Hst. discriminate. }
  split.
  - unfold Scraper.download_pdf, try_except, bind, Http.send,
      Http.raise_for_status, Http.total_size. simpl.
    rewrite Htr, Hrep. simpl. rewrite Hst. simpl.
    destruct (content_length resp) as [[n|]|]; [|done|]; simpl;
      rewrite save_body_spec by done; by rewrite Hfault.
  - intros Habs.
    unfold CsvScraper.download_pdf, try_except, bind.
    rewrite (path_exists_absent _ _ Hdir Habs).
    unfold Http.send, Http.raise_for_status, Http.total_size. simpl.
    rewrite Htr, Hrep. simpl. rewrite H404, Hst. simpl.
    destruct (content_length resp) as [[n|]|]; [|done|]; simpl;
      rewrite save_body_spec by done; by rewrite Hfault.
Qed.

End Fetch.

(** C2, as the code has it.  A fetch that is answered 404 raises nothing
    and creates no file; both [download_pdf]s answer it with [False], the
    value they give for any failed fetch, and the CSV-driven run adds it to
    its one count of failures. *)
Theorem C2_not_found_is_answered_false
    (server : server_t) (w : world) (url filename : string)
    (resp : response) :
  Http.has_transport url = true ->
  server (trace w) (GET url) = Response resp ->
  status_code resp = 404%Z ->
  let w' := {| store := store w;
               trace := trace w ++ [(GET url, Response resp)] |} in
  Scraper.download_pdf server url filename w = (Ok false, w')
  /\ (store w !! filename = None ->
      Fs.names_directory filename = false ->
      CsvScraper.download_pdf server url filename w = (Ok false, w'))
  /\ (forall p rest success_count fail_count,
        CsvScraper.url_of p = url ->
        CsvScraper.filename_of p = filename ->
        store w !! filename = None ->
        CsvScraper.download_all server (p :: rest) (success_count, fail_count) w
        = CsvScraper.download_all server rest (success_count, S fail_count) w').
Proof.
  intros Htr Hrep Hst w'.
  destruct (download_404 server _ filename _ _ Htr Hrep Hst) as [Hscr Hcsv].
  split; [done|]. split.
  - intros Habs Hdir. apply Hcsv. by apply path_exists_absent.
  - intros p rest sc fc <- <- Habs. simpl. unfold bind at 1.
    rewrite Hcsv; [done|].
    apply path_exists_absent; [apply filename_not_directory | done].
Qed.

Lemma C2_witness :
  let p := {| CsvScraper.no := "31394"; CsvScraper.actives := "glyphosate";
              CsvScraper.name := Some "Product" |} in
  let url := "https://elabels.apvma.gov.au/31394ELBL.pdf" in
  let w' := {| store := ∅;
               trace := [(GET url, Response (Samples.status 404))] |} in
  Scraper.download_pdf Samples.server_404 url "31394ELBL.pdf"
    Samples.empty_world = (Ok false, w')
  /\ CsvScraper.download_pdf Samples.server_404 url "31394ELBL.pdf"
       Samples.empty_world = (Ok false, w')
  /\ CsvScraper.download_all Samples.server_404 [p] (0, 0) Samples.empty_world
     = CsvScraper.download_all Samples.server_404 [] (0, 1) w'.
Proof.
  intros p url w'.
  destruct (C2_not_found_is_answered_false Samples.server_404
              Samples.empty_world url "31394ELBL.pdf" (Samples.status 404))
    as (Hscr & Hcsv & Hcount).
  - vm_compute. reflexivity.
  - reflexivity.
  - reflexivity.
  - split; [exact Hscr | split].
    + apply Hcsv; vm_compute; reflexivity.
    + apply (Hcount p [] 0 0); vm_compute; reflexivity.
Defined.

(** A run against a server that answers 404 and a run against a server
    that answers 500 end in the same outcomes and the same report: nothing
    tells "not found" from "failed". *)
Lemma C2_counterexample :
  (CsvScraper.download_pdf Samples.server_404
     "https://elabels.apvma.gov.au/31394ELBL.pdf" "31394ELBL.pdf"
     Samples.empty_world).1 = Ok false
  /\ (CsvScraper.download_pdf Samples.server_500
        "https://elabels.apvma.gov.au/31394ELBL.pdf" "31394ELBL.pdf"
        Samples.empty_world).1 = Ok false
  /\ (CsvScraper.process_csv Samples.server_404 Samples.two_products
        Samples.empty_world).1 = Ok (0, 2)
  /\ (CsvScraper.process_csv Samples.server_500 Samples.two_products
        Samples.empty_world).1 = Ok (0, 2).
Proof. repeat split; vm_compute; reflexivity. Qed.

(** C3, as the code has it.  When the body of a successful response breaks
    off, both [download_pdf]s answer [False] and the directory holds, under
    the target's final name, exactly the chunks received before the fault;
    no other name is written. *)
Theorem C3_broken_transfer_leaves_partial_file
    (server : server_t) (w : world) (url filename : string)
    (resp : response) :
  Http.has_transport url = true ->
  server (trace w) (GET url) = Response resp ->
  Http.is_error_status (status_code resp) = false ->
  content_length resp <> Some None ->
  Fs.names_directory filename = false ->
  stream_fault resp = true ->
  let w' := {| store := <[filename := concat (iter_content resp)]> (store w);
               trace := trace w ++ [(GET url, Response resp)] |} in
  Scraper.download_pdf server url filename w = (Ok false, w')
  /\ (store w !! filename = None ->
      CsvScraper.download_pdf server url filename w = (Ok false, w'))
  /\ store w' !! filename = Some (concat (iter_content resp))
  /\ (forall other, other <> filename -> store w' !! other = store w !! other).
Proof.
  intros Htr Hrep Hst Hlen Hdir Hfault w'.
  destruct (download_cut server _ filename _ _ Htr Hrep Hst Hlen Hdir Hfault)
    as [Hscr Hcsv].
  split; [done|]. split; [done|]. split.
  - subst w'. simpl. by rewrite lookup_insert_eq.
  - intros other Hne. subst w'. simpl. by rewrite lookup_insert_ne.
Qed.

Lemma C3_witness :
  let url := "https://elabels.apvma.gov.au/31394ELBL.pdf" in
  let w' := {| store := {[ "31394ELBL.pdf" := Samples.pdf_magic ]};
               trace := [(GET url,
                          Response (Samples.document [Samples.pdf_magic] true))] |} in
  Scraper.download_pdf Samples.server_cut url "31394ELBL.pdf"
    Samples.empty_world = (Ok false, w')
  /\ CsvScraper.download_pdf Samples.server_cut url "31394ELBL.pdf"
       Samples.empty_world = (Ok false, w').
Proof.
  intros url w'.
  destruct (C3_broken_transfer_leaves_partial_file Samples.server_cut
              Samples.empty_world url "31394ELBL.pdf"
              (Samples.document [Samples.pdf_magic] true))
    as (Hscr & Hcsv & _).
  - vm_compute. reflexivity.
  - reflexivity.
  - reflexivity.
  - discriminate.
  - vm_compute. reflexivity.
  - reflexivity.
  - split; [exact Hscr | apply Hcsv; vm_compute; reflexivity].
Defined.

(** The server sends one chunk and the connection drops: the fetch is
    reported failed, and that chunk alone sits in the directory under the
    label's final name. *)
Lemma C3_counterexample :
  let after :=
    (CsvScraper.download_pdf Samples.server_cut
       "https://elabels.apvma.gov.au/31394ELBL.pdf" "31394ELBL.pdf"
       Samples.empty_world) in
  after.1 = Ok false
  /\ store after.2 !! "31394ELBL.pdf" = Some Samples.pdf_magic
  /\ (Scraper.download_pdf Samples.server_cut
        "https://elabels.apvma.gov.au/31394ELBL.pdf" "31394ELBL.pdf"
        Samples.empty_world) = after.
Proof. repeat split; vm_compute; reflexivity. Qed.

(** ** The search walk *)

(** The scan of a page touches neither directory nor network; when it
    completes, the set has grown by exactly the links of the rows, and the
    counter by the number of links that were new. *)
Lemma scan_rows_spec rows found new w :
  (Scraper.scan_rows rows found new w).2 = w
  /\ match (Scraper.scan_rows rows found new w).1 with
     | Ok (found', new') =>
         found' = found ∪ list_to_set (Walk.links_of rows)
         /\ size found' + new = size found + new'
     | Raise e => e = KeyError
     end.
Proof.
  revert found new. induction rows as [|[[[[a|]]|]] rest IH]; intros found new;
    simpl.
  - split; [done|]. split; [set_solver | lia].
  - unfold bind, getitem, Walk.links_of. simpl.
    destruct (a !! "href") as [link|] eqn:Hhref; simpl; [|done].
    fold (Walk.links_of rest).
    case_bool_decide as Hin.
    + destruct (IH found new) as [Hw Hres]. split; [done|].
      destruct (Scraper.scan_rows rest found new w) as [[[f' n']|e] w1];
        simpl in *; [|done].
      destruct Hres as [-> Hsize]. split; [set_solver | done].
    + destruct (IH ({[link]} ∪ found) (S new)) as [Hw Hres]. split; [done|].
      destruct (Scraper.scan_rows rest ({[link]} ∪ found) (S new) w)
        as [[[f' n']|e] w1]; simpl in *; [|done].
      destruct Hres as [-> Hsize]. split; [set_solver|].
      rewrite (size_union {[link]} found) in Hsize by set_solver.
      rewrite size_singleton in Hsize. lia.
  - apply IH.
  - apply IH.
Qed.

(** A page whose links are all known already adds nothing and counts
    nothing, unless an anchor without [href] makes the scan raise. *)
Lemma scan_rows_known rows found w :
  (forall l, l ∈ Walk.links_of rows -> l ∈ found) ->
  Scraper.scan_rows rows found 0 w = (Ok (found, 0), w)
  \/ Scraper.scan_rows rows found 0 w = (Raise KeyError, w).
Proof.
  intros Hknown. destruct (scan_rows_spec rows found 0 w) as [Hw Hres].
  destruct (Scraper.scan_rows rows found 0 w) as [[[f' n']|e] w1];
    simpl in *; subst w1.
  - left. destruct Hres as [Hf Hsize].
    assert (f' = found) as -> by set_solver.
    repeat f_equal. lia.
  - right. by subst e.
Qed.

Section SearchWalk.
Variable server : server_t.
Variable max_pages : option nat.
Variable token : string.

(** What one iteration of the search loop does: one request, and a set
    that has grown by the links of the page received. *)
Lemma search_page_spec N found w :
  let req := Walk.search_request token N in
  let rep := server (trace w) req in
  (Scraper.search_page server max_pages token N found w).2
    = {| store := store w; trace := trace w ++ [(req, rep)] |}
  /\ match (Scraper.search_page server max_pages token N found w).1 with
     | Ok (Scraper.Continue found') | Ok (Scraper.Break found') =>
         found' = found ∪ list_to_set (Walk.links_of (Walk.page_rows rep))
     | Raise e => e = KeyError
     end.
Proof.
  intros req rep.
  unfold Scraper.search_page.
  change (POST _ _) with req.
  unfold try_except, bind, Http.raise_for_status.
  rewrite send_spec by reflexivity. fold rep.
  unfold Walk.page_rows.
  destruct rep as [|resp]; simpl.
  { split; [done | set_solver]. }
  destruct (Http.is_error_status (status_code resp)); simpl.
  { split; [done | set_solver]. }
  destruct (find_results_table (text resp)) as [rows|]; simpl.
  2:{ split; [done | set_solver]. }
  destruct (Nat.leb (length rows) 1) eqn:Hlen; simpl.
  { split; [done|]. destruct rows as [|? [|]]; simpl in *; try done;
      unfold Walk.links_of; simpl; set_solver. }
  match goal with
  | |- context [Scraper.scan_rows ?rs ?f ?n ?w0] =>
      destruct (scan_rows_spec rs f n w0) as [Hw Hres];
      destruct (Scraper.scan_rows rs f n w0) as [[[f' n']|e] w1]
  end; simpl in *; subst w1; [|done].
  destruct Hres as [-> _].
  destruct (Nat.eqb n' 0 && Nat.ltb 1 N); [done|].
  by destruct (Scraper.page_cap_reached max_pages N).
Qed.

(** Beyond the first page, a page without a new link ends the loop. *)
Lemma search_page_stale N found w :
  1 < N ->
  (forall l,
      l ∈ Walk.links_of
            (Walk.page_rows (server (trace w) (Walk.search_request token N))) ->
      l ∈ found) ->
  exists r,
    Scraper.search_page server max_pages token N found w
      = (r, {| store := store w;
               trace := trace w ++ [(Walk.search_request token N,
                                     server (trace w)
                                       (Walk.search_request token N))] |})
    /\ (r = Ok (Scraper.Break found) \/ r = Raise KeyError).
Proof.
  intros HN Hknown.
  unfold Scraper.search_page.
  change (POST _ _) with (Walk.search_request token N).
  unfold try_except, bind, Http.raise_for_status.
  rewrite send_spec by reflexivity.
  unfold Walk.page_rows in Hknown.
  destruct (server (trace w) (Walk.search_request token N)) as [|resp]; simpl.
  { eauto. }
  destruct (Http.is_error_status (status_code resp)); simpl.
  { eauto. }
  destruct (find_results_table (text resp)) as [rows|]; simpl.
  2:{ eauto. }
  destruct (Nat.leb (length rows) 1); simpl.
  { eauto. }
  match goal with
  | |- context [Scraper.scan_rows ?rs ?f ?n ?w0] =>
      destruct (scan_rows_known rs f w0 Hknown) as [-> | ->]
  end; simpl; [|by eauto].
  apply Nat.ltb_lt in HN. rewrite HN. simpl. eauto.
Qed.

(** The loop goes on only below the page cap. *)
Lemma search_page_continue N found found' w w' :
  Scraper.search_page server max_pages token N found w
    = (Ok (Scraper.Continue found'), w') ->
  Scraper.page_cap_reached max_pages N = false.
Proof.
  unfold Scraper.search_page, try_except, bind, ret.
  destruct (Http.send server _ w) as [[resp|e] w1]; simpl.
  2:{ destruct (is_RequestException e); simpl; discriminate. }
  unfold Http.raise_for_status, raise, ret.
  destruct (Http.is_error_status (status_code resp)); simpl; [discriminate|].
  destruct (find_results_table (text resp)) as [rows|]; [|discriminate].
  destruct (Nat.leb (length rows) 1); [discriminate|].
  destruct (Scraper.scan_rows _ _ _ _) as [[[f' n']|e] w2]; [|discriminate].
  destruct (Nat.eqb n' 0 && Nat.ltb 1 N); [discriminate|].
  by destruct (Scraper.page_cap_reached max_pages N).
Qed.

Lemma search_loop_step fuel N found w :
  Scraper.search_loop server (S fuel) max_pages token N found w
  = match Scraper.search_page server max_pages token N found w with
    | (Ok (Scraper.Break found'), w') => (Ok (Some found'), w')
    | (Ok (Scraper.Continue found'), w') =>
        Scraper.search_loop server fuel max_pages token (S N) found' w'
    | (Raise e, w') => (Raise e, w')
    end.
Proof.
  simpl. unfold bind.
  by destruct (Scraper.search_page server max_pages token N found w)
    as [[[?|?]|?] ?].
Qed.

Lemma arrives_positive w0 N found w :
  Walk.arrives server max_pages token w0 N found w -> 1 <= N.
Proof. induction 1; lia. Qed.

(** Arriving at page [N] takes [N - 1] iterations. *)
Lemma arrives_loop w0 N found w :
  Walk.arrives server max_pages token w0 N found w ->
  forall fuel,
    Scraper.search_loop server (N - 1 + fuel) max_pages token 1 ∅ w0
    = Scraper.search_loop server fuel max_pages token N found w.
Proof.
  induction 1 as [|N found w found' w' Harr IH Hstep]; intros fuel.
  - done.
  - pose proof (arrives_positive _ _ _ _ Harr) as HN.
    replace (S N - 1 + fuel) with (N - 1 + S fuel) by lia.
    rewrite IH, search_loop_step. by rewrite Hstep.
Qed.

(** A walk that has left the loop is not changed by more fuel. *)
Lemma search_loop_more_fuel fuel fuel' N found w found' w' :
  Scraper.search_loop server fuel max_pages token N found w
    = (Ok (Some found'), w') ->
  fuel <= fuel' ->
  Scraper.search_loop server fuel' max_pages token N found w
    = (Ok (Some found'), w').
Proof.
  revert fuel' N found w.
  induction fuel as [|fuel IH]; intros fuel' N found w Hrun Hle.
  - discriminate.
  - destruct fuel' as [|fuel']; [lia|].
    rewrite search_loop_step in *.
    destruct (Scraper.search_page server max_pages token N found w)
      as [[[f1|f1]|e] w1]; try done.
    apply IH; [done | lia].
Qed.

(** What the walk returns is what it started with and the links of the
    pages it received. *)
Lemma search_loop_links fuel N found w found' w' :
  Scraper.search_loop server fuel max_pages token N found w
    = (Ok (Some found'), w') ->
  exists evs,
    trace w' = trace w ++ evs
    /\ forall l, l ∈ found' <-> l ∈ found \/ Walk.link_on_pages evs l.
Proof.
  revert N found w.
  induction fuel as [|fuel IH]; intros N found w Hrun; [discriminate|].
  rewrite search_loop_step in Hrun.
  destruct (search_page_spec N found w) as [Hw Hres].
  set (req := Walk.search_request token N) in *.
  set (rep := server (trace w) req) in *.
  destruct (Scraper.search_page server max_pages token N found w)
    as [[[f1|f1]|e] w1]; simpl in *; subst w1; [| |done].
  - destruct (IH _ _ _ Hrun) as (evs & Htr & Hlinks). simpl in Htr.
    exists ((req, rep) :: evs). split; [by rewrite Htr, <- app_assoc|].
    intros l. rewrite Hlinks, Hres. unfold Walk.link_on_pages.
    rewrite elem_of_union, elem_of_list_to_set. split.
    + intros [[?|?]|(rq & rp & Hin & Hl)]; [by left | |].
      * right. exists req, rep. split; [by left | done].
      * right. exists rq, rp. split; [by right | done].
    + intros [?|(rq & rp & Hin & Hl)]; [by left; left|].
      apply elem_of_cons in Hin as [[= -> ->]|Hin]; [by left; right|].
      right. by exists rq, rp.
  - injection Hrun as <- <-. exists [(req, rep)]. split; [done|].
    intros l. rewrite Hres. unfold Walk.link_on_pages.
    rewrite elem_of_union, elem_of_list_to_set. split.
    + intros [?|?]; [by left|]. right. exists req, rep.
      split; [by left | done].
    + intros [?|(rq & rp & Hin & Hl)]; [by left|].
      apply list_elem_of_singleton in Hin as [= -> ->]. by right.
Qed.

End SearchWalk.

(** Under a page cap [m], [m] iterations are enough for the loop to be
    left. *)
Lemma search_loop_capped server token m fuel N found w :
  0 < m -> N <= m -> m - N < fuel ->
  (Scraper.search_loop server fuel (Some m) token N found w).1 <> Ok None.
Proof.
  intros Hm. revert N found w.
  induction fuel as [|fuel IH]; intros N found w HN Hfuel; [lia|].
  rewrite search_loop_step.
  destruct (Scraper.search_page server (Some m) token N found w)
    as [[[f1|f1]|e] w1] eqn:Hstep; simpl; try done.
  apply search_page_continue in Hstep. simpl in Hstep.
  apply andb_false_iff in Hstep as [Hstep|Hstep].
  - apply Nat.ltb_ge in Hstep. lia.
  - apply Nat.leb_gt in Hstep. apply IH; lia.
Qed.

(** C4.  When the walk arrives at a page [N] beyond the first and that page
    shows no link that is not accumulated already, the walk ends there:
    given fuel for [N] iterations it returns, with the request for page [N]
    as the last exchange, so that page [N + 1] is never asked for.  It
    returns the accumulated links, or raises [KeyError] when an anchor of
    the page has no [href]. *)
Theorem C4_walk_stops_at_stale_page
    (server : server_t) (max_pages : option nat) (token : string)
    (w0 w : world) (N : nat) (found : gset string) (fuel : nat) :
  Walk.arrives server max_pages token w0 N found w ->
  1 < N ->
  (forall l,
      l ∈ Walk.links_of
            (Walk.page_rows (server (trace w) (Walk.search_request token N))) ->
      l ∈ found) ->
  N <= fuel ->
  exists r,
    Scraper.search_loop server fuel max_pages token 1 ∅ w0
      = (r, {| store := store w;
               trace := trace w ++ [(Walk.search_request token N,
                                     server (trace w)
                                       (Walk.search_request token N))] |})
    /\ (r = Ok (Some found) \/ r = Raise KeyError).
Proof.
  intros Harr HN Hknown Hfuel.
  replace fuel with (N - 1 + S (fuel - N)) by lia.
  rewrite (arrives_loop _ _ _ _ _ _ _ Harr), search_loop_step.
  destruct (search_page_stale server max_pages token N found w HN Hknown)
    as (r & -> & [-> | ->]); eauto.
Qed.

Lemma C4_witness :
  let rep1 := Samples.portal [] (Walk.search_request "Zx81" 1) in
  let rep2 := Samples.portal [] (Walk.search_request "Zx81" 2) in
  let rep3 := Samples.portal [] (Walk.search_request "Zx81" 3) in
  let found : gset string :=
    list_to_set [Samples.product_a; Samples.product_b; Samples.product_c] in
  exists r,
    Scraper.search_loop Samples.portal 3 None "Zx81" 1 ∅ Samples.empty_world
      = (r, {| store := ∅;
               trace := [(Walk.search_request "Zx81" 1, rep1);
                         (Walk.search_request "Zx81" 2, rep2)]
                        ++ [(Walk.search_request "Zx81" 3, rep3)] |})
    /\ (r = Ok (Some found) \/ r = Raise KeyError).
Proof.
  intros rep1 rep2 rep3 found.
  apply (C4_walk_stops_at_stale_page Samples.portal None "Zx81"
           Samples.empty_world
           {| store := ∅;
              trace := [(Walk.search_request "Zx81" 1, rep1);
                        (Walk.search_request "Zx81" 2, rep2)] |}
           3 found 3).
  - eapply Walk.arrives_next; [eapply Walk.arrives_next; [apply Walk.arrives_first|]|].
    + vm_compute. reflexivity.
    + vm_compute. reflexivity.
  - lia.
  - apply (proj1 (Forall_forall (fun l => l ∈ found) _)).
    apply (bool_decide_unpack _). vm_compute. exact I.
  - lia.
Defined.

(** C5.  The set the search walk returns holds the product links of the
    pages it received and nothing else, and listing it, as the product loop
    does, gives each of them once, however often a link was repeated on a
    page or across pages.  The result is that of the loop itself: more fuel
    does not change it. *)
Theorem C5_links_collected_once
    (server : server_t) (max_pages : option nat) (token : string)
    (fuel : nat) (w w' : world) (found : gset string) :
  Scraper.search_loop server fuel max_pages token 1 ∅ w
    = (Ok (Some found), w') ->
  exists evs,
    trace w' = trace w ++ evs
    /\ (forall l, l ∈ elements found <-> Walk.link_on_pages evs l)
    /\ NoDup (elements found)
    /\ (forall fuel', fuel <= fuel' ->
          Scraper.search_loop server fuel' max_pages token 1 ∅ w
            = (Ok (Some found), w')).
Proof.
  intros Hrun.
  destruct (search_loop_links _ _ _ _ _ _ _ _ _ Hrun) as (evs & Htr & Hlinks).
  exists evs. repeat split.
  - done.
  - rewrite elem_of_elements, Hlinks. set_solver.
  - rewrite elem_of_elements, Hlinks. set_solver.
  - apply NoDup_elements.
  - intros fuel' Hle. by eapply search_loop_more_fuel.
Qed.

Lemma C5_witness :
  let found : gset string :=
    list_to_set [Samples.product_a; Samples.product_b; Samples.product_c] in
  let w' :=
    (Scraper.search_loop Samples.portal 2 Scraper.MAX_PAGES "Zx81" 1 ∅
       Samples.empty_world).2 in
  exists evs,
    trace w' = [] ++ evs
    /\ (forall l, l ∈ elements found <-> Walk.link_on_pages evs l)
    /\ NoDup (elements found)
    /\ (forall fuel', 2 <= fuel' ->
          Scraper.search_loop Samples.portal fuel' Scraper.MAX_PAGES "Zx81" 1
            ∅ Samples.empty_world
          = (Ok (Some found), w')).
Proof.
  intros found w'.
  apply (C5_links_collected_once Samples.portal Scraper.MAX_PAGES "Zx81" 2
           Samples.empty_world w' found).
  vm_compute. reflexivity.
Defined.

(** ** What the runs report *)




(** ** The session token *)

(** C8.  [get_session_params] makes one request.  When the landing page
    comes back without the [p_auth] field it raises, and [scrape_labels]
    ends with that exception; when the request fails, by a fault or by an
    error status, it answers [None], and [scrape_labels] returns at once.
    Either way the run is over after that one exchange: nothing is retried,
    nothing is searched, the directory is untouched.  Otherwise it answers
    the [value] of the field. *)
Theorem C8_session_token
    (server : server_t) (max_pages : option nat) (fuel : nat) (w : world) :
  let req := GET Scraper.SEARCH_URL in
  let rep := server (trace w) req in
  let w1 := {| store := store w; trace := trace w ++ [(req, rep)] |} in
  (forall resp,
      rep = Response resp ->
      Http.is_error_status (status_code resp) = false ->
      find_p_auth (text resp) = None ->
      Scraper.get_session_params server Scraper.SEARCH_URL w
        = (Raise ValueError, w1)
      /\ Scraper.scrape_labels_with server max_pages fuel w
         = (Raise ValueError, w1))
  /\ (rep = ConnectionError
      \/ (exists resp,
            rep = Response resp
            /\ Http.is_error_status (status_code resp) = true) ->
      Scraper.get_session_params server Scraper.SEARCH_URL w = (Ok None, w1)
      /\ Scraper.scrape_labels_with server max_pages fuel w
         = (Ok (Some None), w1))
  /\ (forall resp field v,
        rep = Response resp ->
        Http.is_error_status (status_code resp) = false ->
        find_p_auth (text resp) = Some field ->
        field !! "value" = Some v ->
        Scraper.get_session_params server Scraper.SEARCH_URL w
          = (Ok (Some v), w1)).
Proof.
  intros req rep w1.
  assert (Hget : forall r,
             Scraper.get_session_params server Scraper.SEARCH_URL w = (r, w1) ->
             (r = Ok None \/ exists e, r = Raise e) ->
             Scraper.scrape_labels_with server max_pages fuel w
             = (match r with Ok _ => Ok (Some None) | Raise e => Raise e end, w1)).
  { intros r Hr Hfail.
    unfold Scraper.scrape_labels_with, Scraper.ensure_dir, bind, ret.
    rewrite Hr. by destruct Hfail as [-> | [e ->]]. }
  assert (Hsend : Http.send server req w
                  = (match rep with
                     | ConnectionError => Raise RequestException
                     | Response resp => Ok resp
                     end, w1)).
  { by rewrite send_spec. }
  split; [|split].
  - intros resp Hrep Hst Hfield.
    assert (Scraper.get_session_params server Scraper.SEARCH_URL w
            = (Raise ValueError, w1)) as Hr.
    { unfold Scraper.get_session_params, try_except, bind,
        Http.raise_for_status.
      fold req. rewrite Hsend, Hrep. simpl. rewrite Hst. simpl.
      by rewrite Hfield. }
    split; [done|]. apply (Hget _ Hr). right. by eexists.
  - intros Hfail.
    assert (Scraper.get_session_params server Scraper.SEARCH_URL w
            = (Ok None, w1)) as Hr.
    { unfold Scraper.get_session_params, try_except, bind,
        Http.raise_for_status.
      fold req. rewrite Hsend.
      destruct Hfail as [-> | (resp & -> & Hst)]; simpl; [done|].
      by rewrite Hst. }
    split; [done|]. apply (Hget _ Hr). by left.
  - intros resp field v Hrep Hst Hfield Hv.
    unfold Scraper.get_session_params, try_except, bind,
      Http.raise_for_status, getitem.
    fold req. rewrite Hsend, Hrep. simpl. rewrite Hst. simpl.
    rewrite Hfield. by rewrite Hv.
Qed.

Lemma C8_witness :
  let req := GET Scraper.SEARCH_URL in
  let seen rep := {| store := ∅; trace := [(req, rep)] |} in
  Scraper.scrape_labels Samples.portal_without_token 2 Samples.empty_world
    = (Raise ValueError, seen (Response (Samples.page Samples.blank)))
  /\ Scraper.scrape_labels Samples.network_down 2 Samples.empty_world
     = (Ok (Some None), seen ConnectionError)
  /\ Scraper.scrape_labels Samples.server_500 2 Samples.empty_world
     = (Ok (Some None), seen (Response (Samples.status 500)))
  /\ Scraper.get_session_params Samples.portal Scraper.SEARCH_URL
       Samples.empty_world
     = (Ok (Some "Zx81"), seen (Response (Samples.page Samples.landing))).
Proof.
  intros req seen. split; [|split; [|split]].
  - apply (proj1 (C8_session_token Samples.portal_without_token
                    Scraper.MAX_PAGES 2 Samples.empty_world)
             (Samples.page Samples.blank)); reflexivity.
  - apply (proj1 (proj2 (C8_session_token Samples.network_down
                           Scraper.MAX_PAGES 2 Samples.empty_world))).
    left. reflexivity.
  - apply (proj1 (proj2 (C8_session_token Samples.server_500
                           Scraper.MAX_PAGES 2 Samples.empty_world))).
    right. exists (Samples.status 500). split; reflexivity.
  - apply (proj2 (proj2 (C8_session_token Samples.portal
                           Scraper.MAX_PAGES 2 Samples.empty_world))
             (Samples.page Samples.landing)
             {[ "name" := "p_auth"; "value" := "Zx81" ]} "Zx81");
      reflexivity.
Defined.

(** When the network is down the resolver does not fail: it answers
    [None], and the run returns as a run does that has nothing to do.  And
    "otherwise" does not always end in a token: a [p_auth] field that
    carries no [value] makes the resolver, and the run, end in
    [KeyError]. *)
Lemma C8_counterexample :
  let req := GET Scraper.SEARCH_URL in
  Scraper.get_session_params Samples.network_down Scraper.SEARCH_URL
    Samples.empty_world
  = (Ok None, {| store := ∅; trace := [(req, ConnectionError)] |})
  /\ Scraper.scrape_labels Samples.network_down 2 Samples.empty_world
     = (Ok (Some None), {| store := ∅; trace := [(req, ConnectionError)] |})
  /\ (Scraper.get_session_params Samples.portal_with_bare_token
        Scraper.SEARCH_URL Samples.empty_world).1 = Raise KeyError
  /\ (Scraper.scrape_labels Samples.portal_with_bare_token 2
        Samples.empty_world).1 = Raise KeyError.
Proof.
  split; [|split; [|split]]; vm_compute; reflexivity.
Qed.

(** ** The product loop *)

Lemma for_each_raise {A} (body : A -> M unit) x rest e w w' :
  body x w = (Raise e, w') ->
  for_each (x :: rest) body w = (Raise e, w').
Proof. intros Hx. simpl. unfold bind. by rewrite Hx. Qed.

Section ProductLoop.
Variable server : server_t.

(** A product whose detail page cannot be had, or has no e-label anchor,
    is passed over. *)
Lemma process_product_passed_over product_url w :
  Http.has_transport product_url = true ->
  match server (trace w) (GET product_url) with
  | ConnectionError => True
  | Response page =>
      Http.is_error_status (status_code page) = true
      \/ (Http.is_error_status (status_code page) = false
          /\ find_elabel (text page) = None)
  end ->
  Scraper.process_product server product_url w
  = (Ok tt, {| store := store w;
               trace := trace w ++ [(GET product_url,
                                     server (trace w) (GET product_url))] |}).
Proof.
  intros Htr Hrep.
  unfold Scraper.process_product, try_except, bind, Http.raise_for_status.
  rewrite send_spec by done.
  destruct (server (trace w) (GET product_url)) as [|page]; simpl; [done|].
  destruct Hrep as [-> | [-> ->]]; done.
Qed.

(** A detail page whose e-label anchor has no [href] ends the loop: the
    [KeyError] is no [RequestException], and the products after it are
    not looked at. *)
Lemma process_product_bare_anchor product_url rest page elabel w :
  Http.has_transport product_url = true ->
  server (trace w) (GET product_url) = Response page ->
  Http.is_error_status (status_code page) = false ->
  find_elabel (text page) = Some elabel ->
  elabel !! "href" = None ->
  for_each (product_url :: rest) (Scraper.process_product server) w
  = (Raise KeyError,
     {| store := store w;
        trace := trace w ++ [(GET product_url, Response page)] |}).
Proof.
  intros Htr Hrep Hst Hel Hhref. apply for_each_raise.
  unfold Scraper.process_product, try_except, bind, Http.raise_for_status,
    getitem.
  rewrite send_spec by done. rewrite Hrep. simpl. rewrite Hst. simpl.
  rewrite Hel. by rewrite Hhref.
Qed.

End ProductLoop.

(** C9, at the input where the code falls short of it.  The search finds
    products c, a and b; the detail page of c, the first the loop comes to,
    has an e-label anchor without [href].  The run ends in [KeyError] after
    the request for that page: the pages of a and b are never requested and
    nothing is downloaded, although the same portal serves the labels of a
    and b when the anchor of c is in order. *)
Theorem C9_bare_anchor_ends_the_run :
  let run :=
    Scraper.scrape_labels Samples.portal_with_bare_anchor 2 Samples.empty_world in
  let sound := Scraper.scrape_labels Samples.portal 2 Samples.empty_world in
  run.1 = Raise KeyError
  /\ (trace run.2).*1
     = [GET Scraper.SEARCH_URL;
        Walk.search_request "Zx81" 1;
        Walk.search_request "Zx81" 2;
        GET Samples.product_c]
  /\ store run.2 = ∅
  /\ sound.1 = Ok (Some (Some 3))
  /\ dom (store sound.2) = {[ "A1.pdf"; "B2.pdf"; "C3.pdf" ]}.
Proof.
  split; [|split; [|split; [|split]]]; vm_compute; reflexivity.
Qed.

(** ** Document URL and file name *)

Lemma append_cons a (s t : string) : String a s +:+ t = String a (s +:+ t).
Proof. reflexivity. Qed.

(** [rfind] finds the last occurrence: nothing of the kind comes after. *)
Lemma rfind_spec c s :
  match PyStr.rfind c s with
  | Some i =>
      s = PyStr.take i s +:+ String c (PyStr.drop (S i) s)
      /\ PyStr.contains c (PyStr.drop (S i) s) = false
  | None => PyStr.contains c s = false
  end.
Proof.
  induction s as [|a s IH]; simpl; [done|].
  destruct (PyStr.rfind c s) as [i|].
  - destruct IH as [Hs Hno]. split; [|done].
    change (PyStr.take (S i) (String a s)) with (String a (PyStr.take i s)).
    rewrite append_cons. by rewrite <- Hs.
  - destruct (Ascii.eqb a c) eqn:Hac; simpl.
    + apply Ascii.eqb_eq in Hac as ->. by destruct s.
    + done.
Qed.

(** The file name is the last segment of the path: the path is a directory
    part, empty or ending in a slash, followed by the name, and the name has
    no slash. *)
Lemma basename_spec p :
  exists dir,
    p = dir +:+ Url.basename p
    /\ PyStr.contains "/" (Url.basename p) = false
    /\ (dir = "" \/ exists d, dir = d +:+ "/").
Proof.
  unfold Url.basename. pose proof (rfind_spec "/" p) as Hr.
  destruct (PyStr.rfind "/" p) as [i|].
  - destruct Hr as [Hp Hno]. exists (PyStr.take i p +:+ "/").
    split; [|split; [done | right; by eexists]].
    rewrite Hp at 1. clear. generalize (PyStr.take i p) as d.
    intros d. induction d as [|a d IH]; [done|].
    rewrite !append_cons. by rewrite IH.
  - exists "". split; [done | split; [done | by left]].
Qed.

(** An href that does not begin with [http] is joined to the base;
    whatever the href, the name is the last segment of the path of the
    document URL. *)
Lemma pdf_target_spec base href :
  (PyStr.startswith "http" href = false ->
   Scraper.resolve_pdf_url base href = Url.urljoin base href)
  /\ (PyStr.startswith "http" href = true ->
      Scraper.resolve_pdf_url base href = href)
  /\ exists dir,
       Url.path (Url.urlparse (Scraper.resolve_pdf_url base href) "")
       = dir +:+ Scraper.pdf_filename_of (Scraper.resolve_pdf_url base href)
       /\ PyStr.contains "/"
            (Scraper.pdf_filename_of (Scraper.resolve_pdf_url base href))
          = false
       /\ (dir = "" \/ exists d, dir = d +:+ "/").
Proof.
  unfold Scraper.resolve_pdf_url. split; [|split].
  - by intros ->.
  - by intros ->.
  - apply basename_spec.
Qed.

(** The two examples of the specification. *)
Lemma pdf_target_examples :
  Scraper.pdf_filename_of "https://host/files/ABC123.pdf" = "ABC123.pdf"
  /\ Scraper.resolve_pdf_url "https://host/" "/files/ABC123.pdf"
     = "https://host/files/ABC123.pdf".
Proof. split; vm_compute; reflexivity. Qed.

(** C7, at the input where the code falls short of it.  The href
    [httpdocs/label.pdf] has no scheme: it is relative, and joined to the
    portal base it names [https://portal.apvma.gov.au/httpdocs/label.pdf].
    The program takes it for absolute because it begins with [http], leaves
    it as it is, and the fetch of the unresolved URL fails before anything
    is sent. *)
Theorem C7_relative_href_left_unresolved :
  Url.scheme (Url.urlparse "httpdocs/label.pdf" "") = ""
  /\ Url.urljoin Scraper.BASE_URL "httpdocs/label.pdf"
     = "https://portal.apvma.gov.au/httpdocs/label.pdf"
  /\ Scraper.resolve_pdf_url Scraper.BASE_URL "httpdocs/label.pdf"
     = "httpdocs/label.pdf"
  /\ Scraper.pdf_filename_of "httpdocs/label.pdf" = "label.pdf"
  /\ forall server w,
       Scraper.download_pdf server "httpdocs/label.pdf" "label.pdf" w
       = (Ok false, w).
Proof.
  split; [|split; [|split; [|split]]]; vm_compute; reflexivity.
Qed.

(** ** The selection of the CSV-driven run *)

(** A record that lacks one of the two fields changes nothing. *)
Lemma step_unqualified st r :
  Selection.qualifies r = false -> Selection.step st r = st.
Proof. intros Hq. unfold Selection.step. by rewrite Hq. Qed.

Lemma step_qualified ua ps r :
  Selection.qualifies r = true ->
  Selection.step (ua, ps) r
  = if bool_decide (Selection.key r ∈ ua) then (ua, ps)
    else ({[Selection.key r]} ∪ ua, ps ++ [Selection.entry r]).
Proof. intros Hq. unfold Selection.step. by rewrite Hq. Qed.

Lemma first_of_its_actives_snoc rows r0 i r :
  Selection.first_of_its_actives rows i r ->
  Selection.first_of_its_actives (rows ++ [r0]) i r.
Proof.
  intros (Hi & Hq & Hfirst).
  pose proof (lookup_lt_Some _ _ _ Hi) as Hlt.
  split; [by rewrite lookup_app_l | split; [done|]].
  intros j r' Hj Hr'. rewrite lookup_app_l in Hr' by lia. by eapply Hfirst.
Qed.

Lemma select_rows_invariant rows :
  Selection.invariant rows (fold_left Selection.step rows (∅, [])).
Proof.
  unfold Selection.invariant.
  induction rows as [|r0 rows IH] using rev_ind.
  - simpl. split; [set_solver|]. split; [constructor|].
    split; [set_solver|]. intros i r Hi. by rewrite lookup_nil in Hi.
  - rewrite fold_left_app. cbn [fold_left].
    destruct (fold_left Selection.step rows (∅, [])) as [ua ps].
    destruct IH as (Hua & Hnd & Hsel & Hall). cbn [fst snd] in *.
    assert (Hold : forall p, p ∈ ps ->
              exists i r, Selection.first_of_its_actives (rows ++ [r0]) i r
                          /\ p = Selection.entry r).
    { intros p Hp. destruct (Hsel p Hp) as (i & r & Hfirst & ->).
      exists i, r. split; [by apply first_of_its_actives_snoc | done]. }
    assert (Hlast : forall i r, (rows ++ [r0]) !! i = Some r ->
              (i < length rows /\ rows !! i = Some r)
              \/ (i = length rows /\ r = r0)).
    { intros i r Hi. destruct (decide (i < length rows)) as [Hlt|Hge].
      - left. by rewrite lookup_app_l in Hi.
      - right. rewrite lookup_app_r in Hi by lia.
        destruct (i - length rows) as [|k] eqn:Hk; simpl in Hi; [|done].
        injection Hi as <-. split; [lia | done]. }
    destruct (Selection.qualifies r0) eqn:Hq.
    2:{ rewrite step_unqualified by done.
        repeat split; simpl; try done; try apply Hua.
        intros i r Hi Hqr.
        destruct (Hlast i r Hi) as [[_ Hi'] | [_ ->]]; [by eapply Hall|].
        congruence. }
    rewrite step_qualified by done.
    case_bool_decide as Hseen.
    + repeat split; simpl; try done; try apply Hua.
      intros i r Hi Hqr.
      destruct (Hlast i r Hi) as [[_ Hi'] | [_ ->]]; [by eapply Hall|].
      apply Hua in Hseen. apply list_elem_of_fmap in Hseen as (p & Hp & Hin).
      by exists p.
    + assert (Hfresh : Selection.key r0 ∉ CsvScraper.actives <$> ps).
      { intros Hin. by apply Hseen, Hua. }
      repeat split; simpl.
      * rewrite fmap_app, elem_of_app. simpl. rewrite list_elem_of_singleton.
        rewrite elem_of_union, elem_of_singleton. intros [-> | Hin]; [by right|].
        left. by apply Hua.
      * rewrite fmap_app, elem_of_app. simpl. rewrite list_elem_of_singleton.
        rewrite elem_of_union, elem_of_singleton. intros [Hin | ->]; [|by left].
        right. by apply Hua.
      * rewrite fmap_app. apply NoDup_app. split; [done|]. split.
        -- intros a Ha. simpl. rewrite list_elem_of_singleton. intros ->. done.
        -- simpl. apply NoDup_singleton.
      * intros p Hp. apply elem_of_app in Hp as [Hp|Hp]; [by apply Hold|].
        apply list_elem_of_singleton in Hp as ->.
        exists (length rows), r0. split; [|done].
        split; [|split; [done|]].
        -- rewrite lookup_app_r by lia. by rewrite Nat.sub_diag.
        -- intros j r' Hj Hr' Hqr' Heq. rewrite lookup_app_l in Hr' by lia.
           destruct (Hall j r' Hr' Hqr') as (p & Hp & Hkey).
           apply Hfresh. rewrite <- Heq, <- Hkey.
           apply list_elem_of_fmap. by exists p.
      * intros i r Hi Hqr.
        destruct (Hlast i r Hi) as [[_ Hi'] | [_ ->]].
        -- destruct (Hall i r Hi' Hqr) as (p & Hp & Hkey).
           exists p. split; [|done]. apply elem_of_app. by left.
        -- exists (Selection.entry r0). split; [|done].
           apply elem_of_app. right. by apply list_elem_of_singleton.
Qed.

(** On the untidy sample the selection keeps the first record of each
    actives that also has a number, with both fields stripped. *)
Lemma select_products_untidy :
  CsvScraper.select_products Samples.untidy
  = [ {| CsvScraper.no := "31394"; CsvScraper.actives := "glyphosate";
         CsvScraper.name := Some "Product" |};
      {| CsvScraper.no := "45678"; CsvScraper.actives := "2,4-D";
         CsvScraper.name := Some "Product" |} ].
Proof. vm_compute. reflexivity. Qed.

(** ** The bound on the search loop *)

(** With the page cap of the program, two iterations cover the search:
    [scrape_labels] with fuel for two or more never runs out of fuel. *)
Lemma scrape_labels_returns server fuel w :
  2 <= fuel -> (Scraper.scrape_labels server fuel w).1 <> Ok None.
Proof.
  intros Hfuel.
  unfold Scraper.scrape_labels, Scraper.scrape_labels_with, Scraper.ensure_dir,
    Scraper.MAX_PAGES, bind, ret.
  destruct (Scraper.get_session_params server Scraper.SEARCH_URL w)
    as [[[token|]|e] w1]; simpl; try done.
  destruct (PyStr.truthy token); simpl; [|done].
  pose proof (search_loop_capped server token 2 fuel 1 ∅ w1) as Hcap.
  destruct (Scraper.search_loop server fuel (Some 2) token 1 ∅ w1)
    as [[[found|]|e] w2]; simpl in *; try done.
  - by destruct (for_each (elements found) (Scraper.process_product server) w2)
      as [[[]|e] w3].
  - exfalso. apply Hcap; [lia | lia | lia | done].
Qed.

(** ** Every outcome of a fetch *)

Lemma save_body_frame name resp w other :
  other <> name ->
  store (Fs.save_body name resp w).2 !! other = store w !! other.
Proof.
  intros Hne. destruct (Fs.names_directory name) eqn:Hdir.
  - unfold Fs.save_body, bind, Fs.open_wb. by rewrite Hdir.
  - rewrite save_body_spec by done. simpl. by rewrite lookup_insert_ne.
Qed.

Lemma send_store server req w :
  store (Http.send server req w).2 = store w.
Proof.
  unfold Http.send. destruct (Http.has_transport (Http.url_of req)); [|done].
  simpl. by destruct (server (trace w) req).
Qed.

Lemma send_raises server req w e w1 :
  Http.send server req w = (Raise e, w1) -> e = RequestException.
Proof.
  unfold Http.send. destruct (Http.has_transport (Http.url_of req)); simpl.
  - destruct (server (trace w) req); intros [= ? ?]; by subst.
  - intros [= ? ?]. by subst.
Qed.

Section FetchOutcomes.
Variable server : server_t.

(** X1.  A response that is no error and whose body arrives whole is saved
    as it came, under a file name of one component: the file holds the
    chunks in order, whatever it held before, and the fetch answers
    [True].  The CSV-driven [download_pdf] does the same for a file that
    was absent. *)
Theorem fetch_saves_whole_body url filename resp w :
  Http.has_transport url = true ->
  server (trace w) (GET url) = Response resp ->
  Http.is_error_status (status_code resp) = false ->
  content_length resp <> Some None ->
  Fs.names_directory filename = false ->
  Fs.plain_name filename = true ->
  stream_fault resp = false ->
  let w' := {| store := <[filename := concat (iter_content resp)]> (store w);
               trace := trace w ++ [(GET url, Response resp)] |} in
  Scraper.download_pdf server url filename w = (Ok true, w')
  /\ (store w !! filename = None ->
      CsvScraper.download_pdf server url filename w = (Ok true, w')).
Proof.
  intros Htr Hrep Hst Hlen Hdir _ Hfault w'.
  assert (H404 : (status_code resp =? 404)%Z = false).
  { apply Z.eqb_neq. intros Heq. rewrite Heq in Hst. discriminate. }
  split.
  - unfold Scraper.download_pdf, try_except, bind, Http.raise_for_status,
      Http.total_size.
    rewrite send_spec by done. rewrite Hrep. simpl. rewrite Hst. simpl.
    destruct (content_length resp) as [[n|]|]; [|done|]; simpl;
      rewrite save_body_spec by done; by rewrite Hfault.
  - intros Habs.
    unfold CsvScraper.download_pdf, try_except, bind.
    rewrite (path_exists_absent _ _ Hdir Habs).
    unfold Http.raise_for_status, Http.total_size.
    rewrite send_spec by done. rewrite Hrep. simpl. rewrite H404, Hst. simpl.
    destruct (content_length resp) as [[n|]|]; [|done|]; simpl;
      rewrite save_body_spec by done; by rewrite Hfault.
Qed.

(** X2.  A fetch that meets a connection fault or any 4xx or 5xx status
    answers [False] and leaves the directory as it was. *)
Theorem fetch_refused_leaves_no_file url filename w :
  Http.has_transport url = true ->
  (server (trace w) (GET url) = ConnectionError
   \/ exists resp, server (trace w) (GET url) = Response resp
                   /\ Http.is_error_status (status_code resp) = true) ->
  let w' := {| store := store w;
               trace := trace w ++ [(GET url, server (trace w) (GET url))] |} in
  Scraper.download_pdf server url filename w = (Ok false, w')
  /\ (store w !! filename = None -> Fs.names_directory filename = false ->
      CsvScraper.download_pdf server url filename w = (Ok false, w')).
Proof.
  intros Htr Hrep w'. split.
  - unfold Scraper.download_pdf, try_except, bind, Http.raise_for_status.
    rewrite send_spec by done. fold w'.
    destruct Hrep as [-> | (resp & -> & Hst)]; simpl; [done|].
    by rewrite Hst.
  - intros Habs Hdir.
    unfold CsvScraper.download_pdf, try_except, bind.
    rewrite (path_exists_absent _ _ Hdir Habs).
    unfold Http.raise_for_status.
    rewrite send_spec by done. fold w'.
    destruct Hrep as [-> | (resp & -> & Hst)]; simpl; [done|].
    destruct (status_code resp =? 404)%Z; [done|]. by rewrite Hst.
Qed.

(** X3.  A URL that, the white space in front of it aside, does not begin
    with [http://] or [https://], or that names no host after it, is never
    sent: the fetch answers [False] with the world unchanged. *)
Theorem fetch_without_transport_sends_nothing url filename w :
  Http.has_transport url = false ->
  Scraper.download_pdf server url filename w = (Ok false, w)
  /\ (store w !! filename = None -> Fs.names_directory filename = false ->
      CsvScraper.download_pdf server url filename w = (Ok false, w)).
Proof.
  intros Htr. split.
  - unfold Scraper.download_pdf, try_except, bind, Http.send. simpl.
    by rewrite Htr.
  - intros Habs Hdir.
    unfold CsvScraper.download_pdf, try_except, bind.
    rewrite (path_exists_absent _ _ Hdir Habs).
    unfold Http.send. simpl. by rewrite Htr.
Qed.

(** X4.  A [content-length] header that is no integer stops both fetches
    before the file is opened.  In [scraper.py] the [ValueError] escapes
    [download_pdf]; in [csv_scraper.py] it is caught and the fetch answers
    [False]. *)
Theorem fetch_with_malformed_length url filename resp w :
  Http.has_transport url = true ->
  server (trace w) (GET url) = Response resp ->
  Http.is_error_status (status_code resp) = false ->
  content_length resp = Some None ->
  let w' := {| store := store w;
               trace := trace w ++ [(GET url, Response resp)] |} in
  Scraper.download_pdf server url filename w = (Raise ValueError, w')
  /\ (store w !! filename = None -> Fs.names_directory filename = false ->
      CsvScraper.download_pdf server url filename w = (Ok false, w')).
Proof.
  intros Htr Hrep Hst Hlen w'.
  assert (H404 : (status_code resp =? 404)%Z = false).
  { apply Z.eqb_neq. intros Heq. rewrite Heq in Hst. discriminate. }
  split.
  - unfold Scraper.download_pdf, try_except, bind, Http.raise_for_status,
      Http.total_size.
    rewrite send_spec by done. rewrite Hrep. simpl. rewrite Hst. simpl.
    by rewrite Hlen.
  - intros Habs Hdir.
    unfold CsvScraper.download_pdf, try_except, bind.
    rewrite (path_exists_absent _ _ Hdir Habs).
    unfold Http.raise_for_status, Http.total_size.
    rewrite send_spec by done. rewrite Hrep. simpl. rewrite H404, Hst. simpl.
    by rewrite Hlen.
Qed.

(** What [download_pdf] of [scraper.py] can end in, and what it leaves
    alone. *)
Lemma scraper_download_cases url filename w :
  let r := Scraper.download_pdf server url filename w in
  (exists ok, r.1 = Ok ok) \/ r.1 = Raise ValueError \/ r.1 = Raise OSError.
Proof.
  unfold Scraper.download_pdf, try_except, bind, Http.raise_for_status,
    Http.total_size, ret, raise. simpl.
  destruct (Http.send server (GET url) w) as [[resp|e] w1] eqn:Hsend.
  2:{ apply send_raises in Hsend as ->. simpl. eauto. }
  destruct (Http.is_error_status (status_code resp)); simpl; [eauto|].
  destruct (content_length resp) as [[n|]|]; simpl; [|eauto|].
  all: destruct (Fs.names_directory filename) eqn:Hdir;
    [ unfold Fs.save_body, bind, Fs.open_wb; rewrite Hdir; simpl; eauto
    | rewrite save_body_spec by done; destruct (stream_fault resp); simpl; eauto ].
Qed.

Lemma scraper_download_frame url filename w other :
  other <> filename ->
  store (Scraper.download_pdf server url filename w).2 !! other
  = store w !! other.
Proof.
  intros Hne.
  unfold Scraper.download_pdf, try_except, bind, Http.raise_for_status,
    Http.total_size, ret, raise. simpl.
  pose proof (send_store server (GET url) w) as Hst.
  destruct (Http.send server (GET url) w) as [[resp|e] w1]; simpl in Hst.
  2:{ destruct (is_RequestException e); simpl; by rewrite Hst. }
  destruct (Http.is_error_status (status_code resp)); simpl; [by rewrite Hst|].
  destruct (content_length resp) as [[n|]|]; simpl; [|by rewrite Hst|].
  all: pose proof (save_body_frame filename resp w1 other Hne) as Hfr;
    destruct (Fs.save_body filename resp w1) as [[[]|e] w2]; simpl in *;
    [ by rewrite Hfr, Hst
    | destruct (is_RequestException e); simpl; by rewrite Hfr, Hst ].
Qed.

End FetchOutcomes.

(** ** What the fetches keep and promise *)

Lemma path_exists_false name w :
  (Fs.path_exists name w).1 = Ok false ->
  Fs.names_directory name = false /\ store w !! name = None.
Proof.
  unfold Fs.path_exists. simpl. intros [= Hor].
  apply orb_false_iff in Hor as [Hdir Hin]. split; [done|].
  apply bool_decide_eq_false in Hin.
  destruct (store w !! name) eqn:Hl; [|done]. exfalso. apply Hin. by eexists.
Qed.

Lemma path_exists_world name w : (Fs.path_exists name w).2 = w.
Proof. done. Qed.

(** A store that agrees with [m] off [name], where [m] has nothing, holds
    all of [m]. *)
Lemma frame_subseteq (m m' : gmap string bytes) name :
  m !! name = None ->
  (forall other, other <> name -> m' !! other = m !! other) ->
  m ⊆ m'.
Proof.
  intros Habs Hfr. apply map_subseteq_spec. intros i x Hi.
  destruct (decide (i = name)) as [->|Hne]; [congruence|].
  by rewrite Hfr.
Qed.

Section FetchContracts.
Variable server : server_t.

(** What one call of [download_pdf] of [csv_scraper.py] does to the
    directory and answers. *)
Lemma csv_download_facts url filename w :
  let r := CsvScraper.download_pdf server url filename w in
  (exists ok, r.1 = Ok ok
              /\ (ok = true -> (Fs.path_exists filename r.2).1 = Ok true))
  /\ store w ⊆ store r.2
  /\ (forall other, other <> filename ->
        store r.2 !! other = store w !! other).
Proof.
  unfold CsvScraper.download_pdf, try_except, bind, is_Exception.
  destruct (Fs.path_exists filename w) as [[[|]|e] w0] eqn:Hex;
    pose proof (path_exists_world filename w) as Hw0; rewrite Hex in Hw0;
    simpl in Hw0; subst w0; [| |done].
  { simpl. split; [|done].
    exists true. split; [done|]. intros _.
    unfold Fs.path_exists in Hex. by injection Hex as ->. }
  destruct (path_exists_false filename w) as [Hdir Habs]; [by rewrite Hex|].
  pose proof (send_store server (GET url) w) as Hst.
  destruct (Http.send server (GET url) w) as [[resp|e] w1]; simpl in Hst.
  2:{ simpl. rewrite Hst. split; [|done]. exists false. done. }
  unfold ret. destruct (status_code resp =? 404)%Z.
  { simpl. rewrite Hst. split; [|done]. exists false. done. }
  unfold Http.raise_for_status, raise, ret.
  destruct (Http.is_error_status (status_code resp)).
  { simpl. rewrite Hst. split; [|done]. exists false. done. }
  unfold Http.total_size, raise, ret.
  destruct (content_length resp) as [[n|]|].
  2:{ simpl. rewrite Hst. split; [|done]. exists false. done. }
  all: rewrite save_body_spec by done;
    destruct (stream_fault resp); simpl; rewrite Hst;
    (split; [|split; [by apply insert_subseteq
                     | by intros other Hne; rewrite lookup_insert_ne]]).
  all: first [ by exists false
             | exists true; split; [done|]; intros _;
               unfold Fs.path_exists; simpl; rewrite lookup_insert_eq;
               rewrite bool_decide_eq_true_2 by eauto;
               by rewrite orb_true_r ].
Qed.

(** X5.  [download_pdf] of [csv_scraper.py] never raises, never changes or
    removes a file that was there, writes under no other name than the one
    it was given, and answers [True] only when the file exists
    afterwards. *)
Theorem csv_download_contract url filename w :
  let r := CsvScraper.download_pdf server url filename w in
  (exists ok, r.1 = Ok ok
              /\ (ok = true -> (Fs.path_exists filename r.2).1 = Ok true))
  /\ store w ⊆ store r.2
  /\ (forall other, other <> filename ->
        store r.2 !! other = store w !! other).
Proof.
  intros r. subst r.
  destruct (csv_download_facts url filename w) as (Hanswer & Hkept & Hframe).
  split; [exact Hanswer|]. split; [exact Hkept | exact Hframe].
Qed.

(** X6.  [download_pdf] of [scraper.py] lets no [RequestException] out:
    it answers, or raises [ValueError] or [OSError].  It writes under no
    other name than the one it was given, and after [True] the file
    exists. *)
Theorem scraper_download_contract url filename w :
  let r := Scraper.download_pdf server url filename w in
  ((exists ok, r.1 = Ok ok
               /\ (ok = true -> is_Some (store r.2 !! filename)))
   \/ r.1 = Raise ValueError \/ r.1 = Raise OSError)
  /\ (forall other, other <> filename ->
        store r.2 !! other = store w !! other).
Proof.
  split; [|intros other; apply scraper_download_frame].
  unfold Scraper.download_pdf, try_except, bind, Http.raise_for_status,
    Http.total_size, ret, raise. simpl.
  destruct (Http.send server (GET url) w) as [[resp|e] w1] eqn:Hsend.
  2:{ apply send_raises in Hsend as ->. simpl. left. by exists false. }
  destruct (Http.is_error_status (status_code resp)); simpl;
    [left; by exists false|].
  destruct (content_length resp) as [[n|]|]; simpl; [|eauto|].
  all: destruct (Fs.names_directory filename) eqn:Hdir;
    [ unfold Fs.save_body, bind, Fs.open_wb; rewrite Hdir; simpl; eauto
    | rewrite save_body_spec by done; destruct (stream_fault resp); simpl;
      left; [by exists false|]; exists true; split; [done|]; intros _;
      rewrite lookup_insert_eq; eauto ].
Qed.

(** One product of the portal scrape: nothing that was in the directory is
    changed, and no [RequestException] and no [OSError] gets out. *)
Lemma process_product_contract product_url w :
  let r := Scraper.process_product server product_url w in
  store w ⊆ store r.2
  /\ (r.1 = Ok tt \/ r.1 = Raise ValueError \/ r.1 = Raise KeyError).
Proof.
  unfold Scraper.process_product, try_except, bind, Http.raise_for_status,
    getitem, ret, raise.
  pose proof (send_store server (GET product_url) w) as Hst.
  destruct (Http.send server (GET product_url) w) as [[page|e] w1] eqn:Hsend;
    simpl in Hst.
  2:{ apply send_raises in Hsend as ->. simpl. rewrite Hst. eauto. }
  destruct (Http.is_error_status (status_code page)); simpl;
    [rewrite Hst; eauto|].
  destruct (find_elabel (text page)) as [elabel|]; simpl;
    [|rewrite Hst; eauto].
  destruct (elabel !! "href") as [href|]; simpl; [|rewrite Hst; eauto].
  destruct (PyStr.truthy href); simpl; [|rewrite Hst; eauto].
  set (pdf_url := Scraper.resolve_pdf_url Scraper.BASE_URL href).
  set (name := Scraper.pdf_filename_of pdf_url).
  destruct (Fs.names_directory name || bool_decide (is_Some (store w1 !! name)))
    eqn:Hex; simpl; [rewrite Hst; eauto|].
  apply orb_false_iff in Hex as [Hdir Habs].
  apply bool_decide_eq_false in Habs.
  assert (store w1 !! name = None) as Hnone.
  { destruct (store w1 !! name); [|done]. exfalso. apply Habs. by eexists. }
  pose proof (scraper_download_frame server pdf_url name w1) as Hfr.
  pose proof (scraper_download_cases server pdf_url name w1) as Hcases.
  assert (Hopen : (Scraper.download_pdf server pdf_url name w1).1
                  <> Raise OSError).
  { clear Hcases Hfr.
    unfold Scraper.download_pdf, try_except, bind, Http.raise_for_status,
      Http.total_size, ret, raise. simpl.
    destruct (Http.send server (GET pdf_url) w1) as [[resp|e] w2] eqn:Hs2.
    2:{ apply send_raises in Hs2 as ->. done. }
    destruct (Http.is_error_status (status_code resp)); simpl; [done|].
    destruct (content_length resp) as [[n|]|]; simpl; [|done|];
      rewrite save_body_spec by done; by destruct (stream_fault resp). }
  simpl in Hcases.
  destruct (Scraper.download_pdf server pdf_url name w1) as [[ok|e] w2];
    simpl in *.
  - split; [|eauto]. rewrite <- Hst. by eapply frame_subseteq.
  - destruct Hcases as [[ok [=]]|[[= ->]|[= ->]]]; [|done].
    simpl. split; [|eauto]. rewrite <- Hst. by eapply frame_subseteq.
Qed.

Lemma product_loop_contract links w :
  let r := for_each links (Scraper.process_product server) w in
  store w ⊆ store r.2
  /\ (r.1 = Ok tt \/ r.1 = Raise ValueError \/ r.1 = Raise KeyError).
Proof.
  revert w. induction links as [|l rest IH]; intros w; simpl; [eauto|].
  unfold bind.
  destruct (process_product_contract l w) as [Hsub Hres].
  destruct (Scraper.process_product server l w) as [[[]|e] w1]; simpl in *.
  - destruct (IH w1) as [Hsub' Hres']. split; [by etrans | done].
  - split; [done|]. destruct Hres as [[=]|Hres]. by right.
Qed.

Lemma get_session_params_contract url w :
  let r := Scraper.get_session_params server url w in
  store r.2 = store w
  /\ ((exists t, r.1 = Ok t) \/ r.1 = Raise ValueError \/ r.1 = Raise KeyError).
Proof.
  unfold Scraper.get_session_params, try_except, bind,
    Http.raise_for_status, getitem, ret, raise.
  pose proof (send_store server (GET url) w) as Hst.
  destruct (Http.send server (GET url) w) as [[resp|e] w1] eqn:Hsend;
    simpl in Hst.
  2:{ apply send_raises in Hsend as ->. simpl. eauto. }
  destruct (Http.is_error_status (status_code resp)); simpl; [eauto|].
  destruct (find_p_auth (text resp)) as [field|]; simpl; [|eauto].
  destruct (field !! "value"); simpl; eauto.
Qed.

Lemma search_loop_contract max_pages token fuel N found w :
  let r := Scraper.search_loop server fuel max_pages token N found w in
  store r.2 = store w
  /\ ((exists s, r.1 = Ok s) \/ r.1 = Raise KeyError).
Proof.
  revert N found w. induction fuel as [|fuel IH]; intros N found w.
  { simpl. eauto. }
  rewrite search_loop_step.
  destruct (search_page_spec server max_pages token N found w) as [Hw Hres].
  destruct (Scraper.search_page server max_pages token N found w)
    as [[[f1|f1]|e] w1]; simpl in *; subst w1.
  - destruct (IH (S N) f1 {| store := store w;
                             trace := trace w ++ [(Walk.search_request token N,
                                server (trace w) (Walk.search_request token N))] |})
      as [Hst Hr].
    split; [by rewrite Hst | done].
  - simpl. eauto.
  - simpl. subst e. eauto.
Qed.

(** X7.  A run of the portal scrape, however it ends, leaves every file
    that was in the directory as it was. *)
Theorem scrape_labels_keeps_existing_files max_pages fuel w :
  store w ⊆ store (Scraper.scrape_labels_with server max_pages fuel w).2.
Proof.
  unfold Scraper.scrape_labels_with, Scraper.ensure_dir, bind, ret.
  destruct (get_session_params_contract Scraper.SEARCH_URL w) as [Hst1 _].
  destruct (Scraper.get_session_params server Scraper.SEARCH_URL w)
    as [[[token|]|e] w1]; simpl in *; try (by rewrite Hst1).
  destruct (PyStr.truthy token); simpl; [|by rewrite Hst1].
  destruct (search_loop_contract max_pages token fuel 1 ∅ w1) as [Hst2 _].
  destruct (Scraper.search_loop server fuel max_pages token 1 ∅ w1)
    as [[[found|]|e] w2]; simpl in *; try (by rewrite Hst2, Hst1).
  destruct (product_loop_contract (elements found) w2) as [Hsub _].
  rewrite <- Hst1, <- Hst2.
  by destruct (for_each (elements found) (Scraper.process_product server) w2)
    as [[[]|e] w3].
Qed.

Lemma scrape_labels_outcomes max_pages fuel w :
  let r := Scraper.scrape_labels_with server max_pages fuel w in
  (exists report, r.1 = Ok report)
  \/ r.1 = Raise ValueError \/ r.1 = Raise KeyError.
Proof.
  unfold Scraper.scrape_labels_with, Scraper.ensure_dir, bind, ret.
  destruct (get_session_params_contract Scraper.SEARCH_URL w) as [_ Hr1].
  destruct (Scraper.get_session_params server Scraper.SEARCH_URL w)
    as [[[token|]|e] w1]; cbn [fst snd] in *; [|eauto|].
  2:{ destruct Hr1 as [[t [=]]|[[= ->]|[= ->]]]; eauto. }
  destruct (PyStr.truthy token); cbn [negb fst snd]; [|eauto].
  destruct (search_loop_contract max_pages token fuel 1 ∅ w1) as [_ Hr2].
  destruct (Scraper.search_loop server fuel max_pages token 1 ∅ w1)
    as [[[found|]|e] w2]; cbn [fst snd] in *; [|eauto|].
  2:{ destruct Hr2 as [[t [=]]|[= ->]]; eauto. }
  destruct (product_loop_contract (elements found) w2) as [_ Hr3].
  destruct (for_each (elements found) (Scraper.process_product server) w2)
    as [[[]|e] w3]; cbn [fst snd] in *; [eauto|].
  destruct Hr3 as [[=]|[[= ->]|[= ->]]]; eauto.
Qed.

(** X8.  No failure of a request ends a run of the portal scrape: whatever
    the server does, no [RequestException] gets out of [scrape_labels]. *)
Theorem scrape_labels_survives_request_failures max_pages fuel w :
  (Scraper.scrape_labels_with server max_pages fuel w).1
  <> Raise RequestException.
Proof.
  destruct (scrape_labels_outcomes max_pages fuel w) as [[r ->]|[-> | ->]];
    discriminate.
Qed.

End FetchContracts.

(** ** More of the search walk *)

Lemma search_page_halts server max_pages token N found w :
  match server (trace w) (Walk.search_request token N) with
  | ConnectionError => True
  | Response resp =>
      Http.is_error_status (status_code resp) = true
      \/ find_results_table (text resp) = None
      \/ exists rows, find_results_table (text resp) = Some rows
                      /\ length rows <= 1
  end ->
  Scraper.search_page server max_pages token N found w
  = (Ok (Scraper.Break found),
     {| store := store w;
        trace := trace w ++ [(Walk.search_request token N,
                              server (trace w) (Walk.search_request token N))] |}).
Proof.
  intros Hrep. unfold Scraper.search_page.
  change (POST _ _) with (Walk.search_request token N).
  unfold try_except, bind, Http.raise_for_status.
  rewrite send_spec by reflexivity.
  destruct (server (trace w) (Walk.search_request token N)) as [|resp];
    simpl; [done|].
  destruct (Http.is_error_status (status_code resp)); simpl; [done|].
  destruct Hrep as [?|[->|(rows & -> & Hlen)]]; [done|done|].
  apply Nat.leb_le in Hlen. by rewrite Hlen.
Qed.

(** A data row whose anchor has no [href] makes the scan raise. *)
Lemma scan_rows_bare_anchor rows found new w :
  (exists r, r ∈ rows /\ Walk.row_link r = Some None) ->
  Scraper.scan_rows rows found new w = (Raise KeyError, w).
Proof.
  revert found new. induction rows as [|[[[[a|]]|]] rest IH];
    intros found new (r & Hin & Hbare).
  - by apply elem_of_nil in Hin.
  - simpl. unfold bind, getitem.
    destruct (a !! "href") as [link|] eqn:Hhref; simpl; [|done].
    assert (exists r, r ∈ rest /\ Walk.row_link r = Some None) as Hrest.
    { apply elem_of_cons in Hin as [->|Hin]; [|by eauto].
      simpl in Hbare. congruence. }
    case_bool_decide; by apply IH.
  - simpl. apply IH.
    apply elem_of_cons in Hin as [->|Hin]; [done | by eauto].
  - simpl. apply IH.
    apply elem_of_cons in Hin as [->|Hin]; [done | by eauto].
Qed.

Section MoreOfTheWalk.
Variable server : server_t.
Variable max_pages : option nat.
Variable token : string.

Lemma search_loop_requests fuel N found w :
  let r := Scraper.search_loop server fuel max_pages token N found w in
  exists evs k,
    trace r.2 = trace w ++ evs
    /\ evs.*1 = map (Walk.search_request token) (seq N k)
    /\ k <= fuel
    /\ (forall m, max_pages = Some m -> 0 < m -> N <= m -> N + k <= S m).
Proof.
  revert N found w. induction fuel as [|fuel IH]; intros N found w.
  { exists [], 0. simpl. rewrite app_nil_r. repeat split; [lia..|].
    intros; lia. }
  rewrite search_loop_step.
  destruct (search_page_spec server max_pages token N found w) as [Hw _].
  destruct (Scraper.search_page server max_pages token N found w)
    as [[[f1|f1]|e] w1] eqn:Hstep; simpl in Hw; subst w1.
  - apply search_page_continue in Hstep.
    destruct (IH (S N) f1 {| store := store w;
                             trace := trace w ++ [(Walk.search_request token N,
                                server (trace w) (Walk.search_request token N))] |})
      as (evs & k & Htr & Hreq & Hk & Hcap).
    exists ((Walk.search_request token N,
             server (trace w) (Walk.search_request token N)) :: evs), (S k).
    split; [by rewrite Htr; simpl; rewrite <- app_assoc|].
    split; [by rewrite fmap_cons, Hreq|]. split; [lia|].
    intros m Hm Hpos HN. subst max_pages. simpl in Hstep.
    apply andb_false_iff in Hstep as [Hstep|Hstep].
    + apply Nat.ltb_ge in Hstep. lia.
    + apply Nat.leb_gt in Hstep. specialize (Hcap m eq_refl Hpos). lia.
  - exists [(Walk.search_request token N,
             server (trace w) (Walk.search_request token N))], 1.
    simpl. repeat split; [lia|]. intros; lia.
  - exists [(Walk.search_request token N,
             server (trace w) (Walk.search_request token N))], 1.
    simpl. repeat split; [lia|]. intros; lia.
Qed.

(** X9.  However the walk ends, and whatever the server answers, its
    requests are the search form for pages 1, 2, ..., k, in that order and
    each once, the directory is untouched, and under a page cap [m] no page
    beyond [m] is asked for. *)
Theorem search_walk_requests_pages_in_order fuel w :
  let r := Scraper.search_loop server fuel max_pages token 1 ∅ w in
  exists evs k,
    trace r.2 = trace w ++ evs
    /\ evs.*1 = map (Walk.search_request token) (seq 1 k)
    /\ k <= fuel
    /\ (forall m, max_pages = Some m -> 0 < m -> k <= m)
    /\ store r.2 = store w.
Proof.
  destruct (search_loop_requests fuel 1 ∅ w) as (evs & k & Htr & Hreq & Hk & Hcap).
  exists evs, k. repeat split; try done.
  - intros m Hm Hpos. specialize (Hcap m Hm Hpos). lia.
  - apply search_loop_contract.
Qed.

(** X10.  When the request for a page fails, or the page has no results
    table, or a table with no row below the header, the walk returns what
    it has accumulated so far; that request is its last. *)
Theorem search_walk_keeps_partial_results w0 w N found fuel :
  Walk.arrives server max_pages token w0 N found w ->
  match server (trace w) (Walk.search_request token N) with
  | ConnectionError => True
  | Response resp =>
      Http.is_error_status (status_code resp) = true
      \/ find_results_table (text resp) = None
      \/ exists rows, find_results_table (text resp) = Some rows
                      /\ length rows <= 1
  end ->
  N <= fuel ->
  Scraper.search_loop server fuel max_pages token 1 ∅ w0
  = (Ok (Some found),
     {| store := store w;
        trace := trace w ++ [(Walk.search_request token N,
                              server (trace w) (Walk.search_request token N))] |}).
Proof.
  intros Harr Hrep Hfuel.
  pose proof (arrives_positive _ _ _ _ _ _ _ Harr) as HN.
  replace fuel with (N - 1 + S (fuel - N)) by lia.
  rewrite (arrives_loop _ _ _ _ _ _ _ Harr), search_loop_step.
  by rewrite search_page_halts.
Qed.

(** X11.  A results page with a data row whose anchor has no [href] ends
    the walk, and with it the run, in [KeyError]: the links accumulated so
    far are lost and no product is looked at. *)
Theorem search_walk_bare_anchor w0 w N found fuel resp rows :
  Walk.arrives server max_pages token w0 N found w ->
  server (trace w) (Walk.search_request token N) = Response resp ->
  Http.is_error_status (status_code resp) = false ->
  find_results_table (text resp) = Some rows ->
  (exists r, r ∈ List.tl rows /\ Walk.row_link r = Some None) ->
  N <= fuel ->
  Scraper.search_loop server fuel max_pages token 1 ∅ w0
  = (Raise KeyError,
     {| store := store w;
        trace := trace w ++ [(Walk.search_request token N, Response resp)] |}).
Proof.
  intros Harr Hrep Hst Htab Hbare Hfuel.
  pose proof (arrives_positive _ _ _ _ _ _ _ Harr) as HN.
  replace fuel with (N - 1 + S (fuel - N)) by lia.
  rewrite (arrives_loop _ _ _ _ _ _ _ Harr), search_loop_step.
  unfold Scraper.search_page.
  change (POST _ _) with (Walk.search_request token N).
  unfold try_except, bind, Http.raise_for_status.
  rewrite send_spec by reflexivity. rewrite Hrep. simpl.
  rewrite Hst. simpl. rewrite Htab.
  destruct (Nat.leb (length rows) 1) eqn:Hlen.
  { apply Nat.leb_le in Hlen. destruct Hbare as (r & Hin & _).
    destruct rows as [|? [|]]; simpl in *; try lia; by apply elem_of_nil in Hin. }
  by rewrite scan_rows_bare_anchor.
Qed.

End MoreOfTheWalk.

(** X12.  The counter of a page scan, [new_links_on_page], is the number of
    links by which the set has grown; the scan adds links and removes
    none. *)
Theorem scan_counts_new_links rows found w found' n w' :
  Scraper.scan_rows rows found 0 w = (Ok (found', n), w') ->
  w' = w
  /\ found ⊆ found'
  /\ found' = found ∪ list_to_set (Walk.links_of rows)
  /\ n = size (found' ∖ found).
Proof.
  intros Hscan. destruct (scan_rows_spec rows found 0 w) as [Hw Hres].
  rewrite Hscan in Hw, Hres. simpl in *. destruct Hres as [Hf Hsize].
  split; [done|]. split; [set_solver|]. split; [done|].
  rewrite size_difference by set_solver. lia.
Qed.

(** ** More of the product loop *)

Section MoreOfTheProductLoop.
Variable server : server_t.

(** X13.  A token field whose [value] is the empty string counts as no
    token: the run returns after the one exchange, without a search. *)
Theorem empty_token_ends_the_run max_pages fuel w resp field :
  server (trace w) (GET Scraper.SEARCH_URL) = Response resp ->
  Http.is_error_status (status_code resp) = false ->
  find_p_auth (text resp) = Some field ->
  field !! "value" = Some "" ->
  Scraper.scrape_labels_with server max_pages fuel w
  = (Ok (Some None),
     {| store := store w;
        trace := trace w ++ [(GET Scraper.SEARCH_URL, Response resp)] |}).
Proof.
  intros Hrep Hst Hfield Hval.
  unfold Scraper.scrape_labels_with, Scraper.ensure_dir, bind, ret.
  unfold Scraper.get_session_params, try_except, bind, Http.raise_for_status,
    getitem.
  rewrite send_spec by reflexivity. rewrite Hrep. simpl. rewrite Hst. simpl.
  rewrite Hfield. by rewrite Hval.
Qed.


(** X15.  A product link that, the white space in front of it aside, does
    not begin with [http://] or [https://], such as a relative one, or that
    names no host, is never requested: the product loop goes through a
    list of such links without an exchange and without a download. *)
Theorem links_without_transport_are_not_requested links w :
  Forall (fun l => Http.has_transport l = false) links ->
  for_each links (Scraper.process_product server) w = (Ok tt, w).
Proof.
  induction 1 as [|l rest Hl _ IH]; simpl; [done|].
  unfold bind.
  assert (Scraper.process_product server l w = (Ok tt, w)) as ->.
  { unfold Scraper.process_product, try_except, bind, Http.send. simpl.
    by rewrite Hl. }
  done.
Qed.

(** [download_pdf] of [scraper.py] calls [requests] once, for the URL it
    was given. *)
Lemma scraper_download_trace url filename w :
  trace (Scraper.download_pdf server url filename w).2
  = if Http.has_transport url
    then trace w ++ [(GET url, server (trace w) (GET url))]
    else trace w.
Proof.
  unfold Scraper.download_pdf, try_except, bind, Http.raise_for_status,
    Http.total_size, ret, raise, Http.send. simpl.
  destruct (Http.has_transport url); simpl; [|done].
  destruct (server (trace w) (GET url)) as [|resp]; simpl; [done|].
  destruct (Http.is_error_status (status_code resp)); simpl; [done|].
  destruct (content_length resp) as [[n|]|]; simpl; [|done|].
  all: match goal with
       | |- context [Fs.save_body ?n ?r ?w0] =>
           pose proof (save_body_trace n r w0) as Hsave;
           destruct (Fs.save_body n r w0) as [[[]|e] w2]
       end; simpl in *; [done|]; by destruct (is_RequestException e).
Qed.

(** One round of the product loop calls [requests] for the link as it was
    found and, at most, for the document that the detail page names. *)
Lemma process_product_requests product_url w :
  exists evs,
    trace (Scraper.process_product server product_url w).2 = trace w ++ evs
    /\ Walk.product_exchanges server (trace w) product_url evs.
Proof.
  unfold Walk.product_exchanges.
  unfold Scraper.process_product, try_except, bind, Http.raise_for_status,
    getitem, ret, raise, Http.send. simpl.
  destruct (Http.has_transport product_url) eqn:Htr; simpl.
  2:{ exists []. rewrite app_nil_r. split; [done | by left]. }
  set (rep := server (trace w) (GET product_url)).
  assert (Hone : exists evs,
             trace w ++ [(GET product_url, rep)] = trace w ++ evs
             /\ (true = false /\ evs = []
                 \/ true = true /\ evs = [(GET product_url, rep)]
                 \/ exists page elabel href,
                      true = true /\ rep = Response page
                      /\ find_elabel (text page) = Some elabel
                      /\ elabel !! "href" = Some href
                      /\ Http.has_transport
                           (Scraper.resolve_pdf_url Scraper.BASE_URL href) = true
                      /\ evs = [(GET product_url, rep);
                                (GET (Scraper.resolve_pdf_url Scraper.BASE_URL href),
                                 server (trace w ++ [(GET product_url, rep)])
                                   (GET (Scraper.resolve_pdf_url
                                           Scraper.BASE_URL href)))])).
  { exists [(GET product_url, rep)]. split; [done|]. right. by left. }
  destruct rep as [|page] eqn:Hrep; simpl; [done|].
  destruct (Http.is_error_status (status_code page)); simpl; [done|].
  destruct (find_elabel (text page)) as [elabel|] eqn:Hel; simpl; [|done].
  destruct (elabel !! "href") as [href|] eqn:Hhref; simpl; [|done].
  destruct (PyStr.truthy href); simpl; [|done].
  destruct (Fs.names_directory _ || bool_decide _); simpl; [done|].
  match goal with
  | |- context [Scraper.download_pdf server ?u ?f ?w1] =>
      pose proof (scraper_download_trace u f w1) as Hdl;
      destruct (Scraper.download_pdf server u f w1) as [[ok|e] w2]
  end; simpl in Hdl.
  all: assert (Hw2 : trace w2
                     = if Http.has_transport
                            (Scraper.resolve_pdf_url Scraper.BASE_URL href)
                       then (trace w ++ [(GET product_url, Response page)])
                            ++ [(GET (Scraper.resolve_pdf_url
                                        Scraper.BASE_URL href),
                                 server (trace w
                                         ++ [(GET product_url, Response page)])
                                   (GET (Scraper.resolve_pdf_url
                                           Scraper.BASE_URL href)))]
                       else trace w ++ [(GET product_url, Response page)])
    by exact Hdl; clear Hdl.
  all: assert (Hgoal : exists evs,
             trace w2 = trace w ++ evs
             /\ (true = false /\ evs = []
                 \/ true = true /\ evs = [(GET product_url, Response page)]
                 \/ exists page0 elabel0 href0,
                      true = true /\ Response page = Response page0
                      /\ find_elabel (text page0) = Some elabel0
                      /\ elabel0 !! "href" = Some href0
                      /\ Http.has_transport
                           (Scraper.resolve_pdf_url Scraper.BASE_URL href0)
                         = true
                      /\ evs = [(GET product_url, Response page);
                                (GET (Scraper.resolve_pdf_url
                                        Scraper.BASE_URL href0),
                                 server (trace w
                                         ++ [(GET product_url, Response page)])
                                   (GET (Scraper.resolve_pdf_url
                                           Scraper.BASE_URL href0)))]));
    [ rewrite Hw2;
      destruct (Http.has_transport
                  (Scraper.resolve_pdf_url Scraper.BASE_URL href)) eqn:Hdoc;
      [ eexists; split; [by rewrite <- app_assoc|];
        right; right; exists page, elabel, href; done
      | eexists; split; [done|]; right; by left ]
    | ].
  - exact Hgoal.
  - by destruct (is_RequestException e).
Qed.

Lemma product_exchanges_length server0 tr link evs :
  Walk.product_exchanges server0 tr link evs -> length evs <= 2.
Proof.
  intros [[_ ->]|[[_ ->]|(page & elabel & href & _ & _ & _ & _ & _ & ->)]];
    simpl; lia.
Qed.

(** X16.  The product loop goes through the links in order and calls
    [requests] for each at most twice: once for the link as found and, when
    the detail page names a document whose file is absent, once for that
    document's URL.  No call is made again after it has failed, and the
    loop stops short of the end of the list only where a product raises. *)
Theorem product_loop_requests links w :
  let r := for_each links (Scraper.process_product server) w in
  exists visited evss,
    visited `prefix_of` links
    /\ (r.1 = Ok tt -> visited = links)
    /\ Walk.product_loop_exchanges server (trace w) visited evss
    /\ trace r.2 = trace w ++ concat evss
    /\ length (concat evss) <= 2 * length visited.
Proof.
  revert w. induction links as [|l rest IH]; intros w; simpl.
  { exists [], []. simpl. rewrite app_nil_r. done. }
  unfold bind.
  destruct (process_product_requests l w) as (evs & Htr & Hevs).
  pose proof (product_exchanges_length _ _ _ _ Hevs) as Hlen.
  destruct (Scraper.process_product server l w) as [[[]|e] w1]; simpl in *.
  - destruct (IH w1) as (visited & evss & Hpre & Hall & Hloop & Htr' & Hlen').
    rewrite Htr in Hloop, Htr'.
    exists (l :: visited), (evs :: evss). simpl.
    split; [by apply prefix_cons|].
    split; [by intros Hok; rewrite Hall|].
    split; [done|].
    split; [by rewrite Htr', <- app_assoc|].
    rewrite length_app. lia.
  - exists [l], [evs]. simpl. rewrite app_nil_r.
    split; [apply prefix_cons, prefix_nil|].
    split; [done|]. split; [done|]. split; [done | lia].
Qed.

End MoreOfTheProductLoop.

(** ** More of the CSV-driven run *)

Section MoreOfTheCsvRun.
Variable server : server_t.

(** A request is made only for a file that is not there. *)
Lemma csv_download_requests_absent url filename w :
  exists evs,
    trace (CsvScraper.download_pdf server url filename w).2 = trace w ++ evs
    /\ (evs = []
        \/ (store w !! filename = None
            /\ exists rep, evs = [(GET url, rep)])).
Proof.
  destruct (csv_download_exchanges server url filename w)
    as (ok & evs & Hrun & Hevs).
  exists evs. rewrite Hrun. simpl. split; [done|].
  destruct Hevs as [->|[rep ->]]; [by left|]. right. split; [|by eexists].
  destruct (store w !! filename) as [old|] eqn:Hold; [|done].
  rewrite csv_download_present in Hrun by eauto.
  injection Hrun as _ Hw. apply (f_equal trace) in Hw. simpl in Hw.
  apply (f_equal length) in Hw. rewrite length_app in Hw. simpl in Hw. lia.
Qed.

Lemma download_all_contract products counts w :
  let r := CsvScraper.download_all server products counts w in
  store w ⊆ store r.2
  /\ exists c, r.1 = Ok c /\ counts.1 <= c.1 /\ counts.2 <= c.2.
Proof.
  revert counts w. induction products as [|p rest IH]; intros [sc fc] w; simpl.
  { split; [done|]. exists (sc, fc). simpl. repeat split; lia. }
  unfold bind.
  pose proof (csv_download_facts server (CsvScraper.url_of p)
                (CsvScraper.filename_of p) w) as Hc.
  simpl in Hc. destruct Hc as ((ok & Hok & _) & Hsub & _).
  destruct (CsvScraper.download_pdf server (CsvScraper.url_of p)
              (CsvScraper.filename_of p) w) as [r1 w1]; simpl in *.
  subst r1. destruct ok.
  - destruct (IH (S sc, fc) w1) as (Hsub' & c & Hc & H1 & H2).
    split; [by etrans|]. exists c. simpl in *. repeat split; [done|lia|lia].
  - destruct (IH (sc, S fc) w1) as (Hsub' & c & Hc & H1 & H2).
    split; [by etrans|]. exists c. simpl in *. repeat split; [done|lia|lia].
Qed.

Lemma download_all_requests_absent products counts w :
  exists evs,
    trace (CsvScraper.download_all server products counts w).2 = trace w ++ evs
    /\ forall req, req ∈ evs.*1 ->
         exists p, p ∈ products
                   /\ req = GET (CsvScraper.url_of p)
                   /\ store w !! CsvScraper.filename_of p = None.
Proof.
  revert counts w. induction products as [|p rest IH]; intros [sc fc] w; simpl.
  { exists []. rewrite app_nil_r. split; [done|]. intros req Hin.
    by apply elem_of_nil in Hin. }
  unfold bind.
  destruct (csv_download_requests_absent (CsvScraper.url_of p)
              (CsvScraper.filename_of p) w) as (evs & Htr & Hevs).
  pose proof (csv_download_facts server (CsvScraper.url_of p)
                (CsvScraper.filename_of p) w) as Hc.
  simpl in Hc. destruct Hc as ((ok & Hok & _) & Hsub & _).
  destruct (CsvScraper.download_pdf server (CsvScraper.url_of p)
              (CsvScraper.filename_of p) w) as [r1 w1]; simpl in *.
  subst r1.
  assert (Hrest : forall c, exists evs',
             trace (CsvScraper.download_all server rest c w1).2
               = trace w ++ (evs ++ evs')
             /\ forall req, req ∈ evs'.*1 ->
                  exists p', p' ∈ rest
                    /\ req = GET (CsvScraper.url_of p')
                    /\ store w !! CsvScraper.filename_of p' = None).
  { intros c. destruct (IH c w1) as (evs' & Htr' & Hreq').
    exists evs'. rewrite Htr', Htr, <- app_assoc. split; [done|].
    intros req Hin. destruct (Hreq' req Hin) as (p' & Hp' & -> & Habs).
    exists p'. repeat split; [done|].
    destruct (store w !! CsvScraper.filename_of p') as [old|] eqn:Hold; [|done].
    apply (lookup_weaken _ _ _ _ Hold) in Hsub. congruence. }
  destruct ok;
    [destruct (Hrest (S sc, fc)) as (evs' & Htr' & Hreq')
    |destruct (Hrest (sc, S fc)) as (evs' & Htr' & Hreq')].
  all: exists (evs ++ evs'); split; [done|];
    intros req Hin; rewrite fmap_app in Hin;
    apply elem_of_app in Hin as [Hin|Hin];
    [ destruct Hevs as [->|[Habs [rep ->]]];
      [ by apply elem_of_nil in Hin
      | apply list_elem_of_singleton in Hin as ->;
        exists p; split; [by left | done] ]
    | destruct (Hreq' req Hin) as (p' & Hp' & Heq & Habs);
      exists p'; split; [by right | done] ].
Qed.

(** The URL of a download-list entry is one that [requests] sends. *)
Lemma csv_url_has_transport (p : CsvScraper.product) :
  Http.has_transport (CsvScraper.url_of p) = true.
Proof. reflexivity. Qed.

(** A fetch for a file that is absent makes one call, and a body that is
    received is in the file afterwards, broken off or not. *)
Lemma csv_download_absent url filename w :
  Http.has_transport url = true ->
  Fs.names_directory filename = false ->
  store w !! filename = None ->
  let rep := server (trace w) (GET url) in
  let r := CsvScraper.download_pdf server url filename w in
  trace r.2 = trace w ++ [(GET url, rep)]
  /\ (forall resp,
        rep = Response resp ->
        Http.is_error_status (status_code resp) = false ->
        content_length resp <> Some None ->
        store r.2 !! filename = Some (concat (iter_content resp))).
Proof.
  intros Htr Hdir Habs rep r. subst rep r.
  unfold CsvScraper.download_pdf, try_except, bind.
  rewrite (path_exists_absent _ _ Hdir Habs).
  unfold Http.raise_for_status, Http.total_size, is_Exception.
  rewrite send_spec by done.
  destruct (server (trace w) (GET url)) as [|resp]; simpl; [done|].
  destruct (status_code resp =? 404)%Z eqn:H404; simpl.
  { split; [done|]. intros ? [= <-] Hst.
    apply Z.eqb_eq in H404. rewrite H404 in Hst. discriminate. }
  destruct (Http.is_error_status (status_code resp)) eqn:Hst; simpl.
  { split; [done|]. intros ? [= <-] Hst'. congruence. }
  destruct (content_length resp) as [[n|]|] eqn:Hlen; simpl.
  2:{ split; [done|]. intros ? [= <-] _ Hlen'. congruence. }
  all: rewrite save_body_spec by done;
    destruct (stream_fault resp); simpl;
    (split; [done|]); intros ? [= <-] _ _; by rewrite lookup_insert_eq.
Qed.

(** When none of the files is there and the numbers differ, the loop
    calls [requests] once for each product, in order, and what is received
    for a product is in its file at the end. *)
Lemma download_all_absent products counts w :
  NoDup (CsvScraper.no <$> products) ->
  (forall p, p ∈ products -> store w !! CsvScraper.filename_of p = None) ->
  let after := (CsvScraper.download_all server products counts w).2 in
  exists replies,
    length replies = length products
    /\ trace after
       = trace w ++ zip (map (fun p => GET (CsvScraper.url_of p)) products)
                        replies
    /\ (forall i p resp,
          products !! i = Some p ->
          replies !! i = Some (Response resp) ->
          Http.is_error_status (status_code resp) = false ->
          content_length resp <> Some None ->
          store after !! CsvScraper.filename_of p
          = Some (concat (iter_content resp))).
Proof.
  revert counts w. induction products as [|p rest IH];
    intros [sc fc] w Hnd Habs; simpl.
  { exists []. simpl. rewrite app_nil_r. split; [done|]. split; [done|].
    intros i p resp Hi. by rewrite lookup_nil in Hi. }
  rewrite fmap_cons in Hnd. apply NoDup_cons in Hnd as [Hfresh Hnd].
  unfold bind.
  destruct (csv_download_absent (CsvScraper.url_of p)
              (CsvScraper.filename_of p) w) as [Htr Hstored];
    [apply csv_url_has_transport | apply filename_not_directory
    | apply Habs; by left |].
  pose proof (csv_download_facts server (CsvScraper.url_of p)
                (CsvScraper.filename_of p) w) as Hc.
  simpl in Hc. destruct Hc as ((ok & Hok & _) & _ & Hframe).
  set (rep := server (trace w) (GET (CsvScraper.url_of p))) in *.
  destruct (CsvScraper.download_pdf server (CsvScraper.url_of p)
              (CsvScraper.filename_of p) w) as [r1 w1]; simpl in *.
  subst r1.
  assert (Habs1 : forall q, q ∈ rest ->
             store w1 !! CsvScraper.filename_of q = None).
  { intros q Hq. rewrite Hframe; [apply Habs; by right|].
    intros Heq. apply Hfresh. unfold CsvScraper.filename_of in Heq.
    apply append_inj_r in Heq. rewrite <- Heq.
    apply list_elem_of_fmap. by exists q. }
  assert (Hrest : forall c,
             exists replies,
               length replies = S (length rest)
               /\ trace (CsvScraper.download_all server rest c w1).2
                  = trace w
                    ++ zip (GET (CsvScraper.url_of p)
                              :: map (fun p => GET (CsvScraper.url_of p)) rest)
                         replies
               /\ (forall i q resp,
                     (p :: rest) !! i = Some q ->
                     replies !! i = Some (Response resp) ->
                     Http.is_error_status (status_code resp) = false ->
                     content_length resp <> Some None ->
                     store (CsvScraper.download_all server rest c w1).2
                       !! CsvScraper.filename_of q
                     = Some (concat (iter_content resp)))).
  { intros c. destruct (IH c w1 Hnd Habs1) as (replies & Hlen & Htr' & Hst').
    exists (rep :: replies). split; [by simpl; rewrite Hlen|].
    split; [by rewrite Htr', Htr; simpl; rewrite <- app_assoc|].
    intros [|i] q resp Hq Hrep Hstatus Hcl; simpl in Hq, Hrep.
    - injection Hq as <-. injection Hrep as Hrep.
      destruct (download_all_contract rest c w1) as [Hsub _].
      eapply lookup_weaken; [|exact Hsub]. by apply Hstored.
    - by eapply Hst'. }
  destruct ok; apply Hrest.
Qed.

(** A file that is there after the loop was there before it, or is the
    file of one of the products. *)
Lemma download_all_new_files products counts w name :
  is_Some (store (CsvScraper.download_all server products counts w).2 !! name) ->
  is_Some (store w !! name)
  \/ exists p, p ∈ products /\ name = CsvScraper.filename_of p.
Proof.
  revert counts w. induction products as [|p rest IH];
    intros [sc fc] w; simpl; [by left|].
  unfold bind.
  pose proof (csv_download_facts server (CsvScraper.url_of p)
                (CsvScraper.filename_of p) w) as Hc.
  simpl in Hc. destruct Hc as ((ok & Hok & _) & _ & Hframe).
  destruct (CsvScraper.download_pdf server (CsvScraper.url_of p)
              (CsvScraper.filename_of p) w) as [r1 w1]; simpl in *.
  subst r1.
  assert (Hrest : forall c,
             is_Some (store (CsvScraper.download_all server rest c w1).2
                        !! name) ->
             is_Some (store w !! name)
             \/ exists q, q ∈ p :: rest /\ name = CsvScraper.filename_of q).
  { intros c Hin.
    destruct (decide (name = CsvScraper.filename_of p)) as [->|Hne].
    { right. exists p. split; [by left | done]. }
    destruct (IH c w1 Hin) as [Hold|(q & Hq & ->)].
    - left. by rewrite <- Hframe.
    - right. exists q. split; [by right | done]. }
  destruct ok; apply Hrest.
Qed.

(** X17.  A CSV-driven run, however it goes, leaves every file that was in
    the directory as it was, and requests a URL only for a selected product
    whose file was not there when the run began. *)
Theorem process_csv_resumes rows w :
  let r := CsvScraper.process_csv server rows w in
  store w ⊆ store r.2
  /\ exists evs,
       trace r.2 = trace w ++ evs
       /\ forall req, req ∈ evs.*1 ->
            exists p, p ∈ CsvScraper.select_products rows
                      /\ req = GET (CsvScraper.url_of p)
                      /\ store w !! CsvScraper.filename_of p = None.
Proof.
  intros r. subst r.
  destruct (process_csv_cases server rows w) as [[_ ->]|(_ & _ & ->)].
  - split; [apply download_all_contract | apply download_all_requests_absent].
  - split; [done|]. exists []. rewrite app_nil_r. split; [done|].
    intros req Hin. by apply elem_of_nil in Hin.
Qed.

(** X18.  On a CSV file whose records are all complete, when the file of
    every selected product is in the directory already, the run sends
    nothing, changes nothing and counts every product a success. *)
Theorem process_csv_on_complete_store rows w :
  Forall (fun r => Selection.complete r = true) rows ->
  (forall p, p ∈ CsvScraper.select_products rows ->
             is_Some (store w !! CsvScraper.filename_of p)) ->
  CsvScraper.process_csv server rows w
  = (Ok (length (CsvScraper.select_products rows), 0), w).
Proof.
  intros Hcomplete.
  destruct (process_csv_cases server rows w) as [[_ ->]|[Hnot _]]; [|done].
  generalize (CsvScraper.select_products rows) as products.
  intros products Hall.
  assert (forall sc,
             CsvScraper.download_all server products (sc, 0) w
             = (Ok (sc + length products, 0), w)) as Hgen.
  { induction products as [|p rest IH]; intros sc; simpl.
    - by rewrite Nat.add_0_r.
    - unfold bind. rewrite csv_download_present by (apply Hall; by left).
      rewrite IH by (intros p' Hp'; apply Hall; by right).
      do 3 f_equal. lia. }
  apply (Hgen 0).
Qed.

Lemma download_all_without_failure products sc fc w c :
  (CsvScraper.download_all server products (sc, fc) w).1 = Ok c ->
  c.2 = fc ->
  forall p, p ∈ products ->
            is_Some (store (CsvScraper.download_all server products (sc, fc) w).2
                       !! CsvScraper.filename_of p).
Proof.
  revert sc w. induction products as [|p rest IH]; intros sc w Hrun Hfc q Hq.
  { by apply elem_of_nil in Hq. }
  simpl in *. unfold bind in *.
  pose proof (csv_download_facts server (CsvScraper.url_of p)
                (CsvScraper.filename_of p) w) as Hc.
  simpl in Hc. destruct Hc as ((ok & Hok & Hpresent) & _ & _).
  destruct (CsvScraper.download_pdf server (CsvScraper.url_of p)
              (CsvScraper.filename_of p) w) as [r1 w1]; simpl in *.
  subst r1. destruct ok.
  - apply elem_of_cons in Hq as [->|Hq]; [|by eapply IH].
    destruct (download_all_contract rest (S sc, fc) w1) as [Hsub _].
    specialize (Hpresent eq_refl). unfold Fs.path_exists in Hpresent.
    simpl in Hpresent. injection Hpresent as Hpresent.
    rewrite filename_not_directory in Hpresent. simpl in Hpresent.
    apply bool_decide_eq_true in Hpresent as [content Hcontent].
    exists content. by eapply lookup_weaken.
  - destruct (download_all_contract rest (sc, S fc) w1)
      as (_ & c' & Hc' & _ & Hfc').
    rewrite Hc' in Hrun. injection Hrun as ->. simpl in Hfc'. lia.
Qed.

(** X19.  When the report of a run shows no failure, the file of every
    selected product is in the directory afterwards. *)
Theorem process_csv_without_failure rows w success_count :
  (CsvScraper.process_csv server rows w).1 = Ok (success_count, 0) ->
  forall p, p ∈ CsvScraper.select_products rows ->
            is_Some (store (CsvScraper.process_csv server rows w).2
                       !! CsvScraper.filename_of p).
Proof.
  destruct (process_csv_cases server rows w) as [[_ ->]|(_ & _ & ->)].
  - intros Hrun. by eapply download_all_without_failure.
  - discriminate.
Qed.

End MoreOfTheCsvRun.

(** A state of the selection loop only grows. *)
Lemma select_rows_extends more ua ps :
  exists added,
    (fold_left Selection.step more (ua, ps)).2 = ps ++ added.
Proof.
  revert ua ps. induction more as [|r more IH]; intros ua ps; cbn [fold_left].
  { exists []. by rewrite app_nil_r. }
  destruct (Selection.qualifies r) eqn:Hq.
  - rewrite step_qualified by done. case_bool_decide; [apply IH|].
    destruct (IH ({[Selection.key r]} ∪ ua) (ps ++ [Selection.entry r]))
      as (added & ->).
    exists (Selection.entry r :: added). by rewrite <- app_assoc.
  - rewrite step_unqualified by done. apply IH.
Qed.

(** Records whose actives have all been seen add nothing. *)
Lemma select_rows_seen more ua ps :
  (forall r, r ∈ more -> Selection.qualifies r = true ->
             Selection.key r ∈ ua) ->
  fold_left Selection.step more (ua, ps) = (ua, ps).
Proof.
  induction more as [|r more IH]; intros Hseen; cbn [fold_left]; [done|].
  destruct (Selection.qualifies r) eqn:Hq.
  - rewrite step_qualified by done.
    rewrite bool_decide_eq_true_2 by (apply Hseen; [by left | done]).
    apply IH. intros r' Hr'. apply Hseen. by right.
  - rewrite step_unqualified by done.
    apply IH. intros r' Hr'. apply Hseen. by right.
Qed.

Lemma select_rows_length rows st :
  length (fold_left Selection.step rows st).2 <= length st.2 + length rows.
Proof.
  revert st. induction rows as [|r rows IH]; intros [ua ps];
    cbn [fold_left fst snd length]; [lia|].
  destruct (Selection.qualifies r) eqn:Hq.
  - rewrite step_qualified by done. case_bool_decide.
    + specialize (IH (ua, ps)). simpl in IH. lia.
    + specialize (IH ({[Selection.key r]} ∪ ua, ps ++ [Selection.entry r])).
      simpl in IH. rewrite length_app in IH. simpl in IH. lia.
  - rewrite step_unqualified by done.
    specialize (IH (ua, ps)). simpl in IH. lia.
Qed.

(** X20.  The selection works from the front: what is selected from the
    first records stays selected, in place, when complete records follow;
    records that come a second time add nothing; and there are never more
    entries than records. *)
Theorem selection_is_stable rows more :
  Forall (fun r => Selection.complete r = true) more ->
  CsvScraper.select_products rows
    `prefix_of` CsvScraper.select_products (rows ++ more)
  /\ CsvScraper.select_products (rows ++ rows)
     = CsvScraper.select_products rows
  /\ length (CsvScraper.select_products rows) <= length rows.
Proof.
  intros Hmore.
  destruct (decide (Forall (fun r => Selection.complete r = true) rows))
    as [Hrows|Hrows].
  2:{ rewrite (select_products_incomplete rows) by done.
      split; [by eexists|]. split; [|simpl; lia].
      apply select_products_incomplete.
      intros Hall. by apply Forall_app in Hall as [? _]. }
  rewrite (select_products_complete rows) by done.
  rewrite (select_products_complete (rows ++ more))
    by (by apply Forall_app).
  rewrite (select_products_complete (rows ++ rows))
    by (by apply Forall_app).
  split; [|split].
  - rewrite fold_left_app.
    destruct (fold_left Selection.step rows (∅, [])) as [ua ps].
    destruct (select_rows_extends more ua ps) as (added & ->).
    by exists added.
  - rewrite fold_left_app.
    pose proof (select_rows_invariant rows) as (Hua & _ & _ & Hall).
    destruct (fold_left Selection.step rows (∅, [])) as [ua ps].
    simpl in *. rewrite select_rows_seen; [done|].
    intros r Hr Hq. apply list_elem_of_lookup in Hr as [i Hi].
    destruct (Hall i r Hi Hq) as (p & Hp & Hkey).
    apply Hua. rewrite <- Hkey. apply list_elem_of_fmap. by exists p.
  - apply (select_rows_length rows (∅, [])).
Qed.

(** C10, as the code has it.  On a CSV file whose records are all
    complete, and with the [Actives] and [No] fields read through
    [strip()]: the selection keeps, for every actives string that occurs on
    a record with both fields non-empty, one entry and no more, that of the
    first such record in file order, made of its stripped fields.  A record
    with an empty [Actives] or [No] leaves the selection as it is.  The
    file of an entry is named by its number followed by [ELBL.pdf] and its
    URL is the base followed by that name: when the numbers differ and none
    of these files is there, a run asks for exactly these URLs, once each
    and in the order of the entries, what it receives for an entry is in
    that entry's file afterwards, and it makes no other file.  Whatever is
    in the directory, a run asks for nothing but these URLs, in that
    order. *)
Theorem C10_one_entry_per_actives (rows : list CsvScraper.csv_row) :
  Forall (fun r => Selection.complete r = true) rows ->
  let selected := CsvScraper.select_products rows in
  let file_of p := CsvScraper.no p +:+ "ELBL.pdf" in
  let url_of p := "https://elabels.apvma.gov.au/" +:+ file_of p in
  NoDup (CsvScraper.actives <$> selected)
  /\ (forall p, p ∈ selected ->
        exists i r, Selection.first_of_its_actives rows i r
                    /\ p = Selection.entry r)
  /\ (forall i r, rows !! i = Some r -> Selection.qualifies r = true ->
        exists p, p ∈ selected /\ CsvScraper.actives p = Selection.key r)
  /\ (forall st r,
        Selection.complete r = true -> Selection.qualifies r = false ->
        CsvScraper.select_row st r = Ok st)
  /\ (forall server w,
        NoDup (CsvScraper.no <$> selected) ->
        (forall p, p ∈ selected ->
           Fs.plain_name (file_of p) = true /\ store w !! file_of p = None) ->
        let after := (CsvScraper.process_csv server rows w).2 in
        exists replies,
          length replies = length selected
          /\ trace after
             = trace w ++ zip (map (fun p => GET (url_of p)) selected) replies
          /\ (forall i p resp,
                selected !! i = Some p ->
                replies !! i = Some (Response resp) ->
                Http.is_error_status (status_code resp) = false ->
                content_length resp <> Some None ->
                store after !! file_of p = Some (concat (iter_content resp)))
          /\ (forall name,
                is_Some (store after !! name) ->
                is_Some (store w !! name)
                \/ exists p, p ∈ selected /\ name = file_of p))
  /\ (forall server w, exists evs,
        trace (CsvScraper.process_csv server rows w).2 = trace w ++ evs
        /\ sublist evs.*1 (map (fun p => GET (url_of p)) selected)).
Proof.
  intros Hcomplete selected file_of url_of.
  assert (Hrun : forall server w,
             CsvScraper.process_csv server rows w
             = CsvScraper.download_all server selected (0, 0) w).
  { intros server w.
    by destruct (process_csv_cases server rows w) as [[_ ->]|[Hnot _]]. }
  subst selected. rewrite (select_products_complete rows Hcomplete) in *.
  destruct (select_rows_invariant rows) as (_ & Hnd & Hsel & Hall).
  split; [done|]. split; [done|]. split; [done|].
  split.
  { intros st r Hc Hq. rewrite select_row_complete by done.
    by rewrite step_unqualified. }
  split.
  - intros server w Hnos Habs after. subst after. rewrite Hrun.
    destruct (download_all_absent server
                (fold_left Selection.step rows (∅, [])).2 (0, 0) w Hnos)
      as (replies & Hlen & Htr & Hstored).
    { intros p Hp. by apply Habs. }
    exists replies. split; [done|]. split; [exact Htr|].
    split; [exact Hstored|].
    intros name Hin. by apply download_all_new_files in Hin.
  - intros server w. rewrite Hrun.
    destruct (download_all_exchanges server
                (fold_left Selection.step rows (∅, [])).2 (0, 0) w)
      as (c & evs & _ & Htr & Hsub & _).
    by exists evs.
Qed.

(** Three records whose [Actives] fields are three different non-empty
    strings and whose [No] fields are non-empty: the selection keeps the
    first and no other.  The second differs from the first by a leading
    space, which [strip()] removes before the comparison; the [No] of the
    third is a space, of which [strip()] leaves nothing. *)
Lemma C10_counterexample :
  (fun r => r !! "Actives") <$> Samples.padded
  = [Some (Some "glyphosate"); Some (Some " glyphosate"); Some (Some "2,4-D")]
  /\ (fun r => r !! "No") <$> Samples.padded
     = [Some (Some "31394"); Some (Some "45678"); Some (Some " ")]
  /\ CsvScraper.select_products Samples.padded
     = [ {| CsvScraper.no := "31394"; CsvScraper.actives := "glyphosate";
            CsvScraper.name := Some "Product" |} ]
  /\ (trace (CsvScraper.process_csv Samples.server_404 Samples.padded
               Samples.empty_world).2).*1
     = [GET "https://elabels.apvma.gov.au/31394ELBL.pdf"].
Proof.
  split; [|split; [|split]]; vm_compute; reflexivity.
Qed.

(** X27.  A record that breaks off before its [Actives] or [No] field ends
    the run: [None] has no [strip], the [AttributeError] is caught nowhere,
    and nothing is requested or stored, whatever records come before or
    after. *)
Theorem short_record_ends_the_run server rows r w :
  r ∈ rows ->
  r !! "Actives" = Some None \/ r !! "No" = Some None ->
  CsvScraper.process_csv server rows w = (Raise AttributeError, w).
Proof.
  intros Hin Hshort.
  destruct (process_csv_cases server rows w) as [[Hall _]|(_ & _ & Hrun)];
    [|exact Hrun].
  exfalso. rewrite Forall_forall in Hall. specialize (Hall r Hin).
  unfold Selection.complete, CsvScraper.get in Hall.
  destruct Hshort as [Hshort|Hshort]; rewrite Hshort in Hall.
  - discriminate.
  - by destruct (default (Some "") (r !! "Actives")).
Qed.

(** ** The conversion stage *)

Lemma endswith_spec suffix s :
  Parser.endswith suffix s = true -> exists stem, s = stem +:+ suffix.
Proof.
  induction s as [|a s IH]; cbn [Parser.endswith].
  - rewrite orb_false_r. intros Heq%String.eqb_eq. by exists "".
  - intros [Heq%String.eqb_eq | Hrest]%orb_true_iff.
    + by exists "".
    + destruct (IH Hrest) as [stem ->]. by exists (String a stem).
Qed.

Lemma rfind_none c s : PyStr.contains c s = false -> PyStr.rfind c s = None.
Proof.
  intros Hno. pose proof (rfind_spec c s) as Hr.
  destruct (PyStr.rfind c s) as [i|]; [|done].
  destruct Hr as [Hs _]. rewrite Hs in Hno. exfalso. revert Hno. clear.
  generalize (PyStr.take i s) as d. intros d.
  induction d as [|a d IH].
  - change ("" +:+ ?x) with x. simpl. by rewrite Ascii.eqb_refl.
  - rewrite append_cons. cbn [PyStr.contains].
    destruct (Ascii.eqb a c); [done|]. apply IH.
Qed.

(** The last occurrence in [s ++ c t], where [t] has none, is the [c]. *)
Lemma rfind_last c s t :
  PyStr.contains c t = false ->
  PyStr.rfind c (s +:+ String c t) = Some (String.length s).
Proof.
  intros Hno. induction s as [|a s IH].
  - change ("" +:+ ?x) with x. simpl. rewrite (rfind_none _ _ Hno).
    by rewrite Ascii.eqb_refl.
  - rewrite append_cons. simpl. by rewrite IH.
Qed.

Lemma take_append s t : PyStr.take (String.length s) (s +:+ t) = s.
Proof.
  induction s as [|a s IH].
  - change ("" +:+ ?x) with x. by destruct t.
  - rewrite append_cons. simpl. by rewrite IH.
Qed.

Lemma contains_append c s t :
  PyStr.contains c (s +:+ t) = PyStr.contains c s || PyStr.contains c t.
Proof.
  induction s as [|a s IH]; [done|].
  rewrite append_cons. simpl. rewrite IH. by rewrite orb_assoc.
Qed.

(** The two names of a label, split at its extension. *)
Lemma markdown_name_facts name :
  Parser.matches_pdf name = true ->
  PyStr.contains "/" name = false ->
  exists stem,
    name = stem +:+ ".pdf"
    /\ Parser.output_filename_of name = stem +:+ ".md".
Proof.
  intros [Hend Hhidden%negb_true_iff]%andb_true_iff Hslash.
  destruct (endswith_spec _ _ Hend) as [stem ->]. exists stem. split; [done|].
  unfold Parser.output_filename_of, Url.basename.
  rewrite (rfind_none _ _ Hslash). unfold Parser.splitext.
  rewrite (rfind_none _ _ Hslash).
  rewrite (rfind_last "." stem "pdf") by done.
  rewrite Nat.sub_0_r. simpl PyStr.drop. rewrite take_append.
  destruct stem as [|a stem]; [done|].
  rewrite append_cons in Hhidden. cbn [PyStr.startswith] in Hhidden.
  rewrite andb_true_r in Hhidden.
  cbn [PyStr.all Nat.leb]. by rewrite Hhidden.
Qed.

(** X21.  For a label that [glob] gives, a name of the form [stem.pdf]
    that is not hidden, the parsed file is named [stem.md]. *)
Theorem markdown_name_of_label name :
  Parser.matches_pdf name = true ->
  PyStr.contains "/" name = false ->
  exists stem,
    name = stem +:+ ".pdf"
    /\ Parser.output_filename_of name = stem +:+ ".md".
Proof.
  intros Hmatch Hslash.
  destruct (markdown_name_facts name Hmatch Hslash) as (stem & Hname & Hout).
  exists stem. split; [exact Hname | exact Hout].
Qed.

(** X22.  Two labels that [glob] gives never share a parsed file. *)
Theorem markdown_names_are_distinct name1 name2 :
  Parser.matches_pdf name1 = true -> PyStr.contains "/" name1 = false ->
  Parser.matches_pdf name2 = true -> PyStr.contains "/" name2 = false ->
  Parser.output_filename_of name1 = Parser.output_filename_of name2 ->
  name1 = name2.
Proof.
  intros Hm1 Hs1 Hm2 Hs2 Heq.
  destruct (markdown_name_facts name1 Hm1 Hs1) as (stem1 & -> & Ho1).
  destruct (markdown_name_facts name2 Hm2 Hs2) as (stem2 & -> & Ho2).
  rewrite Ho1, Ho2 in Heq. apply append_inj_r in Heq. by subst.
Qed.

Section Conversion.
Variable service : Parser.service_t.

(** What one call of [parse_pdf] does to the two directories and
    answers. *)
Lemma parse_pdf_facts pdf_name output_name st :
  let r := Parser.parse_pdf service pdf_name output_name st in
  Parser.labels r.2 = Parser.labels st
  /\ Parser.parsed st ⊆ Parser.parsed r.2
  /\ (forall other, other <> output_name ->
        Parser.parsed r.2 !! other = Parser.parsed st !! other)
  /\ (is_Some (Parser.parsed st !! output_name) -> r = (true, st))
  /\ (Parser.parsed st !! output_name = None ->
      Parser.calls r.2 = Parser.calls st ++ [pdf_name]
      /\ match service (Parser.calls st) pdf_name
                 (Parser.labels st !! pdf_name) with
         | Some documents =>
             r.1 = true
             /\ Parser.parsed r.2 !! output_name
                = Some (PyStr.join (Parser.newline +:+ Parser.newline)
                          documents)
         | None => r.1 = false /\ Parser.parsed r.2 = Parser.parsed st
         end).
Proof.
  unfold Parser.parse_pdf. case_bool_decide as Hin.
  - simpl. repeat split; try done; destruct Hin as [x Hx]; congruence.
  - assert (Parser.parsed st !! output_name = None) as Hnone.
    { destruct (Parser.parsed st !! output_name); [|done].
      exfalso. apply Hin. by eexists. }
    destruct (service (Parser.calls st) pdf_name (Parser.labels st !! pdf_name))
      as [documents|]; simpl.
    + split; [done|]. split; [by apply insert_subseteq|].
      split; [by intros other Hne; rewrite lookup_insert_ne|].
      split; [by intros [x Hx]; congruence|].
      intros _. by rewrite lookup_insert_eq.
    + repeat split; try done; try (intros [x Hx]; congruence).
Qed.


Lemma parse_all_contract pdf_files counts st :
  let r := Parser.parse_all service pdf_files counts st in
  Parser.labels r.2 = Parser.labels st
  /\ Parser.parsed st ⊆ Parser.parsed r.2
  /\ r.1.1 + r.1.2 = counts.1 + counts.2 + length pdf_files
  /\ counts.1 <= r.1.1 /\ counts.2 <= r.1.2.
Proof.
  revert counts st. induction pdf_files as [|name rest IH];
    intros [sc fc] st; simpl.
  { split; [done|]. split; [done|]. lia. }
  pose proof (parse_pdf_facts name (Parser.output_filename_of name) st)
    as (Hlab & Hsub & _).
  destruct (Parser.parse_pdf service name (Parser.output_filename_of name) st)
    as [[|] st1]; simpl in *.
  - destruct (IH (S sc, fc) st1) as (Hlab' & Hsub' & Hsum & H1 & H2).
    simpl in *. split; [congruence|]. split; [by etrans|]. lia.
  - destruct (IH (sc, S fc) st1) as (Hlab' & Hsub' & Hsum & H1 & H2).
    simpl in *. split; [congruence|]. split; [by etrans|]. lia.
Qed.

Lemma parse_all_calls pdf_files counts st :
  exists new,
    Parser.calls (Parser.parse_all service pdf_files counts st).2
      = Parser.calls st ++ new
    /\ forall name, name ∈ new ->
         name ∈ pdf_files
         /\ Parser.parsed st !! Parser.output_filename_of name = None.
Proof.
  revert counts st. induction pdf_files as [|name rest IH];
    intros [sc fc] st; simpl.
  { exists []. rewrite app_nil_r. split; [done|]. intros n Hn.
    by apply elem_of_nil in Hn. }
  pose proof (parse_pdf_facts name (Parser.output_filename_of name) st)
    as (_ & Hsub & _ & Hskip & Hcall).
  assert (Hhead : exists new0,
             Parser.calls (Parser.parse_pdf service name
                             (Parser.output_filename_of name) st).2
               = Parser.calls st ++ new0
             /\ forall n, n ∈ new0 ->
                  n = name
                  /\ Parser.parsed st !! Parser.output_filename_of name = None).
  { destruct (Parser.parsed st !! Parser.output_filename_of name) as [x|] eqn:Hx.
    - rewrite Hskip by eauto. exists []. simpl. rewrite app_nil_r.
      split; [done|]. intros n Hn. by apply elem_of_nil in Hn.
    - destruct (Hcall eq_refl) as [-> _]. exists [name]. split; [done|].
      intros n Hn. by apply list_elem_of_singleton in Hn as ->. }
  destruct Hhead as (new0 & Htr0 & Hnew0).
  destruct (Parser.parse_pdf service name (Parser.output_filename_of name) st)
    as [ok st1]; simpl in *.
  assert (Hrest : forall c, exists new,
             Parser.calls (Parser.parse_all service rest c st1).2
               = Parser.calls st ++ new
             /\ forall n, n ∈ new ->
                  n ∈ name :: rest
                  /\ Parser.parsed st !! Parser.output_filename_of n = None).
  { intros c. destruct (IH c st1) as (new1 & Htr1 & Hnew1).
    exists (new0 ++ new1). rewrite Htr1, Htr0, <- app_assoc. split; [done|].
    intros n [Hn|Hn]%elem_of_app.
    - destruct (Hnew0 n Hn) as [-> Habs]. split; [by left | done].
    - destruct (Hnew1 n Hn) as [Hin Habs]. split; [by right|].
      destruct (Parser.parsed st !! Parser.output_filename_of n) as [x|] eqn:Hx;
        [|done].
      apply (lookup_weaken _ _ _ _ Hx) in Hsub. congruence. }
  destruct ok; apply Hrest.
Qed.

(** X24.  Without an API key, [None] or empty, [main] does nothing.  With
    one, it never touches the labels, never changes or removes a parsed
    file that was there, counts every label that [glob] gives once, as
    parsed or as failed, and calls the service only for labels whose
    parsed file was not there when the run began. *)
Theorem main_contract api_key st :
  let r := Parser.main service api_key st in
  ((api_key = None \/ api_key = Some "") -> r = (None, st))
  /\ Parser.labels r.2 = Parser.labels st
  /\ Parser.parsed st ⊆ Parser.parsed r.2
  /\ (forall key, api_key = Some key -> key <> "" ->
        exists success_count fail_count,
          r.1 = Some (success_count, fail_count)
          /\ success_count + fail_count
             = length (Parser.glob_pdf (Parser.labels st)))
  /\ exists new,
       Parser.calls r.2 = Parser.calls st ++ new
       /\ forall name, name ∈ new ->
            name ∈ Parser.glob_pdf (Parser.labels st)
            /\ Parser.parsed st !! Parser.output_filename_of name = None.
Proof.
  unfold Parser.main.
  destruct api_key as [[|a key]|]; simpl.
  1,3: repeat split; try done; try (intros ? [= <-]; done);
    exists []; rewrite app_nil_r; (split; [done|]);
    intros n Hn; by apply elem_of_nil in Hn.
  pose proof (parse_all_contract (Parser.glob_pdf (Parser.labels st)) (0, 0) st)
    as (Hlab & Hsub & Hsum & _).
  pose proof (parse_all_calls (Parser.glob_pdf (Parser.labels st)) (0, 0) st)
    as Hcalls.
  destruct (Parser.parse_all service (Parser.glob_pdf (Parser.labels st))
              (0, 0) st) as [[sc fc] st1]; simpl in *.
  split; [by intros [[=]|[=]]|]. split; [done|]. split; [done|].
  split; [|done]. intros key' _ _. by exists sc, fc.
Qed.

(** X25.  When the parsed file of every label is there already, a run
    calls the service for nothing, changes nothing and counts every label
    as parsed. *)
Theorem main_on_parsed_store key st :
  key <> "" ->
  (forall name, name ∈ Parser.glob_pdf (Parser.labels st) ->
                is_Some (Parser.parsed st !! Parser.output_filename_of name)) ->
  Parser.main service (Some key) st
  = (Some (length (Parser.glob_pdf (Parser.labels st)), 0), st).
Proof.
  intros Hkey Hall. unfold Parser.main.
  destruct key as [|a key]; [done|]. simpl.
  generalize dependent (Parser.glob_pdf (Parser.labels st)).
  intros files Hall.
  assert (forall sc, Parser.parse_all service files (sc, 0) st
                     = ((sc + length files, 0), st)) as Hgen.
  { induction files as [|name rest IH]; intros sc; simpl.
    - by rewrite Nat.add_0_r.
    - pose proof (parse_pdf_facts name (Parser.output_filename_of name) st)
        as (_ & _ & _ & Hskip & _).
      rewrite Hskip by (apply Hall; by left).
      rewrite IH by (intros n Hn; apply Hall; by right).
      do 2 f_equal. lia. }
  by rewrite (Hgen 0).
Qed.

Lemma parse_all_without_failure pdf_files sc fc st :
  (Parser.parse_all service pdf_files (sc, fc) st).1.2 = fc ->
  forall name, name ∈ pdf_files ->
    is_Some (Parser.parsed (Parser.parse_all service pdf_files (sc, fc) st).2
               !! Parser.output_filename_of name).
Proof.
  revert sc st. induction pdf_files as [|name rest IH];
    intros sc st Hfc n Hn.
  { by apply elem_of_nil in Hn. }
  simpl in *.
  pose proof (parse_pdf_facts name (Parser.output_filename_of name) st)
    as (_ & _ & _ & Hskip & Hcall).
  assert (Hok : (Parser.parse_pdf service name
                   (Parser.output_filename_of name) st).1 = true ->
                is_Some (Parser.parsed
                           (Parser.parse_pdf service name
                              (Parser.output_filename_of name) st).2
                           !! Parser.output_filename_of name)).
  { intros Htrue.
    destruct (Parser.parsed st !! Parser.output_filename_of name) as [x|] eqn:Hx.
    - rewrite Hskip by eauto. simpl. rewrite Hx. eauto.
    - destruct (Hcall eq_refl) as [_ Hres].
      destruct (service _ _ _); destruct Hres as [H1 H2]; [eauto|congruence]. }
  destruct (Parser.parse_pdf service name (Parser.output_filename_of name) st)
    as [[|] st1]; simpl in *.
  - apply elem_of_cons in Hn as [->|Hn]; [|by apply IH].
    destruct (Hok eq_refl) as [x Hx].
    pose proof (parse_all_contract rest (S sc, fc) st1) as (_ & Hsub & _).
    exists x. by eapply lookup_weaken.
  - pose proof (parse_all_contract rest (sc, S fc) st1) as (_ & _ & _ & _ & H2).
    simpl in H2. lia.
Qed.

(** X26.  When the report of a run shows no failure, every label that
    [glob] gives has its parsed file afterwards. *)
Theorem main_without_failure key st success_count :
  (Parser.main service (Some key) st).1 = Some (success_count, 0) ->
  forall name, name ∈ Parser.glob_pdf (Parser.labels st) ->
    is_Some (Parser.parsed (Parser.main service (Some key) st).2
               !! Parser.output_filename_of name).
Proof.
  unfold Parser.main. destruct (negb (PyStr.truthy key)); [done|].
  pose proof (parse_all_without_failure (Parser.glob_pdf (Parser.labels st))
                0 0 st) as Hall.
  destruct (Parser.parse_all service (Parser.glob_pdf (Parser.labels st))
              (0, 0) st) as [[sc fc] st1]; simpl in *.
  intros [= -> ->]. by apply Hall.
Qed.

End Conversion.

(** ** Instances *)

Lemma fetch_saves_whole_body_witness :
  let url := " https://portal.apvma.gov.au/files/A1.pdf" in
  let resp := Samples.document [Samples.pdf_magic; Samples.pdf_tail] false in
  let w := Samples.empty_world in
  let w' := {| store := <["A1.pdf" := concat (iter_content resp)]> (store w);
               trace := trace w ++ [(GET url, Response resp)] |} in
  Scraper.download_pdf Samples.portal url "A1.pdf" w = (Ok true, w')
  /\ (store w !! "A1.pdf" = None ->
      CsvScraper.download_pdf Samples.portal url "A1.pdf" w = (Ok true, w')).
Proof.
  intros url resp w.
  apply (fetch_saves_whole_body Samples.portal url "A1.pdf" resp w).
  - vm_compute. reflexivity.
  - vm_compute. reflexivity.
  - reflexivity.
  - discriminate.
  - vm_compute. reflexivity.
  - vm_compute. reflexivity.
  - reflexivity.
Defined.

Lemma fetch_refused_leaves_no_file_witness :
  let url := "https://portal.apvma.gov.au/files/A1.pdf" in
  let w := Samples.empty_world in
  let w' := {| store := store w;
               trace := trace w ++ [(GET url, Samples.server_500 (trace w) (GET url))] |} in
  Scraper.download_pdf Samples.server_500 url "A1.pdf" w = (Ok false, w')
  /\ (store w !! "A1.pdf" = None -> Fs.names_directory "A1.pdf" = false ->
      CsvScraper.download_pdf Samples.server_500 url "A1.pdf" w = (Ok false, w')).
Proof.
  intros url w.
  apply (fetch_refused_leaves_no_file Samples.server_500 url "A1.pdf" w).
  - vm_compute. reflexivity.
  - right. exists (Samples.status 500). split; reflexivity.
Defined.

Lemma fetch_without_transport_sends_nothing_witness :
  let w := Samples.empty_world in
  (Scraper.download_pdf Samples.portal "/files/A1.pdf" "A1.pdf" w
   = (Ok false, w)
   /\ (store w !! "A1.pdf" = None -> Fs.names_directory "A1.pdf" = false ->
       CsvScraper.download_pdf Samples.portal "/files/A1.pdf" "A1.pdf" w
       = (Ok false, w)))
  /\ (Scraper.download_pdf Samples.portal " HTTPS:///files/A1.pdf" "A1.pdf" w
      = (Ok false, w)
      /\ (store w !! "A1.pdf" = None -> Fs.names_directory "A1.pdf" = false ->
          CsvScraper.download_pdf Samples.portal " HTTPS:///files/A1.pdf"
            "A1.pdf" w
          = (Ok false, w))).
Proof.
  intros w. split.
  - apply (fetch_without_transport_sends_nothing Samples.portal
             "/files/A1.pdf" "A1.pdf" w).
    vm_compute. reflexivity.
  - apply (fetch_without_transport_sends_nothing Samples.portal
             " HTTPS:///files/A1.pdf" "A1.pdf" w).
    vm_compute. reflexivity.
Defined.

Lemma fetch_with_malformed_length_witness :
  let url := "https://portal.apvma.gov.au/files/A1.pdf" in
  let resp := {| status_code := 200; content_length := Some None;
                 text := Samples.blank; iter_content := [Samples.pdf_magic];
                 stream_fault := false |} in
  let w := Samples.empty_world in
  let w' := {| store := store w;
               trace := trace w ++ [(GET url, Response resp)] |} in
  Scraper.download_pdf Samples.server_bad_length url "A1.pdf" w
    = (Raise ValueError, w')
  /\ (store w !! "A1.pdf" = None -> Fs.names_directory "A1.pdf" = false ->
      CsvScraper.download_pdf Samples.server_bad_length url "A1.pdf" w
      = (Ok false, w')).
Proof.
  intros url resp w.
  apply (fetch_with_malformed_length Samples.server_bad_length url "A1.pdf"
           resp w).
  - vm_compute. reflexivity.
  - reflexivity.
  - reflexivity.
  - reflexivity.
Defined.

Lemma search_walk_keeps_partial_results_witness :
  let found : gset string :=
    list_to_set [Samples.product_a; Samples.product_b] in
  let w1 :=
    {| store := ∅;
       trace := [(Walk.search_request "Zx81" 1,
                  Samples.portal [] (Walk.search_request "Zx81" 1))] |} in
  Scraper.search_loop Samples.portal_with_one_page 2 Scraper.MAX_PAGES
    "Zx81" 1 ∅ Samples.empty_world
  = (Ok (Some found),
     {| store := store w1;
        trace := trace w1 ++ [(Walk.search_request "Zx81" 2,
                               Samples.portal_with_one_page (trace w1)
                                 (Walk.search_request "Zx81" 2))] |}).
Proof.
  intros found w1.
  apply (search_walk_keeps_partial_results Samples.portal_with_one_page
           Scraper.MAX_PAGES "Zx81" Samples.empty_world w1 2 found 2).
  - eapply Walk.arrives_next; [apply Walk.arrives_first|].
    vm_compute. reflexivity.
  - left. reflexivity.
  - lia.
Defined.

Lemma search_walk_bare_anchor_witness :
  let w := Samples.empty_world in
  Scraper.search_loop Samples.portal_with_bare_row 2 Scraper.MAX_PAGES
    "Zx81" 1 ∅ w
  = (Raise KeyError,
     {| store := store w;
        trace := trace w ++ [(Walk.search_request "Zx81" 1,
                              Response Samples.bare_row_page)] |}).
Proof.
  intros w.
  apply (search_walk_bare_anchor Samples.portal_with_bare_row
           Scraper.MAX_PAGES "Zx81" w w 1 ∅ 2 Samples.bare_row_page
           (Samples.header_row
              :: [Samples.link_row Samples.product_a;
                  Row (Some (Cell (Some ∅)));
                  Samples.link_row Samples.product_b])).
  - apply Walk.arrives_first.
  - reflexivity.
  - reflexivity.
  - reflexivity.
  - exists (Row (Some (Cell (Some ∅)))). split.
    + right. left.
    + vm_compute. reflexivity.
  - lia.
Defined.

Lemma scan_counts_new_links_witness :
  let rows := [Samples.link_row Samples.product_a;
               Samples.link_row Samples.product_b;
               Samples.link_row Samples.product_a] in
  let found : gset string := {[ Samples.product_b ]} in
  let found' : gset string := {[ Samples.product_a ]} ∪ found in
  Samples.empty_world = Samples.empty_world
  /\ found ⊆ found'
  /\ found' = found ∪ list_to_set (Walk.links_of rows)
  /\ 1 = size (found' ∖ found).
Proof.
  intros rows found found'.
  apply (scan_counts_new_links rows found Samples.empty_world found' 1
           Samples.empty_world).
  vm_compute. reflexivity.
Defined.

Lemma empty_token_ends_the_run_witness :
  let w := Samples.empty_world in
  Scraper.scrape_labels_with Samples.portal_with_empty_token
    Scraper.MAX_PAGES 2 w
  = (Ok (Some None),
     {| store := store w;
        trace := trace w ++ [(GET Scraper.SEARCH_URL,
                              Response Samples.empty_token_page)] |}).
Proof.
  intros w.
  apply (empty_token_ends_the_run Samples.portal_with_empty_token
           Scraper.MAX_PAGES 2 w Samples.empty_token_page
           {[ "name" := "p_auth"; "value" := "" ]}).
  - reflexivity.
  - reflexivity.
  - reflexivity.
  - vm_compute. reflexivity.
Defined.


Lemma links_without_transport_are_not_requested_witness :
  for_each ["/products/a"; "products/b"; " https:///products/c"]
    (Scraper.process_product Samples.portal) Samples.empty_world
  = (Ok tt, Samples.empty_world).
Proof.
  apply (links_without_transport_are_not_requested Samples.portal
           ["/products/a"; "products/b"; " https:///products/c"]
           Samples.empty_world).
  apply (bool_decide_unpack _). vm_compute. exact I.
Defined.

Lemma process_csv_on_complete_store_witness :
  CsvScraper.process_csv Samples.server_404 Samples.two_products
    Samples.both_labels
  = (Ok (length (CsvScraper.select_products Samples.two_products), 0),
     Samples.both_labels).
Proof.
  apply (process_csv_on_complete_store Samples.server_404
           Samples.two_products Samples.both_labels).
  { apply (bool_decide_unpack _). vm_compute. exact I. }
  apply (proj1 (Forall_forall
                  (fun p => is_Some (store Samples.both_labels
                                       !! CsvScraper.filename_of p)) _)).
  apply (bool_decide_unpack _). vm_compute. exact I.
Defined.

Lemma process_csv_without_failure_witness :
  is_Some (store (CsvScraper.process_csv Samples.portal Samples.two_products
                    Samples.empty_world).2
             !! "31394ELBL.pdf").
Proof.
  refine (process_csv_without_failure Samples.portal Samples.two_products
            Samples.empty_world 2 _
            {| CsvScraper.no := "31394"; CsvScraper.actives := "glyphosate";
               CsvScraper.name := Some "Product" |} _).
  - vm_compute. reflexivity.
  - apply (proj2 (list_elem_of_lookup _ _)). exists 0. vm_compute. reflexivity.
Defined.

Lemma markdown_name_of_label_witness :
  exists stem,
    "31394ELBL.pdf" = stem +:+ ".pdf"
    /\ Parser.output_filename_of "31394ELBL.pdf" = stem +:+ ".md".
Proof.
  apply (markdown_name_of_label "31394ELBL.pdf"); vm_compute; reflexivity.
Defined.

Lemma markdown_names_are_distinct_witness :
  Parser.output_filename_of "A1.pdf" = "A1.md"
  /\ Parser.output_filename_of "B2.pdf" = "B2.md"
  /\ "A1.pdf" = "A1.pdf".
Proof.
  split; [vm_compute; reflexivity|]. split; [vm_compute; reflexivity|].
  apply (markdown_names_are_distinct "A1.pdf" "A1.pdf");
    vm_compute; reflexivity.
Defined.

Lemma main_on_parsed_store_witness :
  Parser.main Samples.parsing_service (Some "llx-key") Samples.all_parsed
  = (Some (length (Parser.glob_pdf (Parser.labels Samples.all_parsed)), 0),
     Samples.all_parsed).
Proof.
  apply (main_on_parsed_store Samples.parsing_service "llx-key"
           Samples.all_parsed).
  - discriminate.
  - apply (proj1 (Forall_forall
                    (fun name =>
                       is_Some (Parser.parsed Samples.all_parsed
                                  !! Parser.output_filename_of name)) _)).
    apply (bool_decide_unpack _). vm_compute. exact I.
Defined.

Lemma main_without_failure_witness :
  is_Some (Parser.parsed
             (Parser.main Samples.willing_service (Some "llx-key")
                Samples.unparsed).2
             !! Parser.output_filename_of "45678ELBL.pdf").
Proof.
  refine (main_without_failure Samples.willing_service "llx-key"
            Samples.unparsed 2 _ "45678ELBL.pdf" _).
  - vm_compute. reflexivity.
  - apply (bool_decide_unpack _). vm_compute. exact I.
Defined.

Lemma selection_is_stable_witness :
  CsvScraper.select_products (take 2 Samples.untidy)
    `prefix_of` CsvScraper.select_products
                  (take 2 Samples.untidy ++ drop 2 Samples.untidy)
  /\ CsvScraper.select_products (take 2 Samples.untidy ++ take 2 Samples.untidy)
     = CsvScraper.select_products (take 2 Samples.untidy)
  /\ length (CsvScraper.select_products (take 2 Samples.untidy))
     <= length (take 2 Samples.untidy).
Proof.
  apply (selection_is_stable (take 2 Samples.untidy) (drop 2 Samples.untidy)).
  apply (bool_decide_unpack _). vm_compute. exact I.
Defined.

Lemma short_record_ends_the_run_witness :
  CsvScraper.process_csv Samples.portal
    (Samples.two_products ++ [Samples.short_record]) Samples.empty_world
  = (Raise AttributeError, Samples.empty_world).
Proof.
  apply (short_record_ends_the_run Samples.portal
           (Samples.two_products ++ [Samples.short_record])
           Samples.short_record Samples.empty_world).
  - right. right. left.
  - right. vm_compute. reflexivity.
Defined.

Lemma C10_witness :
  let selected := CsvScraper.select_products Samples.untidy in
  let after :=
    (CsvScraper.process_csv Samples.portal Samples.untidy
       Samples.empty_world).2 in
  NoDup (CsvScraper.actives <$> selected)
  /\ exists replies,
       length replies = length selected
       /\ trace after
          = [] ++ zip (map (fun p => GET ("https://elabels.apvma.gov.au/"
                                         +:+ CsvScraper.no p +:+ "ELBL.pdf"))
                       selected) replies.
Proof.
  intros selected after.
  destruct (C10_one_entry_per_actives Samples.untidy)
    as (Hnd & _ & _ & _ & Hrun & _).
  - apply (bool_decide_unpack _). vm_compute. exact I.
  - split; [exact Hnd|].
    destruct (Hrun Samples.portal Samples.empty_world)
      as (replies & Hlen & Htr & _).
    + apply (bool_decide_unpack _). vm_compute. exact I.
    + intros p Hp. split; [|apply lookup_empty].
      apply (proj1 (Forall_forall
                      (fun p => Fs.plain_name
                                  (CsvScraper.no p +:+ "ELBL.pdf") = true)
                      (CsvScraper.select_products Samples.untidy)));
        [|exact Hp].
      apply (bool_decide_unpack _). vm_compute. exact I.
    + exists replies. split; [exact Hlen | exact Htr].
Defined.
